(** * Order-notification worker: pricing, rendering, failure classification
      and the job processor

    The repository holds four revisions of one BullMQ worker.  Each revision
    is embedded in a module of its own, named after the file it comes from:

    - [Part000a]  src/unnamed/part_000, first document  (lines 1-305)
    - [Part000b]  src/unnamed/part_000, second document (lines 306-620)
    - [Part001]   src/unnamed/part_001
    - [WorkerTs]  src/src/worker.ts

    Modelling conventions.
    - JavaScript numbers are modelled by [Js.number]: an exact integer
      (monetary amounts are integers in minor units, quantities and HTTP
      statuses are integers) or one of the non-finite values that [Math.max]
      and [/] can produce.  Rounding of doubles is not modelled.
    - Strings are byte strings; [toLowerCase] acts on ASCII letters only.
    - The asynchronous processor is run against a [World] that fixes the
      answers of the gateway, of [Math.random] and of [Date.now]; the calls on
      the job handle ([log], [updateProgress], [moveToDelayed],
      [moveToFailed]) are assumed to succeed and are recorded in a trace. *)

From Stdlib Require Import ZArith List String Ascii Bool Lia Permutation.
From Stdlib Require Import QArith Lqa DecimalString.
Import ListNotations.

Local Open Scope string_scope.
Local Open Scope Z_scope.

(** String concatenation, JavaScript's [+] on strings. *)
Local Infix "+++" := String.append (right associativity, at level 60).

(* ================================================================= *)
(** ** JavaScript values and primitives *)

Module Js.

Inductive number : Type :=
| Fin (z : Z)
| PosInfinity
| NegInfinity
| NaN.

Definition is_finite (n : number) : bool :=
  match n with Fin _ => true | _ => false end.

(** [a + b] *)
Definition add (a b : number) : number :=
  match a, b with
  | NaN, _ | _, NaN => NaN
  | Fin x, Fin y => Fin (x + y)
  | PosInfinity, NegInfinity | NegInfinity, PosInfinity => NaN
  | PosInfinity, _ | _, PosInfinity => PosInfinity
  | NegInfinity, _ | _, NegInfinity => NegInfinity
  end.

Definition infinity_of_sign (positive : bool) : number :=
  if positive then PosInfinity else NegInfinity.

Definition scale_infinity (positive : bool) (z : Z) : number :=
  if z =? 0 then NaN else infinity_of_sign (Bool.eqb positive (0 <? z)).

(** [a * b] *)
Definition mul (a b : number) : number :=
  match a, b with
  | NaN, _ | _, NaN => NaN
  | Fin x, Fin y => Fin (x * y)
  | PosInfinity, Fin y | Fin y, PosInfinity => scale_infinity true y
  | NegInfinity, Fin y | Fin y, NegInfinity => scale_infinity false y
  | PosInfinity, PosInfinity | NegInfinity, NegInfinity => PosInfinity
  | PosInfinity, NegInfinity | NegInfinity, PosInfinity => NegInfinity
  end.

(** [Math.max(...xs)]: the maximum of no argument is [-Infinity]. *)
Definition Math_max (xs : list Z) : number :=
  match xs with
  | [] => NegInfinity
  | x :: rest => Fin (fold_left Z.max rest x)
  end.

(** [Math.round(a / b)] on integers: the quotient is rounded to the nearest
    integer, halves towards [+Infinity]; a zero divisor gives a non-finite
    value and no exception. *)
Definition Math_round_div (a b : Z) : number :=
  if b =? 0 then
    if a =? 0 then NaN else infinity_of_sign (0 <? a)
  else Fin ((2 * a + b) / (2 * b)).

(** [xs.reduce((a, b) => a + b, 0)] *)
Definition reduce_sum (xs : list Z) : Z :=
  fold_left (fun a b => a + b) xs 0.

(** [a || b] where both sides are arrays or absent: every array is truthy. *)
Definition or_array {A : Type} (a b : option (list A)) : option (list A) :=
  match a with
  | Some xs => Some xs
  | None => b
  end.

(** Truthiness of an optional string: absent and empty are falsy. *)
Definition truthy_string (s : option string) : bool :=
  match s with
  | Some (String _ _) => true
  | _ => false
  end.

(** [a || b] on optional strings. *)
Definition or_string (a b : option string) : option string :=
  if truthy_string a then a else b.

(** Truthiness of an optional number: absent and zero are falsy. *)
Definition truthy_number (n : option Z) : bool :=
  match n with
  | Some z => negb (z =? 0)
  | None => false
  end.

(** [x ?? 0] *)
Definition or_zero (x : option Z) : Z :=
  match x with
  | Some z => z
  | None => 0
  end.

(** Template-literal conversion of an integer. *)
Definition show (z : Z) : string :=
  NilZero.string_of_int (Z.to_int z).

(** Template-literal conversion of a possibly absent string. *)
Definition show_string (s : option string) : string :=
  match s with
  | Some x => x
  | None => "undefined"
  end.

Definition lower_ascii (c : ascii) : ascii :=
  let n := nat_of_ascii c in
  if ((65 <=? n) && (n <=? 90))%nat then ascii_of_nat (n + 32) else c.

(** [s.toLowerCase()] *)
Fixpoint toLowerCase (s : string) : string :=
  match s with
  | EmptyString => EmptyString
  | String c rest => String (lower_ascii c) (toLowerCase rest)
  end.

(** [hay.includes(needle)] *)
Fixpoint includes (hay needle : string) : bool :=
  String.prefix needle hay ||
  match hay with
  | EmptyString => false
  | String _ rest => includes rest needle
  end.

(** [xs.includes(x)] on an array of strings, [x] possibly [undefined]. *)
Definition array_includes (xs : list string) (x : option string) : bool :=
  match x with
  | Some s => existsb (String.eqb s) xs
  | None => false
  end.

End Js.

Import Js.

(* ================================================================= *)
(** ** Job payload *)

Module PizzaFlavor.
Record t : Type := mk { name : string; price : Z }.
End PizzaFlavor.

Module Complement.
Record t : Type := mk { quantity : Z; name : string; price : option Z }.
End Complement.

Module PizzaConfig.
Record t : Type := mk { pricingType : option string }.
End PizzaConfig.

(** An order line as the code reads it: the declared interface plus the
    properties reached through [any] ([complements], [pizzaFlavors],
    [orderItemPizzaFlavors], [pizzaPricingType], [pizzaConfig]). *)
Module OrderItem.
Record t : Type := mk {
  quantity : Z;
  name : string;
  price : option Z;
  notes : option string;
  orderItemComplements : option (list Complement.t);
  complements : option (list Complement.t);
  pizzaFlavors : option (list PizzaFlavor.t);
  orderItemPizzaFlavors : option (list PizzaFlavor.t);
  pizzaPricingType : option string;
  pizzaConfig : option PizzaConfig.t
}.

Definition with_price (p : option Z) (i : t) : t :=
  mk (quantity i) (name i) p (notes i) (orderItemComplements i)
     (complements i) (pizzaFlavors i) (orderItemPizzaFlavors i)
     (pizzaPricingType i) (pizzaConfig i).

End OrderItem.

Module OrderData.
Record t : Type := mk {
  code : Z;
  customerName : string;
  customerPhone : string;
  notes : option string;
  paymentMethod : string;
  change : option Z;
  status : string;
  deliveryMethodCode : option string;
  items : list OrderItem.t
}.

Definition with_items (its : list OrderItem.t) (o : t) : t :=
  mk (code o) (customerName o) (customerPhone o) (notes o)
     (paymentMethod o) (change o) (status o) (deliveryMethodCode o) its.
End OrderData.

Inductive JobType : Type := ORDER_CREATED | ORDER_STATUS_UPDATED.

Record OrderMessageJobData : Type := {
  type : JobType;
  order : OrderData.t;
  sequence : Z;
  evolutionInstance : string
}.

(* ================================================================= *)
(** ** Pricing helpers shared by the revisions *)

(** [item.pizzaFlavors || item.orderItemPizzaFlavors] *)
Definition flavorsOf (item : OrderItem.t) : option (list PizzaFlavor.t) :=
  or_array (OrderItem.pizzaFlavors item) (OrderItem.orderItemPizzaFlavors item).

(** [item.pizzaConfig?.pricingType] *)
Definition configPricingType (item : OrderItem.t) : option string :=
  match OrderItem.pizzaConfig item with
  | Some cfg => PizzaConfig.pricingType cfg
  | None => None
  end.

(** [item.pizzaPricingType || item.pizzaConfig?.pricingType || "average"] *)
Definition pricingTypeOf (item : OrderItem.t) : string :=
  match or_string (or_string (OrderItem.pizzaPricingType item)
                             (configPricingType item))
                  (Some "average") with
  | Some s => s
  | None => "average"
  end.

(** [item.complements || item.orderItemComplements] *)
Definition complementsOf (item : OrderItem.t) : option (list Complement.t) :=
  or_array (OrderItem.complements item) (OrderItem.orderItemComplements item).

(** [cs.reduce((sum, c) => sum + (c.price ?? 0) * c.quantity, 0)] *)
Definition reduce_complements (cs : list Complement.t) : Z :=
  fold_left
    (fun sum c => sum + or_zero (Complement.price c) * Complement.quantity c)
    cs 0.

(** The reducer of [calculateOrderTotal], over a given [calculateItemPrice]
    and a given complement total. *)
Definition total_step
    (itemPrice : OrderItem.t -> number) (complementsTotal : OrderItem.t -> Z)
    (acc : number) (item : OrderItem.t) : number :=
  add acc (mul (add (itemPrice item) (Fin (complementsTotal item)))
               (Fin (OrderItem.quantity item))).

(* ----------------------------------------------------------------- *)
(** *** Pricing in part_000 (both documents) *)

Module Part000Pricing.

Definition calculateItemPrice (item : OrderItem.t) : number :=
  let fallback := Fin (or_zero (OrderItem.price item)) in
  match flavorsOf item with
  | Some (f :: fs) =>
      let pizzaFlavors := f :: fs in
      let flavorPrices := map PizzaFlavor.price pizzaFlavors in
      let pricingType := pricingTypeOf item in
      if String.eqb pricingType "sum" then Fin (reduce_sum flavorPrices)
      else if String.eqb pricingType "average" then
        Math_round_div (reduce_sum flavorPrices)
                       (Z.of_nat (List.length flavorPrices))
      else if String.eqb pricingType "max" then Math_max flavorPrices
      else fallback
  | _ => fallback
  end.

Definition complementsTotal (item : OrderItem.t) : Z :=
  match complementsOf item with
  | Some complements => 0 + reduce_complements complements
  | None => 0
  end.

Definition calculateOrderTotal (order : OrderData.t) : number :=
  fold_left (total_step calculateItemPrice complementsTotal)
            (OrderData.items order) (Fin 0).

End Part000Pricing.

(* ----------------------------------------------------------------- *)
(** *** Pricing in part_001 and src/worker.ts *)

Module WorkerPricing.

Definition calculateItemPrice (item : OrderItem.t) : number :=
  match flavorsOf item with
  | Some (f :: fs) =>
      let pizzaFlavors := f :: fs in
      let prices := map PizzaFlavor.price pizzaFlavors in
      let type := pricingTypeOf item in
      if String.eqb type "sum" then Fin (reduce_sum prices)
      else if String.eqb type "max" then Math_max prices
      else Math_round_div (reduce_sum prices) (Z.of_nat (List.length prices))
  | _ => Fin (or_zero (OrderItem.price item))
  end.

Definition complementsTotal (item : OrderItem.t) : Z :=
  match complementsOf item with
  | Some complements => reduce_complements complements
  | None => reduce_complements []
  end.

Definition calculateOrderTotal (order : OrderData.t) : number :=
  fold_left (total_step calculateItemPrice complementsTotal)
            (OrderData.items order) (Fin 0).

End WorkerPricing.

(* ================================================================= *)
(** ** Message rendering *)

Definition nl : string := String "010"%char EmptyString.

(** [q > 1 ? `${q}x ` : ""] *)
Definition quantityPrefix (q : Z) : string :=
  if 1 <? q then show q +++ "x " else "".

(** The two fixed texts of a status update; every revision has the same
    pair and leaves any other status without text. *)
Definition statusUpdateMessage (status : string) : string :=
  if String.eqb status "in_preparation" then
    "Agora vai! Seu pedido já está *em produção* 🥳"
  else if String.eqb status "completed" then
    "Tô chegando! Seu pedido já está na rota de *entrega* 🛵"
  else "".

(** [`Pedido *n° ${order.code}*\n\n*Itens:*\n`] *)
Definition header (order : OrderData.t) : string :=
  "Pedido *n° " +++ show (OrderData.code order) +++ "*" +++ nl +++ nl
  +++ "*Itens:*" +++ nl.

(** The platform's currency formatter is not part of the repository: a
    [Currency] stands for
    [total => (total / 100).toLocaleString("pt-BR", {style: "currency", currency: "BRL"})]. *)
Definition Currency : Type := number -> string.

(* ----------------------------------------------------------------- *)
(** *** part_000 (both documents) *)

Module Part000Render.

Definition flavorsBlock (message : string) (item : OrderItem.t) : string :=
  match flavorsOf item with
  | Some (f :: fs) =>
      let pizzaFlavors := f :: fs in
      let message := message +++ nl +++ "     _Sabores_" in
      let fraction := "1/" +++ show (Z.of_nat (List.length pizzaFlavors)) in
      fold_left
        (fun message flavor =>
           message +++ nl +++ "           ```" +++ fraction +++ " "
           +++ PizzaFlavor.name flavor +++ "```")
        pizzaFlavors message
  | _ => message
  end.

Definition complementsBlock (message : string) (item : OrderItem.t) : string :=
  match OrderItem.orderItemComplements item with
  | Some (c :: cs) =>
      let message := message +++ nl +++ "     _Complementos_" in
      fold_left
        (fun message complement =>
           let complementQuantity :=
             quantityPrefix (Complement.quantity complement) in
           message +++ nl +++ "           ```" +++ complementQuantity
           +++ Complement.name complement +++ "```")
        (c :: cs) message
  | _ => message
  end.

Definition itemStep (message : string) (item : OrderItem.t) : string :=
  let itemQuantity := quantityPrefix (OrderItem.quantity item) in
  let message :=
    message +++ "📦 ```" +++ itemQuantity +++ OrderItem.name item +++ "```" in
  let message := flavorsBlock message item in
  let message := complementsBlock message item in
  let message :=
    if truthy_string (OrderItem.notes item) then
      message +++ nl +++ nl +++ "*OBS:* "
      +++ show_string (OrderItem.notes item) +++ nl
    else message in
  message +++ nl.

Definition paymentGlyph (order : OrderData.t) : string :=
  if String.eqb (OrderData.paymentMethod order) "cash"
     || String.eqb (OrderData.paymentMethod order) "pix"
  then "💵" else "💳".

Definition paymentText (brl : Currency) (order : OrderData.t) : string :=
  if String.eqb (OrderData.paymentMethod order) "cash" then
    if truthy_number (OrderData.change order) then
      "*Dinheiro (troco para "
      +++ brl (Fin (or_zero (OrderData.change order))) +++ ")*"
    else "*Dinheiro (não precisa de troco)*"
  else if String.eqb (OrderData.paymentMethod order) "pix" then "*Pix*"
  else "*Cartão*".

Definition deliveryText (order : OrderData.t) : string :=
  match OrderData.deliveryMethodCode order with
  | Some code =>
      if String.eqb code "delivery" then "*Delivery*"
      else if String.eqb code "pickup" then "*Retirada no local*"
      else "*Consumo no local*"
  | None => "*Consumo no local*"
  end.

Definition closing : string :=
  "Obrigado pela preferência, se precisar de algo é só chamar! 😉".

Definition formatOrderMessage
    (brl : Currency) (order : OrderData.t) (type : JobType) : string :=
  let total := Part000Pricing.calculateOrderTotal order in
  let totalFormatted := brl total in
  match type with
  | ORDER_CREATED =>
      let message := header order in
      let message := fold_left itemStep (OrderData.items order) message in
      let message :=
        if truthy_string (OrderData.notes order) then
          message +++ nl +++ "*OBS:* " +++ show_string (OrderData.notes order)
        else message in
      message
      +++ (if truthy_string (OrderData.notes order) then nl else "")
      +++ nl +++ paymentGlyph order +++ " " +++ paymentText brl order
      +++ nl +++ "🛵 " +++ deliveryText order
      +++ nl +++ nl +++ "Total *" +++ totalFormatted +++ "*"
      +++ nl +++ nl +++ closing
  | ORDER_STATUS_UPDATED => statusUpdateMessage (OrderData.status order)
  end.

End Part000Render.

(* ----------------------------------------------------------------- *)
(** *** part_001 *)

Module Part001Render.

Definition flavorsBlock (message : string) (item : OrderItem.t) : string :=
  match flavorsOf item with
  | Some (f :: fs) =>
      let flavors := f :: fs in
      let message := message +++ "     _Sabores_" +++ nl in
      let fraction := "1/" +++ show (Z.of_nat (List.length flavors)) in
      fold_left
        (fun message f =>
           message +++ "           ```" +++ fraction +++ " "
           +++ PizzaFlavor.name f +++ "```" +++ nl)
        flavors message
  | _ => message
  end.

Definition complementsBlock (message : string) (item : OrderItem.t) : string :=
  match OrderItem.orderItemComplements item with
  | Some (c :: cs) =>
      let message := message +++ "     _Complementos_" +++ nl in
      fold_left
        (fun message c =>
           let cQty := quantityPrefix (Complement.quantity c) in
           message +++ "           ```" +++ cQty +++ Complement.name c
           +++ "```" +++ nl)
        (c :: cs) message
  | _ => message
  end.

Definition itemStep (message : string) (item : OrderItem.t) : string :=
  let qty := quantityPrefix (OrderItem.quantity item) in
  let message :=
    message +++ "📦 ```" +++ qty +++ OrderItem.name item +++ "```" +++ nl in
  let message := flavorsBlock message item in
  let message := complementsBlock message item in
  let message :=
    if truthy_string (OrderItem.notes item) then
      message +++ nl +++ "*OBS:* "
      +++ show_string (OrderItem.notes item) +++ nl
    else message in
  message +++ nl.

Definition closing : string := "Obrigado pela preferência! 😉".

Definition formatOrderMessage
    (brl : Currency) (order : OrderData.t) (type : JobType) : string :=
  let total := WorkerPricing.calculateOrderTotal order in
  let totalFormatted := brl total in
  match type with
  | ORDER_STATUS_UPDATED => statusUpdateMessage (OrderData.status order)
  | ORDER_CREATED =>
      let message := header order in
      let message := fold_left itemStep (OrderData.items order) message in
      let message :=
        if truthy_string (OrderData.notes order) then
          message +++ "*OBS:* " +++ show_string (OrderData.notes order)
          +++ nl +++ nl
        else message in
      message +++ "Total *" +++ totalFormatted +++ "*" +++ nl +++ nl
      +++ closing
  end.

End Part001Render.

(* ----------------------------------------------------------------- *)
(** *** src/worker.ts *)

Module WorkerRender.

Definition itemStep (msg : string) (item : OrderItem.t) : string :=
  let q := quantityPrefix (OrderItem.quantity item) in
  let msg := msg +++ "📦 ```" +++ q +++ OrderItem.name item +++ "```" +++ nl in
  let msg :=
    if truthy_string (OrderItem.notes item) then
      msg +++ "*OBS:* " +++ show_string (OrderItem.notes item) +++ nl
    else msg in
  msg +++ nl.

Definition closing : string := "Obrigado pela preferência! 😉".

Definition formatOrderMessage
    (brl : Currency) (order : OrderData.t) (type : JobType) : string :=
  match type with
  | ORDER_STATUS_UPDATED => statusUpdateMessage (OrderData.status order)
  | ORDER_CREATED =>
      let total := WorkerPricing.calculateOrderTotal order in
      let totalFormatted := brl total in
      let msg := header order in
      let msg := fold_left itemStep (OrderData.items order) msg in
      msg +++ "Total *" +++ totalFormatted +++ "*" +++ nl +++ nl +++ closing
  end.

End WorkerRender.

(* ================================================================= *)
(** ** Errors, the gateway and the job handle *)

Module Response.
(** [data] is the text that a template literal makes of the body. *)
Record t : Type := mk { status : Z; data : string }.
End Response.

(** A thrown value, with the properties the code probes.  (part_001 also
    stores the caught error under [original]; nothing reads it back.) *)
Module JsError.
Record t : Type := mk {
  name : string;
  code : option string;
  status : option Z;
  response : option Response.t;
  message : option string
}.

(** [new Error(msg)] *)
Definition Error (msg : string) : t := mk "Error" None None None (Some msg).

(** [Object.assign(e, { status })], or [e.status = status]. *)
Definition with_status (st : option Z) (e : t) : t :=
  mk (name e) (code e) st (response e) (message e).

(** What reading [.state] of [undefined] throws. *)
Definition TypeError_state : t :=
  mk "TypeError" None None None
     (Some "Cannot read properties of undefined (reading 'state')").

(** [error.response?.status] *)
Definition response_status (e : t) : option Z :=
  match response e with
  | Some r => Some (Response.status r)
  | None => None
  end.

(** [error.status ?? error.response?.status] *)
Definition status_or_response (e : t) : option Z :=
  match status e with
  | Some st => Some st
  | None => response_status e
  end.
End JsError.

(** Body of the connection-state answer. *)
Module ConnectionState.
Record instance_t : Type := mkInstance { state : option string }.
Record t : Type := mk { instance : option instance_t }.
End ConnectionState.

Record World : Type := {
  EVOLUTION_API_URL : string;
  EVOLUTION_API_KEY : string;
  (** answer to the GET: a rejection, or [response.data] (possibly nullish) *)
  connectionState : JsError.t + option ConnectionState.t;
  (** answer to the POST: [None] when it resolves *)
  sendText : option JsError.t;
  Math_random : Q;
  Date_now : Z;
  toLocaleCurrency : Currency
}.

Inductive Event : Type :=
| Log (msg : string)
| UpdateProgress (status : string)
| MoveToDelayed (timestamp : Q)
| MoveToFailed (err : JsError.t) (token : string)
| HttpGet (url apikey : string)
| HttpPost (url apikey number text : string).

(** An asynchronous computation: it reads the world, extends the trace and
    either resolves to a value or rejects with an error. *)
Definition Async (A : Type) : Type :=
  World -> list Event -> list Event * (JsError.t + A).

Definition ret {A : Type} (a : A) : Async A :=
  fun _ tr => (tr, inr a).

Definition bind {A B : Type} (m : Async A) (k : A -> Async B) : Async B :=
  fun w tr =>
    match m w tr with
    | (tr', inr a) => k a w tr'
    | (tr', inl e) => (tr', inl e)
    end.

Definition throw {A : Type} (e : JsError.t) : Async A :=
  fun _ tr => (tr, inl e).

Definition try_catch {A : Type} (m : Async A) (handler : JsError.t -> Async A)
  : Async A :=
  fun w tr =>
    match m w tr with
    | (tr', inl e) => handler e w tr'
    | done => done
    end.

Definition ask : Async World :=
  fun w tr => (tr, inr w).

Definition emit (e : Event) : Async unit :=
  fun _ tr => ((tr ++ [e])%list, inr tt).

Definition settle {A : Type} (r : JsError.t + A) : Async A :=
  fun _ tr => (tr, r).

Declare Scope async_scope.
Delimit Scope async_scope with async.
Notation "x <- m ;; k" := (bind m (fun x => k))
  (at level 100, m at next level, right associativity) : async_scope.
Notation "m ;; k" := (bind m (fun _ => k))
  (at level 100, right associativity) : async_scope.
Local Open Scope async_scope.

(** One run of a processor from the empty trace. *)
Definition run {A : Type} (m : Async A) (w : World)
  : list Event * (JsError.t + A) :=
  m w [].

(** [axios.get(url, { headers: { apikey } })], resolved to [response.data]. *)
Definition axios_get (url apikey : string) : Async (option ConnectionState.t) :=
  emit (HttpGet url apikey) ;;
  w <- ask ;;
  settle (connectionState w).

(** [axios.post(url, { number, text }, { headers })] *)
Definition axios_post (url apikey number text : string) : Async unit :=
  emit (HttpPost url apikey number text) ;;
  w <- ask ;;
  match sendText w with
  | Some e => throw e
  | None => ret tt
  end.

Definition connectionStateUrl (w : World) (evolutionInstance : string) : string :=
  EVOLUTION_API_URL w +++ "/instance/connectionState/" +++ evolutionInstance.

Definition sendTextUrl (w : World) (evolutionInstance : string) : string :=
  EVOLUTION_API_URL w +++ "/message/sendText/" +++ evolutionInstance.

Definition show_type (t : JobType) : string :=
  match t with
  | ORDER_CREATED => "ORDER_CREATED"
  | ORDER_STATUS_UPDATED => "ORDER_STATUS_UPDATED"
  end.

(** [s === lit] for a possibly absent string. *)
Definition is_string (s : option string) (lit : string) : bool :=
  match s with
  | Some x => String.eqb x lit
  | None => false
  end.

(** [st === n] for a possibly absent number. *)
Definition is_status (st : option Z) (n : Z) : bool :=
  match st with
  | Some x => x =? n
  | None => false
  end.

(** [!data?.instance.state || data.instance.state !== "open"], the test of
    both documents of part_000: the optional chain stops at a nullish
    [data] only, so a body without [instance] makes the read of [.state]
    throw. *)
Definition notOpen (data : option ConnectionState.t) : JsError.t + bool :=
  match data with
  | None => inr true
  | Some d =>
      match ConnectionState.instance d with
      | None => inl JsError.TypeError_state
      | Some i =>
          inr (negb (truthy_string (ConnectionState.state i))
               || negb (is_string (ConnectionState.state i) "open"))
      end
  end.

(* ================================================================= *)
(** ** The four revisions of the worker *)

(* ----------------------------------------------------------------- *)
(** *** src/unnamed/part_000, first document *)

Module Part000a.

Definition calculateItemPrice := Part000Pricing.calculateItemPrice.
Definition calculateOrderTotal := Part000Pricing.calculateOrderTotal.
Definition formatOrderMessage := Part000Render.formatOrderMessage.

Definition sendMessage (message customerPhone evolutionInstance : string)
  : Async unit :=
  try_catch
    (w <- ask ;;
     axios_post (sendTextUrl w evolutionInstance) (EVOLUTION_API_KEY w)
                customerPhone message)
    (fun error =>
       match JsError.response error with
       | Some r =>
           throw (JsError.Error
                    ("Evolution API error: " +++ show (Response.status r)
                     +++ " - " +++ Response.data r))
       | None => throw error
       end).

Definition isTemporaryProviderError (error : option JsError.t) : bool :=
  match error with
  | None => false
  | Some error =>
      if String.eqb (JsError.name error) "FetchError"
         || is_string (JsError.code error) "ECONNRESET"
         || is_string (JsError.code error) "ETIMEDOUT"
      then true
      else if match JsError.status error with
              | Some st => 500 <=? st
              | None => false
              end
      then true
      else
        match JsError.message error with
        | Some m =>
            let msg := toLowerCase m in
            if includes msg "timeout"
               || includes msg "temporarily unavailable"
               || includes msg "network"
            then true else false
        | None => false
        end
  end.

Definition processOrderMessage (job : OrderMessageJobData) : Async unit :=
  let order := order job in
  let type := type job in
  let evolutionInstance := evolutionInstance job in
  emit (Log ("Starting processing for order " +++ show (OrderData.code order)
             +++ " of type " +++ show_type type +++ " and sequence "
             +++ show (sequence job))) ;;
  w <- ask ;;
  let message := formatOrderMessage (toLocaleCurrency w) order type in
  data <- try_catch
            (axios_get (connectionStateUrl w evolutionInstance)
                       (EVOLUTION_API_KEY w))
            (fun error =>
               match JsError.response error with
               | Some r =>
                   let err :=
                     JsError.Error
                       ("Evolution API error: " +++ show (Response.status r)
                        +++ " - " +++ Response.data r) in
                   throw (JsError.with_status (Some (Response.status r)) err)
               | None => throw error
               end) ;;
  waiting <- settle (notOpen data) ;;
  if waiting : bool then
    emit (Log ("Evolution instance " +++ evolutionInstance
               +++ " not ready, delaying job (order "
               +++ show (OrderData.code order) +++ ").")) ;;
    emit (UpdateProgress "waiting_instance") ;;
    let delay := (60000 + Math_random w * 60000)%Q in
    emit (MoveToDelayed (inject_Z (Date_now w) + delay)%Q)
  else
    try_catch
      (emit (Log ("Sending message for order " +++ show (OrderData.code order)
                  +++ " to " +++ OrderData.customerPhone order)) ;;
       sendMessage message (OrderData.customerPhone order) evolutionInstance ;;
       emit (Log ("Message sent successfully for order "
                  +++ show (OrderData.code order))))
      (fun err =>
         if isTemporaryProviderError (Some err) then throw err
         else
           emit (Log ("Message failed for order "
                      +++ show (OrderData.code order) +++ ": "
                      +++ show_string (JsError.message err))) ;;
           emit (MoveToFailed err "message_send_failure")).

End Part000a.

(* ----------------------------------------------------------------- *)
(** *** src/unnamed/part_000, second document *)

Module Part000b.

Definition calculateItemPrice := Part000Pricing.calculateItemPrice.
Definition calculateOrderTotal := Part000Pricing.calculateOrderTotal.
Definition formatOrderMessage := Part000Render.formatOrderMessage.

Definition sendMessage (message customerPhone evolutionInstance : string)
  : Async unit :=
  try_catch
    (w <- ask ;;
     axios_post (sendTextUrl w evolutionInstance) (EVOLUTION_API_KEY w)
                customerPhone message)
    (fun error =>
       let status := JsError.response_status error in
       let err :=
         JsError.Error ("Failed to send message: "
                        +++ show_string (JsError.message error)) in
       throw (JsError.with_status status err)).

Definition isTemporaryProviderError (error : option JsError.t) : bool :=
  match error with
  | None => false
  | Some error =>
      if String.eqb (JsError.name error) "FetchError"
         || is_string (JsError.code error) "ECONNRESET"
         || is_string (JsError.code error) "ETIMEDOUT"
      then true
      else
        let status := JsError.status_or_response error in
        if match status with
           | Some st => 500 <=? st
           | None => false
           end
        then true
        else
          match JsError.message error with
          | Some m =>
              let msg := toLowerCase m in
              if includes msg "timeout"
                 || includes msg "temporarily unavailable"
                 || includes msg "network"
              then true else false
          | None => false
          end
  end.

Definition processOrderMessage (job : OrderMessageJobData) : Async unit :=
  let order := order job in
  let type := type job in
  let evolutionInstance := evolutionInstance job in
  emit (Log ("Starting processing for order " +++ show (OrderData.code order)
             +++ " of type " +++ show_type type +++ " and sequence "
             +++ show (sequence job))) ;;
  w <- ask ;;
  let message := formatOrderMessage (toLocaleCurrency w) order type in
  (** [Some data] when the check answered, [None] after the early return *)
  checked <- try_catch
               (data <- axios_get (connectionStateUrl w evolutionInstance)
                                  (EVOLUTION_API_KEY w) ;;
                ret (Some data))
               (fun error =>
                  let status := JsError.response_status error in
                  if is_status status 404 then
                    emit (Log ("Evolution instance " +++ evolutionInstance
                               +++ " not found, delaying job (order "
                               +++ show (OrderData.code order) +++ ").")) ;;
                    ret None
                  else throw error) ;;
  match checked with
  | None => ret tt
  | Some data =>
      waiting <- settle (notOpen data) ;;
      if waiting : bool then
        emit (Log ("Evolution instance " +++ evolutionInstance
                   +++ " not ready, delaying job (order "
                   +++ show (OrderData.code order) +++ ").")) ;;
        let err := JsError.Error "Evolution instance not ready" in
        throw (JsError.with_status (Some 503) err)
      else
        try_catch
          (sendMessage message (OrderData.customerPhone order)
                       evolutionInstance ;;
           emit (Log ("Message sent successfully for order "
                      +++ show (OrderData.code order))))
          (fun err =>
             let status := JsError.response_status err in
             if is_status status 404 then
               emit (Log ("Evolution instance " +++ evolutionInstance
                          +++ " not found during message send, delaying job (order "
                          +++ show (OrderData.code order) +++ ")."))
             else if isTemporaryProviderError (Some err) then throw err
             else throw err)
  end.

End Part000b.

(* ----------------------------------------------------------------- *)
(** *** src/unnamed/part_001 *)

Module Part001.

Definition calculateItemPrice := WorkerPricing.calculateItemPrice.
Definition calculateOrderTotal := WorkerPricing.calculateOrderTotal.
Definition formatOrderMessage := Part001Render.formatOrderMessage.

Definition sendMessage (message customerPhone evolutionInstance : string)
  : Async unit :=
  try_catch
    (w <- ask ;;
     axios_post (sendTextUrl w evolutionInstance) (EVOLUTION_API_KEY w)
                customerPhone message)
    (fun error =>
       let err := JsError.Error "Failed to send message" in
       throw (JsError.with_status (JsError.response_status error) err)).

(** [/timeout|network|temporarily/i.test(s)] *)
Definition fault_wording (s : string) : bool :=
  let lowered := toLowerCase s in
  includes lowered "timeout" || includes lowered "network"
  || includes lowered "temporarily".

Definition isTemporaryProviderError (error : JsError.t) : bool :=
  let status := JsError.status_or_response error in
  if truthy_number status && (500 <=? or_zero status) then true
  else
    array_includes ["ECONNRESET"; "ETIMEDOUT"] (JsError.code error)
    || fault_wording (match JsError.message error with
                      | Some m => m
                      | None => ""
                      end).

Definition processOrderMessage (job : OrderMessageJobData) : Async unit :=
  let order := order job in
  let type := type job in
  let evolutionInstance := evolutionInstance job in
  emit (Log ("Processing order " +++ show (OrderData.code order)
             +++ " (" +++ show_type type +++ ")")) ;;
  w <- ask ;;
  let message := formatOrderMessage (toLocaleCurrency w) order type in
  instanceState <- try_catch
                     (axios_get (connectionStateUrl w evolutionInstance)
                                (EVOLUTION_API_KEY w))
                     (fun error =>
                        let status := JsError.response_status error in
                        if is_status status 404 then
                          throw (JsError.with_status (Some 404)
                                   (JsError.Error "Evolution instance not found"))
                        else throw error) ;;
  let state :=
    match instanceState with
    | Some d =>
        match ConnectionState.instance d with
        | Some i => ConnectionState.state i
        | None => None
        end
    | None => None
    end in
  if negb (is_string state "open") then
    let err := JsError.Error "Evolution instance not ready" in
    throw (JsError.with_status (Some 503) err)
  else
    try_catch
      (sendMessage message (OrderData.customerPhone order) evolutionInstance ;;
       emit (Log "Message sent successfully"))
      (fun err =>
         if is_status (JsError.status err) 404 then throw err
         else if isTemporaryProviderError err then throw err
         else throw err).

End Part001.

(* ----------------------------------------------------------------- *)
(** *** src/src/worker.ts *)

Module WorkerTs.

Definition calculateItemPrice := WorkerPricing.calculateItemPrice.
Definition calculateOrderTotal := WorkerPricing.calculateOrderTotal.
Definition formatOrderMessage := WorkerRender.formatOrderMessage.

Definition sendMessage (message customerPhone evolutionInstance : string)
  : Async unit :=
  w <- ask ;;
  axios_post (sendTextUrl w evolutionInstance) (EVOLUTION_API_KEY w)
             customerPhone message.

Definition isTemporaryProviderError (err : option JsError.t) : bool :=
  match err with
  | None => false
  | Some err =>
      if array_includes ["ECONNRESET"; "ETIMEDOUT"; "EPIPE"] (JsError.code err)
      then true
      else if match JsError.response_status err with
              | Some st => 500 <=? st
              | None => false
              end
      then true
      else false
  end.

Definition processOrderMessage (job : OrderMessageJobData) : Async unit :=
  let order := order job in
  let type := type job in
  let evolutionInstance := evolutionInstance job in
  emit (Log ("Processando pedido " +++ show (OrderData.code order)
             +++ " (" +++ show_type type +++ ")")) ;;
  w <- ask ;;
  let message := formatOrderMessage (toLocaleCurrency w) order type in
  try_catch
    (sendMessage message (OrderData.customerPhone order) evolutionInstance ;;
     emit (Log ("Mensagem enviada para " +++ OrderData.customerPhone order)))
    (fun err =>
       if isTemporaryProviderError (Some err) then throw err
       else
         throw (JsError.Error ("Falha permanente ao enviar mensagem: "
                               +++ show_string (JsError.message err)))).

End WorkerTs.

(* ================================================================= *)
(** ** The pricing contract in the specification's words *)

(** The integer held by a number, [0] for the non-finite values (which
    [calculateItemPrice] never returns, see [calculateItemPrice_finite]). *)
Definition to_Z (n : number) : Z :=
  match n with
  | Fin z => z
  | _ => 0
  end.

Fixpoint sumZ (xs : list Z) : Z :=
  match xs with
  | [] => 0
  | x :: rest => x + sumZ rest
  end.

(** The complements of a line: the array under [complements] when the line
    has one, else the array under [orderItemComplements], else none. *)
Definition lineComplements (line : OrderItem.t) : list Complement.t :=
  match OrderItem.complements line, OrderItem.orderItemComplements line with
  | Some cs, _ => cs
  | None, Some cs => cs
  | None, None => []
  end.

(** Sum over the complements of [price * quantity]. *)
Definition complementsSum (line : OrderItem.t) : Z :=
  sumZ (map (fun c => or_zero (Complement.price c) * Complement.quantity c)
            (lineComplements line)).

(** Sum over the lines of [(lineUnitPrice + complements) * quantity]. *)
Definition orderTotal (lineUnitPrice : OrderItem.t -> Z) (o : OrderData.t) : Z :=
  sumZ (map (fun line =>
               (lineUnitPrice line + complementsSum line) * OrderItem.quantity line)
            (OrderData.items o)).

(** Sum of the prices divided by their count, rounded to the nearest
    integer, halves upwards: the integer [r] with [r - 1/2 <= s/n < r + 1/2]. *)
Definition is_rounded_average (prices : list Z) (r : Z) : Prop :=
  let s := sumZ prices in
  let n := Z.of_nat (List.length prices) in
  2 * r * n - n <= 2 * s < 2 * r * n + n.

(* ================================================================= *)
(** ** The payload before its interfaces are trusted

    calculateItemPrice and calculateOrderTotal take their lines as [any].
    The records below are the lines as they may arrive: the quantity of a
    line and of a complement may be missing, like the prices.  The functions
    are the same source lines as above, read on these records; a missing
    operand of [*] is [undefined], which arithmetic turns into [NaN]. *)

Module LooseComplement.
Record t : Type := mk { quantity : option Z; name : string; price : option Z }.
End LooseComplement.

Module LooseItem.
Record t : Type := mk {
  quantity : option Z;
  price : option Z;
  orderItemComplements : option (list LooseComplement.t);
  complements : option (list LooseComplement.t);
  pizzaFlavors : option (list PizzaFlavor.t);
  orderItemPizzaFlavors : option (list PizzaFlavor.t);
  pizzaPricingType : option string;
  pizzaConfig : option PizzaConfig.t
}.
End LooseItem.

(** The number that arithmetic makes of a possibly missing operand. *)
Definition to_number (x : option Z) : number :=
  match x with
  | Some z => Fin z
  | None => NaN
  end.

(** [item.pizzaFlavors || item.orderItemPizzaFlavors] *)
Definition loose_flavorsOf (item : LooseItem.t) : option (list PizzaFlavor.t) :=
  or_array (LooseItem.pizzaFlavors item) (LooseItem.orderItemPizzaFlavors item).

(** [item.pizzaPricingType || item.pizzaConfig?.pricingType || "average"] *)
Definition loose_pricingTypeOf (item : LooseItem.t) : string :=
  match or_string
          (or_string (LooseItem.pizzaPricingType item)
                     match LooseItem.pizzaConfig item with
                     | Some cfg => PizzaConfig.pricingType cfg
                     | None => None
                     end)
          (Some "average") with
  | Some s => s
  | None => "average"
  end.

(** [item.complements || item.orderItemComplements] *)
Definition loose_complementsOf (item : LooseItem.t)
  : option (list LooseComplement.t) :=
  or_array (LooseItem.complements item) (LooseItem.orderItemComplements item).

(** [cs.reduce((sum, c) => sum + (c.price ?? 0) * c.quantity, 0)] *)
Definition loose_reduce_complements (cs : list LooseComplement.t) : number :=
  fold_left
    (fun sum c =>
       add sum (mul (Fin (or_zero (LooseComplement.price c)))
                    (to_number (LooseComplement.quantity c))))
    cs (Fin 0).

(** The reducer of [calculateOrderTotal]. *)
Definition loose_total_step
    (itemPrice complementsTotal : LooseItem.t -> number)
    (acc : number) (item : LooseItem.t) : number :=
  add acc (mul (add (itemPrice item) (complementsTotal item))
               (to_number (LooseItem.quantity item))).

(** part_000, both documents. *)
Module LoosePart000.

Definition calculateItemPrice (item : LooseItem.t) : number :=
  let fallback := Fin (or_zero (LooseItem.price item)) in
  match loose_flavorsOf item with
  | Some (f :: fs) =>
      let pizzaFlavors := f :: fs in
      let flavorPrices := map PizzaFlavor.price pizzaFlavors in
      let pricingType := loose_pricingTypeOf item in
      if String.eqb pricingType "sum" then Fin (reduce_sum flavorPrices)
      else if String.eqb pricingType "average" then
        Math_round_div (reduce_sum flavorPrices)
                       (Z.of_nat (List.length flavorPrices))
      else if String.eqb pricingType "max" then Math_max flavorPrices
      else fallback
  | _ => fallback
  end.

Definition complementsTotal (item : LooseItem.t) : number :=
  match loose_complementsOf item with
  | Some complements => add (Fin 0) (loose_reduce_complements complements)
  | None => Fin 0
  end.

Definition calculateOrderTotal (items : list LooseItem.t) : number :=
  fold_left (loose_total_step calculateItemPrice complementsTotal) items (Fin 0).

End LoosePart000.

(** part_001 and src/worker.ts. *)
Module LooseWorker.

Definition calculateItemPrice (item : LooseItem.t) : number :=
  match loose_flavorsOf item with
  | Some (f :: fs) =>
      let pizzaFlavors := f :: fs in
      let prices := map PizzaFlavor.price pizzaFlavors in
      let type := loose_pricingTypeOf item in
      if String.eqb type "sum" then Fin (reduce_sum prices)
      else if String.eqb type "max" then Math_max prices
      else Math_round_div (reduce_sum prices) (Z.of_nat (List.length prices))
  | _ => Fin (or_zero (LooseItem.price item))
  end.

Definition complementsTotal (item : LooseItem.t) : number :=
  match loose_complementsOf item with
  | Some complements => loose_reduce_complements complements
  | None => loose_reduce_complements []
  end.

Definition calculateOrderTotal (items : list LooseItem.t) : number :=
  fold_left (loose_total_step calculateItemPrice complementsTotal) items (Fin 0).

End LooseWorker.










(** The three strategy names that part_000 tests for. *)
Definition recognized (strategy : string) : Prop :=
  strategy = "sum" \/ strategy = "average" \/ strategy = "max".

(** No strategy on the line: neither [pizzaPricingType] nor
    [pizzaConfig.pricingType] is set. *)
Definition unspecified (item : OrderItem.t) : Prop :=
  OrderItem.pizzaPricingType item = None /\ configPricingType item = None.

(* ================================================================= *)
(** ** The layout of an order-created message in the specification's words *)

(** Concatenation of a list of texts. *)
Definition join (xs : list string) : string :=
  fold_right String.append "" xs.

(** [needle] occurs in [hay]. *)
Definition occurs_in (needle hay : string) : Prop :=
  exists before after, hay = before +++ needle +++ after.

Module Layout.

(** The label [1/N] of a flavor entry. *)
Definition fraction (n : nat) : string := "1/" +++ show (Z.of_nat n).

(** The indented flavors block: nothing without flavors, otherwise the
    heading and one labelled entry per flavor. *)
Definition flavors (fs : list PizzaFlavor.t) : string :=
  match fs with
  | [] => ""
  | _ =>
      nl +++ "     _Sabores_"
      +++ join (map (fun f => nl +++ "           ```" +++ fraction (List.length fs)
                              +++ " " +++ PizzaFlavor.name f +++ "```") fs)
  end.

(** The indented complements block: nothing without complements,
    otherwise the heading and one quantity-prefixed entry each. *)
Definition complements (cs : list Complement.t) : string :=
  match cs with
  | [] => ""
  | _ =>
      nl +++ "     _Complementos_"
      +++ join (map (fun c => nl +++ "           ```"
                              +++ quantityPrefix (Complement.quantity c)
                              +++ Complement.name c +++ "```") cs)
  end.

Definition list_or_empty {A : Type} (xs : option (list A)) : list A :=
  match xs with
  | Some l => l
  | None => []
  end.

(** The notes annotation of a line. *)
Definition lineNotes (item : OrderItem.t) : string :=
  if truthy_string (OrderItem.notes item) then
    nl +++ nl +++ "*OBS:* " +++ show_string (OrderItem.notes item) +++ nl
  else "".

(** One order line of part_000: name, flavors, complements, notes. *)
Definition line (item : OrderItem.t) : string :=
  "📦 ```" +++ quantityPrefix (OrderItem.quantity item)
  +++ OrderItem.name item +++ "```"
  +++ flavors (list_or_empty (flavorsOf item))
  +++ complements (list_or_empty (OrderItem.orderItemComplements item))
  +++ lineNotes item +++ nl.

(** The notes annotation of the order. *)
Definition orderNotes (o : OrderData.t) : string :=
  if truthy_string (OrderData.notes o) then
    nl +++ "*OBS:* " +++ show_string (OrderData.notes o) +++ nl
  else "".

(** The trailing total and the closing line. *)
Definition footer (totalFormatted closing : string) : string :=
  "Total *" +++ totalFormatted +++ "*" +++ nl +++ nl +++ closing.

(** One order line of src/worker.ts: name and notes only. *)
Definition workerLine (item : OrderItem.t) : string :=
  "📦 ```" +++ quantityPrefix (OrderItem.quantity item)
  +++ OrderItem.name item +++ "```" +++ nl
  +++ (if truthy_string (OrderItem.notes item) then
         "*OBS:* " +++ show_string (OrderItem.notes item) +++ nl
       else "")
  +++ nl.

End Layout.

(** A payment method other than cash and pix. *)
Definition other_payment (o : OrderData.t) : Prop :=
  OrderData.paymentMethod o <> "cash" /\ OrderData.paymentMethod o <> "pix".

(** A delivery code that is absent or neither delivery nor pickup. *)
Definition other_delivery (o : OrderData.t) : Prop :=
  match OrderData.deliveryMethodCode o with
  | Some c => c <> "delivery" /\ c <> "pickup"
  | None => True
  end.

(** Sample formatter in the manner of the pt-BR locale, for integer
    amounts of minor units without digit grouping; the theorems below hold
    for every formatter. *)
Definition two_digits (z : Z) : string :=
  if z <? 10 then "0" +++ show z else show z.

Definition sample_brl : Currency :=
  fun total =>
    match total with
    | Fin z =>
        (if z <? 0 then "-" else "") +++ "R$ " +++ show (Z.abs z / 100)
        +++ "," +++ two_digits (Z.abs z mod 100)
    | _ => "R$ NaN"
    end.

(* ================================================================= *)
(** ** The failure classes and the processor's outcomes in the
       specification's words *)

(** Some stretch of the error message reads [word] when case is ignored. *)
Definition mentions (word : string) (e : JsError.t) : Prop :=
  exists m piece,
    JsError.message e = Some m /\ occurs_in piece m /\ toLowerCase piece = word.

(** Timeout, network or temporarily-unavailable phrasing in the message. *)
Definition fault_phrasing (e : JsError.t) : Prop :=
  mentions "timeout" e \/ mentions "temporarily unavailable" e
  \/ mentions "network" e.

(** The error carries the HTTP status [st], directly or in its response. *)
Definition http_status (e : JsError.t) (st : Z) : Prop :=
  JsError.status e = Some st \/ JsError.response_status e = Some st.

(** A connection-level fault code: connection reset or timed out. *)
Definition connection_fault_code (e : JsError.t) : Prop :=
  JsError.code e = Some "ECONNRESET" \/ JsError.code e = Some "ETIMEDOUT".

(** The specification's Transient class. *)
Definition spec_transient (e : JsError.t) : Prop :=
  (exists st, http_status e st /\ 500 <= st)
  \/ connection_fault_code e
  \/ fault_phrasing e.

(** What [sendMessage] of part_000's first document throws for a rejection
    [e] of the POST. *)
Definition Part000a_send_error (e : JsError.t) : JsError.t :=
  match JsError.response e with
  | Some r =>
      JsError.Error ("Evolution API error: " +++ show (Response.status r)
                     +++ " - " +++ Response.data r)
  | None => e
  end.

(** What [sendMessage] of part_000's second document throws. *)
Definition Part000b_send_error (e : JsError.t) : JsError.t :=
  JsError.with_status (JsError.response_status e)
    (JsError.Error ("Failed to send message: "
                    +++ show_string (JsError.message e))).

(** What [sendMessage] of part_001 throws. *)
Definition Part001_send_error (e : JsError.t) : JsError.t :=
  JsError.with_status (JsError.response_status e)
    (JsError.Error "Failed to send message").

(** The error that part_000's second document and part_001 raise for an
    instance that is not ready. *)
Definition not_ready_error : JsError.t :=
  JsError.with_status (Some 503) (JsError.Error "Evolution instance not ready").

(** The error that part_001 raises for an unknown instance. *)
Definition not_found_error : JsError.t :=
  JsError.with_status (Some 404) (JsError.Error "Evolution instance not found").

(** The readiness answer names a state other than "open": no body at all,
    or an instance whose state is missing or different. *)
Definition reports_not_open (data : option ConnectionState.t) : Prop :=
  match data with
  | None => True
  | Some d =>
      match ConnectionState.instance d with
      | Some i => ConnectionState.state i <> Some "open"
      | None => False
      end
  end.

(** The readiness answer names the state "open". *)
Definition reports_open (data : option ConnectionState.t) : Prop :=
  exists d i,
    data = Some d /\ ConnectionState.instance d = Some i
    /\ ConnectionState.state i = Some "open".

(** Timestamps of the delayed re-runs scheduled in a trace. *)
Fixpoint delayed (tr : list Event) : list Q :=
  match tr with
  | [] => []
  | MoveToDelayed t :: rest => t :: delayed rest
  | _ :: rest => delayed rest
  end.

(** Number of messages posted to the gateway in a trace. *)
Fixpoint posted (tr : list Event) : nat :=
  match tr with
  | [] => O
  | HttpPost _ _ _ _ :: rest => S (posted rest)
  | _ :: rest => posted rest
  end.

(** Errors handed to [moveToFailed] in a trace. *)
Fixpoint failed (tr : list Event) : list JsError.t :=
  match tr with
  | [] => []
  | MoveToFailed e _ :: rest => e :: failed rest
  | _ :: rest => failed rest
  end.

(* ================================================================= *)
(** ** Sample data *)

Definition flavors_500_700 : list PizzaFlavor.t :=
  [PizzaFlavor.mk "Calabresa" 500; PizzaFlavor.mk "Mussarela" 700].

Definition pizza (strategy : option string) (base : option Z) : OrderItem.t :=
  OrderItem.mk 1 "Pizza" base None (Some []) None
               (Some flavors_500_700) None strategy None.

(** A line without flavors, complements or base price. *)
Definition plain_line : OrderItem.t :=
  OrderItem.mk 1 "Agua" None None (Some []) None (Some []) None None None.

Definition borda : Complement.t := Complement.mk 1 "Borda recheada" (Some 800).
Definition refrigerante : Complement.t := Complement.mk 2 "Refrigerante" (Some 600).
Definition guardanapo : Complement.t := Complement.mk 3 "Guardanapo" None.

(** A plain line with three complements, in the backend's field. *)
Definition combo (cs : list Complement.t) : OrderItem.t :=
  OrderItem.mk 2 "Combo" (Some 2500) (Some "sem cebola") (Some cs) None
               None None None None.

(** An order paid by card ("credit") without delivery code. *)
Definition card_order : OrderData.t :=
  OrderData.mk 7 "Ana" "5511999990000" None "credit" None
               "pending" None
               [OrderItem.mk 1 "Pizza" (Some 0) None
                  (Some [borda]) None (Some flavors_500_700) None None None].

(** The same snapshot under a given status. *)
Definition order_in_status (st : string) : OrderData.t :=
  OrderData.mk 42 "Ana" "5511999990000" None "pix" None st (Some "pickup")
               [pizza None (Some 0)].

(** A gateway answering [cs] to the readiness check and [st] to the send. *)
Definition gateway (cs : JsError.t + option ConnectionState.t)
    (st : option JsError.t) : World :=
  {| EVOLUTION_API_URL := "https://evolution.example";
     EVOLUTION_API_KEY := "secret";
     connectionState := cs;
     sendText := st;
     Math_random := 1 # 4;
     Date_now := 1700000000000;
     toLocaleCurrency := sample_brl |}.

Definition in_state (s : string) : JsError.t + option ConnectionState.t :=
  inr (Some (ConnectionState.mk (Some (ConnectionState.mkInstance (Some s))))).

(** What axios rejects with on an HTTP error answer. *)
Definition axios_http_error (st : Z) : JsError.t :=
  JsError.mk "AxiosError" (Some "ERR_BAD_RESPONSE") None
             (Some (Response.mk st "[object Object]"))
             (Some ("Request failed with status code " +++ show st)).

(** What axios rejects with when the connection is reset. *)
Definition axios_reset : JsError.t :=
  JsError.mk "Error" (Some "ECONNRESET") None None (Some "read ECONNRESET").

Definition status_job : OrderMessageJobData :=
  {| type := ORDER_STATUS_UPDATED;
     order := order_in_status "completed";
     sequence := 2;
     evolutionInstance := "shop1" |}.

(** The order-created job of the end-to-end scenario. *)
Definition created_job : OrderMessageJobData :=
  {| type := ORDER_CREATED;
     order :=
       OrderData.mk 42 "Ana" "5511999990000" None "cash" (Some 500) "pending" None
         [OrderItem.mk 1 "Pizza" (Some 0) None None None
            (Some [PizzaFlavor.mk "Calabresa" 1000; PizzaFlavor.mk "Mussarela" 1400])
            None (Some "average") None];
     sequence := 1;
     evolutionInstance := "shop1" |}.

Definition order_of (its : list OrderItem.t) : OrderData.t :=
  OrderData.mk 42 "Ana" "5511999990000" None "cash" (Some 500)
               "pending" (Some "delivery") its.

(* ================================================================= *)
(** ** The Redis connection of src/worker.ts *)

(** [retryStrategy(times)]: the wait, in milliseconds, before the
    [times]-th reconnection attempt. *)
Definition retryStrategy (times : Z) : Z :=
  Z.min (times * 100) 2000.

(* ================================================================= *)
(** ** Further observations on payloads and traces *)

(** The line with another [pizzaConfig]. *)
Definition with_pizzaConfig (cfg : option PizzaConfig.t) (i : OrderItem.t)
  : OrderItem.t :=
  OrderItem.mk (OrderItem.quantity i) (OrderItem.name i) (OrderItem.price i)
               (OrderItem.notes i) (OrderItem.orderItemComplements i)
               (OrderItem.complements i) (OrderItem.pizzaFlavors i)
               (OrderItem.orderItemPizzaFlavors i)
               (OrderItem.pizzaPricingType i) cfg.

(** The line with another [pizzaPricingType]. *)
Definition with_pizzaPricingType (t : option string) (i : OrderItem.t)
  : OrderItem.t :=
  OrderItem.mk (OrderItem.quantity i) (OrderItem.name i) (OrderItem.price i)
               (OrderItem.notes i) (OrderItem.orderItemComplements i)
               (OrderItem.complements i) (OrderItem.pizzaFlavors i)
               (OrderItem.orderItemPizzaFlavors i) t (OrderItem.pizzaConfig i).

(** The messages posted in a trace: url, api key, number and text. *)
Fixpoint sent (tr : list Event) : list (string * string * string * string) :=
  match tr with
  | [] => []
  | HttpPost url key number text :: rest => (url, key, number, text) :: sent rest
  | _ :: rest => sent rest
  end.

(** Number of readiness checks made in a trace. *)
Fixpoint checks (tr : list Event) : nat :=
  match tr with
  | [] => O
  | HttpGet _ _ :: rest => S (checks rest)
  | _ :: rest => checks rest
  end.

(** The error that part_000's first document throws when the readiness
    check is rejected with [e]. *)
Definition Part000a_check_error (e : JsError.t) : JsError.t :=
  match JsError.response e with
  | Some r =>
      JsError.with_status (Some (Response.status r))
        (JsError.Error ("Evolution API error: " +++ show (Response.status r)
                        +++ " - " +++ Response.data r))
  | None => e
  end.

(** Timeout, network or "temporarily" in the message, case ignored: the
    three alternatives of part_001's pattern. *)
Definition fault_pattern (e : JsError.t) : Prop :=
  mentions "timeout" e \/ mentions "network" e \/ mentions "temporarily" e.

(** The layout of part_001's order-created message. *)
Module Layout001.

Definition flavors (fs : list PizzaFlavor.t) : string :=
  match fs with
  | [] => ""
  | _ =>
      "     _Sabores_" +++ nl
      +++ join (map (fun f => "           ```" +++ Layout.fraction (List.length fs)
                              +++ " " +++ PizzaFlavor.name f +++ "```" +++ nl) fs)
  end.

Definition complements (cs : list Complement.t) : string :=
  match cs with
  | [] => ""
  | _ =>
      "     _Complementos_" +++ nl
      +++ join (map (fun c => "           ```"
                              +++ quantityPrefix (Complement.quantity c)
                              +++ Complement.name c +++ "```" +++ nl) cs)
  end.

Definition lineNotes (item : OrderItem.t) : string :=
  if truthy_string (OrderItem.notes item) then
    nl +++ "*OBS:* " +++ show_string (OrderItem.notes item) +++ nl
  else "".

Definition line (item : OrderItem.t) : string :=
  "📦 ```" +++ quantityPrefix (OrderItem.quantity item)
  +++ OrderItem.name item +++ "```" +++ nl
  +++ flavors (Layout.list_or_empty (flavorsOf item))
  +++ complements (Layout.list_or_empty (OrderItem.orderItemComplements item))
  +++ lineNotes item +++ nl.

Definition orderNotes (o : OrderData.t) : string :=
  if truthy_string (OrderData.notes o) then
    "*OBS:* " +++ show_string (OrderData.notes o) +++ nl +++ nl
  else "".

End Layout001.

(** A line whose frontend arrays are empty while the backend arrays are
    filled. *)
Definition shadowed_line : OrderItem.t :=
  OrderItem.mk 1 "Pizza" (Some 900) None (Some [borda]) (Some [])
               (Some []) (Some flavors_500_700) None None.

(** A line with one flavor. *)
Definition single_flavor (strategy : option string) : OrderItem.t :=
  OrderItem.mk 1 "Pizza" (Some 0) None None None
               (Some [PizzaFlavor.mk "Calabresa" 4500]) None strategy None.

(** A job for a status that has no text. *)
Definition cancelled_job : OrderMessageJobData :=
  {| type := ORDER_STATUS_UPDATED;
     order := order_in_status "cancelled";
     sequence := 3;
     evolutionInstance := "shop1" |}.

(* ================================================================= *)
(** * Pricing *)

Lemma fold_left_add_from (xs : list Z) (a : Z) :
  fold_left (fun x y => x + y) xs a = a + sumZ xs.
Proof.
  revert a; induction xs as [|x xs IH]; intros a; simpl.
  - lia.
  - rewrite IH. lia.
Qed.

Lemma reduce_sum_sumZ (xs : list Z) : reduce_sum xs = sumZ xs.
Proof. unfold reduce_sum. now rewrite fold_left_add_from. Qed.

Lemma reduce_complements_from (cs : list Complement.t) (a : Z) :
  fold_left
    (fun sum c => sum + or_zero (Complement.price c) * Complement.quantity c)
    cs a
  = a + sumZ (map (fun c => or_zero (Complement.price c) * Complement.quantity c) cs).
Proof.
  revert a; induction cs as [|c cs IH]; intros a; simpl.
  - lia.
  - rewrite IH. lia.
Qed.

Lemma reduce_complements_sumZ (cs : list Complement.t) :
  reduce_complements cs
  = sumZ (map (fun c => or_zero (Complement.price c) * Complement.quantity c) cs).
Proof. unfold reduce_complements. now rewrite reduce_complements_from. Qed.

Lemma sumZ_Permutation (xs ys : list Z) :
  Permutation xs ys -> sumZ xs = sumZ ys.
Proof.
  induction 1; simpl; lia.
Qed.

Lemma Part000_complementsTotal_sum (item : OrderItem.t) :
  Part000Pricing.complementsTotal item = complementsSum item.
Proof.
  unfold Part000Pricing.complementsTotal, complementsSum, lineComplements,
    complementsOf, or_array.
  destruct (OrderItem.complements item) as [cs|];
    [|destruct (OrderItem.orderItemComplements item) as [cs|]];
    rewrite ?reduce_complements_sumZ; reflexivity.
Qed.

Lemma Worker_complementsTotal_sum (item : OrderItem.t) :
  WorkerPricing.complementsTotal item = complementsSum item.
Proof.
  unfold WorkerPricing.complementsTotal, complementsSum, lineComplements,
    complementsOf, or_array.
  destruct (OrderItem.complements item) as [cs|];
    [|destruct (OrderItem.orderItemComplements item) as [cs|]];
    rewrite ?reduce_complements_sumZ; reflexivity.
Qed.

(** The primitives are partial in JavaScript's way: without an argument
    [Math.max] is not finite, and neither is a quotient by zero. *)
Lemma Math_max_finite (xs : list Z) :
  is_finite (Math_max xs) = true <-> xs <> [].
Proof.
  destruct xs; simpl; split; intros H; congruence.
Qed.

Lemma Math_round_div_finite (a b : Z) :
  is_finite (Math_round_div a b) = true <-> b <> 0.
Proof.
  unfold Math_round_div.
  destruct (Z.eqb_spec b 0) as [->|Hb]; simpl.
  - destruct (a =? 0); [|destruct (0 <? a)]; simpl; split; intros H; congruence.
  - split; auto.
Qed.

Lemma Math_round_div_is_rounded (prices : list Z) :
  prices <> [] ->
  exists r, Math_round_div (sumZ prices) (Z.of_nat (List.length prices)) = Fin r
            /\ is_rounded_average prices r.
Proof.
  intros Hne.
  assert (Hn : 0 < Z.of_nat (List.length prices)).
  { destruct prices; [congruence | simpl List.length; lia]. }
  unfold Math_round_div, is_rounded_average.
  destruct (Z.eqb_spec (Z.of_nat (List.length prices)) 0) as [E|_]; [lia|].
  eexists; split; [reflexivity|].
  set (s := sumZ prices) in *. set (n := Z.of_nat (List.length prices)) in *.
  cbv zeta.
  pose proof (Z.div_mod (2 * s + n) (2 * n) ltac:(lia)) as Hdm.
  pose proof (Z.mod_pos_bound (2 * s + n) (2 * n) ltac:(lia)) as Hb.
  nia.
Qed.

Lemma max_fold_ge (xs : list Z) (a : Z) : a <= fold_left Z.max xs a.
Proof.
  revert a; induction xs as [|x xs IH]; intros a; simpl; [lia|].
  specialize (IH (Z.max a x)). lia.
Qed.

Lemma max_fold_upper (xs : list Z) (a : Z) :
  forall y, In y xs -> y <= fold_left Z.max xs a.
Proof.
  revert a; induction xs as [|x xs IH]; intros a y Hy; simpl in *; [tauto|].
  destruct Hy as [->|Hy].
  - pose proof (max_fold_ge xs (Z.max a y)). lia.
  - now apply IH.
Qed.

Lemma max_fold_in (xs : list Z) (a : Z) :
  fold_left Z.max xs a = a \/ In (fold_left Z.max xs a) xs.
Proof.
  revert a; induction xs as [|x xs IH]; intros a; simpl; [now left|].
  destruct (IH (Z.max a x)) as [E|Hin].
  - rewrite E. destruct (Z.max_spec a x) as [[_ ->]|[_ ->]]; auto.
  - auto.
Qed.

Lemma Part000_calculateItemPrice_finite (item : OrderItem.t) :
  exists z, Part000Pricing.calculateItemPrice item = Fin z.
Proof.
  unfold Part000Pricing.calculateItemPrice.
  destruct (flavorsOf item) as [[|f fs]|]; try (eexists; reflexivity).
  destruct (String.eqb _ "sum"); [eexists; reflexivity|].
  destruct (String.eqb _ "average").
  - rewrite reduce_sum_sumZ.
    destruct (Math_round_div_is_rounded (map PizzaFlavor.price (f :: fs)))
      as (r & Hr & _); [discriminate|].
    exists r. exact Hr.
  - destruct (String.eqb _ "max"); eexists; reflexivity.
Qed.

Lemma Worker_calculateItemPrice_finite (item : OrderItem.t) :
  exists z, WorkerPricing.calculateItemPrice item = Fin z.
Proof.
  unfold WorkerPricing.calculateItemPrice.
  destruct (flavorsOf item) as [[|f fs]|]; try (eexists; reflexivity).
  destruct (String.eqb _ "sum"); [eexists; reflexivity|].
  destruct (String.eqb _ "max"); [eexists; reflexivity|].
  rewrite reduce_sum_sumZ.
  destruct (Math_round_div_is_rounded (map PizzaFlavor.price (f :: fs)))
    as (r & Hr & _); [discriminate|].
  exists r. exact Hr.
Qed.

Lemma total_fold_finite
    (itemPrice : OrderItem.t -> number) (complementsTotal : OrderItem.t -> Z)
    (Hfin : forall item, exists z, itemPrice item = Fin z)
    (Hsum : forall item, complementsTotal item = complementsSum item)
    (its : list OrderItem.t) (a : Z) :
  fold_left (total_step itemPrice complementsTotal) its (Fin a)
  = Fin (a + sumZ (map (fun line =>
                          (to_Z (itemPrice line) + complementsSum line)
                          * OrderItem.quantity line) its)).
Proof.
  revert a; induction its as [|it its IH]; intros a; cbn [fold_left map sumZ].
  - f_equal; lia.
  - replace (total_step itemPrice complementsTotal (Fin a) it)
      with (Fin (a + (to_Z (itemPrice it) + complementsSum it)
                     * OrderItem.quantity it)).
    + rewrite IH. f_equal; lia.
    + unfold total_step. destruct (Hfin it) as [z Hz].
      rewrite Hz, Hsum. reflexivity.
Qed.

Lemma pricingTypeOf_unspecified (item : OrderItem.t) :
  unspecified item -> pricingTypeOf item = "average".
Proof.
  intros [H1 H2]. unfold pricingTypeOf. rewrite H1, H2. reflexivity.
Qed.

Lemma Worker_price_by_strategy (item : OrderItem.t) (fs : list PizzaFlavor.t) :
  flavorsOf item = Some fs -> fs <> [] ->
  WorkerPricing.calculateItemPrice item =
    let prices := map PizzaFlavor.price fs in
    if String.eqb (pricingTypeOf item) "sum" then Fin (sumZ prices)
    else if String.eqb (pricingTypeOf item) "max" then Math_max prices
    else Math_round_div (sumZ prices) (Z.of_nat (List.length prices)).
Proof.
  intros Hf Hne. unfold WorkerPricing.calculateItemPrice. rewrite Hf.
  destruct fs as [|f fs]; [congruence|].
  cbv zeta. now rewrite reduce_sum_sumZ.
Qed.

Lemma Part000_price_by_strategy (item : OrderItem.t) (fs : list PizzaFlavor.t) :
  flavorsOf item = Some fs -> fs <> [] ->
  Part000Pricing.calculateItemPrice item =
    let prices := map PizzaFlavor.price fs in
    if String.eqb (pricingTypeOf item) "sum" then Fin (sumZ prices)
    else if String.eqb (pricingTypeOf item) "average" then
      Math_round_div (sumZ prices) (Z.of_nat (List.length prices))
    else if String.eqb (pricingTypeOf item) "max" then Math_max prices
    else Fin (or_zero (OrderItem.price item)).
Proof.
  intros Hf Hne. unfold Part000Pricing.calculateItemPrice. rewrite Hf.
  destruct fs as [|f fs]; [congruence|].
  cbv zeta. now rewrite reduce_sum_sumZ.
Qed.

(** C6: for a line whose flavor prices are [500, 700], calculateItemPrice
    returns 600 under strategy "average", 1200 under "sum", 700 under "max",
    and 600 when the line names no strategy; this holds in src/worker.ts and
    part_001, and in both documents of part_000 as well. *)
Theorem C6_flavors_500_700 (item : OrderItem.t) (fs : list PizzaFlavor.t) :
  flavorsOf item = Some fs ->
  map PizzaFlavor.price fs = [500; 700] ->
  (pricingTypeOf item = "average" ->
     WorkerTs.calculateItemPrice item = Fin 600
     /\ Part001.calculateItemPrice item = Fin 600
     /\ Part000a.calculateItemPrice item = Fin 600
     /\ Part000b.calculateItemPrice item = Fin 600)
  /\ (pricingTypeOf item = "sum" ->
        WorkerTs.calculateItemPrice item = Fin 1200
        /\ Part001.calculateItemPrice item = Fin 1200
        /\ Part000a.calculateItemPrice item = Fin 1200
        /\ Part000b.calculateItemPrice item = Fin 1200)
  /\ (pricingTypeOf item = "max" ->
        WorkerTs.calculateItemPrice item = Fin 700
        /\ Part001.calculateItemPrice item = Fin 700
        /\ Part000a.calculateItemPrice item = Fin 700
        /\ Part000b.calculateItemPrice item = Fin 700)
  /\ (unspecified item ->
        WorkerTs.calculateItemPrice item = Fin 600
        /\ Part001.calculateItemPrice item = Fin 600
        /\ Part000a.calculateItemPrice item = Fin 600
        /\ Part000b.calculateItemPrice item = Fin 600).
Proof.
  intros Hf Hp.
  assert (Hne : fs <> []) by (intros ->; discriminate).
  unfold WorkerTs.calculateItemPrice, Part001.calculateItemPrice,
    Part000a.calculateItemPrice, Part000b.calculateItemPrice.
  rewrite (Worker_price_by_strategy item fs Hf Hne),
    (Part000_price_by_strategy item fs Hf Hne), Hp.
  repeat split;
    try (match goal with H : unspecified _ |- _ =>
           apply pricingTypeOf_unspecified in H end);
    match goal with H : pricingTypeOf _ = _ |- _ => rewrite H end;
    reflexivity.
Qed.

Lemma C6_flavors_500_700_witness :
  WorkerTs.calculateItemPrice (pizza (Some "average") (Some 0)) = Fin 600
  /\ WorkerTs.calculateItemPrice (pizza (Some "sum") (Some 0)) = Fin 1200
  /\ Part001.calculateItemPrice (pizza (Some "max") (Some 0)) = Fin 700
  /\ WorkerTs.calculateItemPrice (pizza None (Some 0)) = Fin 600.
Proof.
  split; [|split; [|split]].
  - apply (proj1 (C6_flavors_500_700 (pizza (Some "average") (Some 0))
                    flavors_500_700 eq_refl eq_refl) eq_refl).
  - apply (proj1 (proj2 (C6_flavors_500_700 (pizza (Some "sum") (Some 0))
                           flavors_500_700 eq_refl eq_refl)) eq_refl).
  - apply (proj1 (proj2 (proj2 (C6_flavors_500_700 (pizza (Some "max") (Some 0))
                                  flavors_500_700 eq_refl eq_refl))) eq_refl).
  - apply (proj2 (proj2 (proj2 (C6_flavors_500_700 (pizza None (Some 0))
                                  flavors_500_700 eq_refl eq_refl)))
                 (conj eq_refl eq_refl)).
Defined.

Lemma no_flavors_cases (item : OrderItem.t) :
  flavorsOf item = None \/ flavorsOf item = Some [] ->
  WorkerPricing.calculateItemPrice item = Fin (or_zero (OrderItem.price item))
  /\ Part000Pricing.calculateItemPrice item = Fin (or_zero (OrderItem.price item)).
Proof.
  unfold WorkerPricing.calculateItemPrice, Part000Pricing.calculateItemPrice.
  intros [-> | ->]; split; reflexivity.
Qed.

(** C10: calculateItemPrice is total.  [Math.max] and the division of the
    average are reached only with a non-empty flavor list, where both are
    finite, so the result is always an integer (never [-Infinity], [Infinity]
    or [NaN]); without flavors the base price is returned, and a missing base
    price gives 0. *)
Theorem C10_calculateItemPrice_total (item : OrderItem.t) :
  (exists z, WorkerTs.calculateItemPrice item = Fin z)
  /\ (exists z, Part001.calculateItemPrice item = Fin z)
  /\ (forall fs, flavorsOf item = Some fs -> fs <> [] ->
        let prices := map PizzaFlavor.price fs in
        is_finite (Math_max prices) = true
        /\ is_finite (Math_round_div (reduce_sum prices)
                                     (Z.of_nat (List.length prices))) = true)
  /\ (flavorsOf item = None \/ flavorsOf item = Some [] ->
        WorkerTs.calculateItemPrice item = Fin (or_zero (OrderItem.price item))
        /\ Part001.calculateItemPrice item = Fin (or_zero (OrderItem.price item)))
  /\ (flavorsOf item = None \/ flavorsOf item = Some [] ->
        OrderItem.price item = None ->
        WorkerTs.calculateItemPrice item = Fin 0
        /\ Part001.calculateItemPrice item = Fin 0).
Proof.
  unfold WorkerTs.calculateItemPrice, Part001.calculateItemPrice.
  split; [apply Worker_calculateItemPrice_finite|].
  split; [apply Worker_calculateItemPrice_finite|].
  split; [|split].
  - intros fs _ Hne. cbv zeta. split.
    + apply Math_max_finite. destruct fs; [congruence|discriminate].
    + apply Math_round_div_finite.
      destruct fs; [congruence | simpl List.length; lia].
  - intros H. destruct (no_flavors_cases item H) as [E _]. now split.
  - intros H Hp. destruct (no_flavors_cases item H) as [E _].
    rewrite Hp in E. now split.
Qed.

Lemma C10_calculateItemPrice_total_witness :
  (is_finite (Math_max [500; 700]) = true
   /\ is_finite (Math_round_div (reduce_sum [500; 700]) 2) = true)
  /\ WorkerTs.calculateItemPrice plain_line = Fin 0
  /\ Part001.calculateItemPrice plain_line = Fin 0.
Proof.
  split.
  - apply (proj1 (proj2 (proj2 (C10_calculateItemPrice_total (pizza None None))))
                 flavors_500_700 eq_refl).
    discriminate.
  - apply (proj2 (proj2 (proj2 (proj2 (C10_calculateItemPrice_total plain_line))))).
    + right. reflexivity.
    + reflexivity.
Defined.

(* ----------------------------------------------------------------- *)
(** *** Dependence on the base price *)

Lemma flavorsOf_with_price (p : option Z) (item : OrderItem.t) :
  flavorsOf (OrderItem.with_price p item) = flavorsOf item.
Proof. reflexivity. Qed.

Lemma pricingTypeOf_with_price (p : option Z) (item : OrderItem.t) :
  pricingTypeOf (OrderItem.with_price p item) = pricingTypeOf item.
Proof. reflexivity. Qed.

Lemma Worker_price_ignores_base
    (item : OrderItem.t) (fs : list PizzaFlavor.t) (p : option Z) :
  flavorsOf item = Some fs -> fs <> [] ->
  WorkerPricing.calculateItemPrice (OrderItem.with_price p item)
  = WorkerPricing.calculateItemPrice item.
Proof.
  intros Hf Hne.
  rewrite (Worker_price_by_strategy item fs Hf Hne).
  rewrite (Worker_price_by_strategy (OrderItem.with_price p item) fs);
    [reflexivity | now rewrite flavorsOf_with_price | exact Hne].
Qed.

Lemma Worker_default_is_average (item : OrderItem.t) (fs : list PizzaFlavor.t) :
  flavorsOf item = Some fs -> fs <> [] ->
  pricingTypeOf item <> "sum" -> pricingTypeOf item <> "max" ->
  exists r, WorkerPricing.calculateItemPrice item = Fin r
            /\ is_rounded_average (map PizzaFlavor.price fs) r.
Proof.
  intros Hf Hne Hs Hm.
  rewrite (Worker_price_by_strategy item fs Hf Hne). cbv zeta.
  apply String.eqb_neq in Hs, Hm. rewrite Hs, Hm.
  apply Math_round_div_is_rounded.
  destruct fs; [congruence | discriminate].
Qed.

Lemma Part000_price_ignores_base
    (item : OrderItem.t) (fs : list PizzaFlavor.t) (p : option Z) :
  flavorsOf item = Some fs -> fs <> [] -> recognized (pricingTypeOf item) ->
  Part000Pricing.calculateItemPrice (OrderItem.with_price p item)
  = Part000Pricing.calculateItemPrice item.
Proof.
  intros Hf Hne Hrec.
  rewrite (Part000_price_by_strategy item fs Hf Hne).
  rewrite (Part000_price_by_strategy (OrderItem.with_price p item) fs);
    [| now rewrite flavorsOf_with_price | exact Hne].
  rewrite pricingTypeOf_with_price. cbv zeta.
  destruct Hrec as [-> | [-> | ->]]; reflexivity.
Qed.

Lemma Part000_average (item : OrderItem.t) (fs : list PizzaFlavor.t) :
  flavorsOf item = Some fs -> fs <> [] ->
  pricingTypeOf item = "average" ->
  exists r, Part000Pricing.calculateItemPrice item = Fin r
            /\ is_rounded_average (map PizzaFlavor.price fs) r.
Proof.
  intros Hf Hne Ha.
  rewrite (Part000_price_by_strategy item fs Hf Hne). cbv zeta.
  rewrite Ha. simpl String.eqb. cbv iota.
  apply Math_round_div_is_rounded.
  destruct fs; [congruence | discriminate].
Qed.

(** C5, as the code has it: with a non-empty flavor list, calculateItemPrice
    of src/worker.ts and part_001 depends on the flavor prices and the
    strategy only (changing the base price changes nothing), and every
    strategy other than "sum" and "max" gives the rounded average.  In both
    documents of part_000 the same independence holds for the strategies
    "sum", "average", "max" and for a line that names no strategy, which is
    priced as "average". *)
Theorem C5_price_from_flavors_only
    (item : OrderItem.t) (fs : list PizzaFlavor.t) (p : option Z) :
  flavorsOf item = Some fs -> fs <> [] ->
  (WorkerTs.calculateItemPrice (OrderItem.with_price p item)
   = WorkerTs.calculateItemPrice item
   /\ Part001.calculateItemPrice (OrderItem.with_price p item)
      = Part001.calculateItemPrice item)
  /\ (pricingTypeOf item <> "sum" -> pricingTypeOf item <> "max" ->
        exists r, WorkerTs.calculateItemPrice item = Fin r
                  /\ Part001.calculateItemPrice item = Fin r
                  /\ is_rounded_average (map PizzaFlavor.price fs) r)
  /\ (recognized (pricingTypeOf item) ->
        Part000a.calculateItemPrice (OrderItem.with_price p item)
        = Part000a.calculateItemPrice item
        /\ Part000b.calculateItemPrice (OrderItem.with_price p item)
           = Part000b.calculateItemPrice item)
  /\ (unspecified item \/ pricingTypeOf item = "average" ->
        exists r, Part000a.calculateItemPrice item = Fin r
                  /\ Part000b.calculateItemPrice item = Fin r
                  /\ is_rounded_average (map PizzaFlavor.price fs) r).
Proof.
  intros Hf Hne.
  unfold WorkerTs.calculateItemPrice, Part001.calculateItemPrice,
    Part000a.calculateItemPrice, Part000b.calculateItemPrice.
  split; [|split; [|split]].
  - split; apply (Worker_price_ignores_base item fs p Hf Hne).
  - intros Hs Hm.
    destruct (Worker_default_is_average item fs Hf Hne Hs Hm) as (r & E & Hr).
    exists r. auto.
  - intros Hrec. split; apply (Part000_price_ignores_base item fs p Hf Hne Hrec).
  - intros H.
    assert (Ha : pricingTypeOf item = "average").
    { destruct H as [H | H]; [now apply pricingTypeOf_unspecified | exact H]. }
    destruct (Part000_average item fs Hf Hne Ha) as (r & E & Hr).
    exists r. auto.
Qed.

Lemma C5_price_from_flavors_only_witness :
  (WorkerTs.calculateItemPrice (pizza (Some "min") (Some 100))
   = WorkerTs.calculateItemPrice (pizza (Some "min") (Some 0))
   /\ Part001.calculateItemPrice (pizza (Some "min") (Some 100))
      = Part001.calculateItemPrice (pizza (Some "min") (Some 0)))
  /\ (exists r, WorkerTs.calculateItemPrice (pizza (Some "min") (Some 0)) = Fin r
                /\ Part001.calculateItemPrice (pizza (Some "min") (Some 0)) = Fin r
                /\ is_rounded_average [500; 700] r)
  /\ (Part000a.calculateItemPrice (pizza (Some "max") (Some 100))
      = Part000a.calculateItemPrice (pizza (Some "max") (Some 0))
      /\ Part000b.calculateItemPrice (pizza (Some "max") (Some 100))
         = Part000b.calculateItemPrice (pizza (Some "max") (Some 0)))
  /\ (exists r, Part000a.calculateItemPrice (pizza None (Some 0)) = Fin r
                /\ Part000b.calculateItemPrice (pizza None (Some 0)) = Fin r
                /\ is_rounded_average [500; 700] r).
Proof.
  assert (Hne : flavors_500_700 <> []) by discriminate.
  split; [|split; [|split]].
  - apply (proj1 (C5_price_from_flavors_only (pizza (Some "min") (Some 0))
                    flavors_500_700 (Some 100) eq_refl Hne)).
  - apply (proj1 (proj2 (C5_price_from_flavors_only (pizza (Some "min") (Some 0))
                           flavors_500_700 None eq_refl Hne)));
      discriminate.
  - apply (proj1 (proj2 (proj2 (C5_price_from_flavors_only
                                  (pizza (Some "max") (Some 0))
                                  flavors_500_700 (Some 100) eq_refl Hne)))).
    right; right; reflexivity.
  - apply (proj2 (proj2 (proj2 (C5_price_from_flavors_only
                                  (pizza None (Some 0))
                                  flavors_500_700 None eq_refl Hne)))).
    left; split; reflexivity.
Defined.

(** C5 fails in part_000: with flavors [500, 700] and the unrecognized
    strategy "min", the result is the base price, so two lines that differ
    in the base price only are priced differently, and neither gets the
    average 600. *)
Lemma C5_part000_unrecognized_strategy :
  Part000a.calculateItemPrice (pizza (Some "min") (Some 100)) = Fin 100
  /\ Part000a.calculateItemPrice (pizza (Some "min") (Some 200)) = Fin 200
  /\ pizza (Some "min") (Some 200)
     = OrderItem.with_price (Some 200) (pizza (Some "min") (Some 100))
  /\ ~ (forall (item : OrderItem.t) (p : option Z) (fs : list PizzaFlavor.t),
          flavorsOf item = Some fs -> fs <> [] ->
          Part000a.calculateItemPrice (OrderItem.with_price p item)
          = Part000a.calculateItemPrice item)
  /\ ~ (forall (item : OrderItem.t) (fs : list PizzaFlavor.t),
          flavorsOf item = Some fs -> fs <> [] ->
          pricingTypeOf item <> "sum" -> pricingTypeOf item <> "max" ->
          exists r, Part000a.calculateItemPrice item = Fin r
                    /\ is_rounded_average (map PizzaFlavor.price fs) r).
Proof.
  split; [reflexivity|]. split; [reflexivity|]. split; [reflexivity|]. split.
  - intros H.
    specialize (H (pizza (Some "min") (Some 100)) (Some 200) flavors_500_700
                  eq_refl ltac:(discriminate)).
    discriminate H.
  - intros H.
    destruct (H (pizza (Some "min") (Some 100)) flavors_500_700
                eq_refl ltac:(discriminate) ltac:(discriminate)
                ltac:(discriminate)) as (r & E & Hr).
    injection E as <-. unfold is_rounded_average in Hr. simpl in Hr. lia.
Qed.

(* ----------------------------------------------------------------- *)
(** *** Order total *)

Lemma Worker_total_is_sum (o : OrderData.t) :
  WorkerPricing.calculateOrderTotal o
  = Fin (orderTotal (fun l => to_Z (WorkerPricing.calculateItemPrice l)) o).
Proof.
  unfold WorkerPricing.calculateOrderTotal, orderTotal.
  rewrite (total_fold_finite _ _ Worker_calculateItemPrice_finite
             Worker_complementsTotal_sum).
  reflexivity.
Qed.

Lemma Part000_total_is_sum (o : OrderData.t) :
  Part000Pricing.calculateOrderTotal o
  = Fin (orderTotal (fun l => to_Z (Part000Pricing.calculateItemPrice l)) o).
Proof.
  unfold Part000Pricing.calculateOrderTotal, orderTotal.
  rewrite (total_fold_finite _ _ Part000_calculateItemPrice_finite
             Part000_complementsTotal_sum).
  reflexivity.
Qed.




(* ----------------------------------------------------------------- *)
(** *** The total on lines that may lack quantities *)




















Example order_total_sample :
  WorkerTs.calculateOrderTotal
    (order_of [combo [borda; refrigerante; guardanapo]; pizza None (Some 0)])
  = Fin 9600.
Proof. reflexivity. Qed.

(* ================================================================= *)
(** * Rendering *)

Lemma append_assoc (a b c : string) : (a +++ b) +++ c = a +++ b +++ c.
Proof. induction a as [|x a IH]; simpl; [reflexivity | now rewrite IH]. Qed.

Lemma append_empty_r (a : string) : a +++ "" = a.
Proof. induction a as [|x a IH]; simpl; [reflexivity | now rewrite IH]. Qed.

Lemma fold_left_append {A : Type} (f : A -> string) (xs : list A) (msg : string) :
  fold_left (fun m x => m +++ f x) xs msg = msg +++ join (map f xs).
Proof.
  revert msg; induction xs as [|x xs IH]; intros msg; simpl.
  - now rewrite append_empty_r.
  - rewrite IH. now rewrite append_assoc.
Qed.

Lemma fold_left_step {A : Type} (step : string -> A -> string) (f : A -> string)
    (xs : list A) (msg : string) :
  (forall m x, step m x = m +++ f x) ->
  fold_left step xs msg = msg +++ join (map f xs).
Proof.
  intros H. rewrite <- fold_left_append.
  revert msg; induction xs as [|x xs IH]; intros msg; simpl; [reflexivity|].
  now rewrite H, IH.
Qed.

Lemma Part000_flavorsBlock_layout (msg : string) (item : OrderItem.t) :
  Part000Render.flavorsBlock msg item
  = msg +++ Layout.flavors (Layout.list_or_empty (flavorsOf item)).
Proof.
  unfold Part000Render.flavorsBlock.
  destruct (flavorsOf item) as [[|f fs]|]; simpl Layout.list_or_empty;
    try (simpl; now rewrite append_empty_r).
  cbv zeta. rewrite fold_left_append.
  unfold Layout.flavors, Layout.fraction. now rewrite !append_assoc.
Qed.

Lemma Part000_complementsBlock_layout (msg : string) (item : OrderItem.t) :
  Part000Render.complementsBlock msg item
  = msg +++ Layout.complements
              (Layout.list_or_empty (OrderItem.orderItemComplements item)).
Proof.
  unfold Part000Render.complementsBlock.
  destruct (OrderItem.orderItemComplements item) as [[|c cs]|];
    simpl Layout.list_or_empty; try (simpl; now rewrite append_empty_r).
  cbv zeta. rewrite fold_left_append.
  unfold Layout.complements. now rewrite !append_assoc.
Qed.

Lemma Part000_itemStep_layout (msg : string) (item : OrderItem.t) :
  Part000Render.itemStep msg item = msg +++ Layout.line item.
Proof.
  unfold Part000Render.itemStep, Layout.line, Layout.lineNotes. cbv zeta.
  rewrite Part000_complementsBlock_layout, Part000_flavorsBlock_layout.
  destruct (truthy_string (OrderItem.notes item));
    rewrite ?append_assoc, ?append_empty_r; reflexivity.
Qed.

Lemma Worker_itemStep_layout (msg : string) (item : OrderItem.t) :
  WorkerRender.itemStep msg item = msg +++ Layout.workerLine item.
Proof.
  unfold WorkerRender.itemStep, Layout.workerLine. cbv zeta.
  destruct (truthy_string (OrderItem.notes item));
    rewrite ?append_assoc, ?append_empty_r; reflexivity.
Qed.

Lemma Part000_created_layout (brl : Currency) (o : OrderData.t) :
  Part000Render.formatOrderMessage brl o ORDER_CREATED
  = header o
    +++ join (map Layout.line (OrderData.items o))
    +++ Layout.orderNotes o
    +++ nl +++ Part000Render.paymentGlyph o +++ " "
    +++ Part000Render.paymentText brl o
    +++ nl +++ "🛵 " +++ Part000Render.deliveryText o
    +++ nl +++ nl
    +++ Layout.footer (brl (Part000Pricing.calculateOrderTotal o))
                      Part000Render.closing.
Proof.
  unfold Part000Render.formatOrderMessage, Layout.orderNotes, Layout.footer.
  cbv zeta.
  rewrite (fold_left_step Part000Render.itemStep Layout.line _ _
             Part000_itemStep_layout).
  destruct (truthy_string (OrderData.notes o));
    rewrite ?append_assoc; reflexivity.
Qed.

Lemma Worker_created_layout (brl : Currency) (o : OrderData.t) :
  WorkerRender.formatOrderMessage brl o ORDER_CREATED
  = header o
    +++ join (map Layout.workerLine (OrderData.items o))
    +++ Layout.footer (brl (WorkerPricing.calculateOrderTotal o))
                      WorkerRender.closing.
Proof.
  unfold WorkerRender.formatOrderMessage, Layout.footer. cbv zeta.
  rewrite (fold_left_step WorkerRender.itemStep Layout.workerLine _ _
             Worker_itemStep_layout).
  rewrite ?append_assoc; reflexivity.
Qed.

Lemma Part000_other_payment (brl : Currency) (o : OrderData.t) :
  other_payment o ->
  Part000Render.paymentGlyph o +++ " " +++ Part000Render.paymentText brl o
  = "💳 *Cartão*".
Proof.
  intros [Hc Hp]. unfold Part000Render.paymentGlyph, Part000Render.paymentText.
  apply String.eqb_neq in Hc, Hp. rewrite Hc, Hp. reflexivity.
Qed.

Lemma Part000_other_delivery (o : OrderData.t) :
  other_delivery o -> Part000Render.deliveryText o = "*Consumo no local*".
Proof.
  unfold other_delivery, Part000Render.deliveryText.
  destruct (OrderData.deliveryMethodCode o) as [c|]; [|reflexivity].
  intros [Hd Hp]. apply String.eqb_neq in Hd, Hp. now rewrite Hd, Hp.
Qed.

Lemma prefix_split (p s : string) :
  String.prefix p s = true <-> exists rest, s = p +++ rest.
Proof.
  revert s; induction p as [|c p IH]; intros s.
  - split; [intros _; now exists s | intros _; now destruct s].
  - destruct s as [|d s]; simpl.
    + split; [discriminate | intros [rest H]; discriminate].
    + destruct (Ascii.ascii_dec c d) as [->|Hcd].
      * rewrite IH. split; intros [rest H]; exists rest; congruence.
      * split; [discriminate | intros [rest H]; congruence].
Qed.

Lemma includes_occurs (hay needle : string) :
  includes hay needle = true <-> occurs_in needle hay.
Proof.
  unfold occurs_in. induction hay as [|c hay IH]; cbn [includes].
  - rewrite orb_false_r, prefix_split. split.
    + intros [rest H]. exists "", rest. exact H.
    + intros (b & a & H). destruct b; [now exists a | discriminate].
  - rewrite orb_true_iff, IH, prefix_split. split.
    + intros [[rest H] | (b & a & H)].
      * exists "", rest. exact H.
      * exists (String c b), a. simpl. now rewrite H.
    + intros (b & a & H). destruct b as [|d b]; simpl in H.
      * left. now exists a.
      * right. exists b, a. congruence.
Qed.

Lemma not_includes_not_occurs (hay needle : string) :
  includes hay needle = false -> ~ occurs_in needle hay.
Proof.
  intros H Hocc. apply includes_occurs in Hocc. congruence.
Qed.

(** C7, as the code has it.  In both documents of part_000 the
    order-created message is: the header with the order code; per line the
    quantity-prefixed name (no prefix for quantity 1), the flavors block with
    a 1/N label per flavor, the complements block, and the line notes, each
    block absent when there is nothing to show; the order notes; the payment
    line, which is the card phrasing for any method other than cash and pix;
    the delivery line, which is dine-in for an absent or unrecognized code;
    the formatted total and the closing line.  In src/worker.ts the message
    is the header, per line the quantity-prefixed name and the line notes,
    then the formatted total and the closing line, and nothing else. *)
Theorem C7_created_layout (brl : Currency) (o : OrderData.t) :
  Part000a.formatOrderMessage brl o ORDER_CREATED
  = header o
    +++ join (map Layout.line (OrderData.items o))
    +++ Layout.orderNotes o
    +++ nl +++ Part000Render.paymentGlyph o +++ " "
    +++ Part000Render.paymentText brl o
    +++ nl +++ "🛵 " +++ Part000Render.deliveryText o
    +++ nl +++ nl
    +++ Layout.footer
          (brl (Fin (orderTotal (fun l => to_Z (Part000a.calculateItemPrice l)) o)))
          "Obrigado pela preferência, se precisar de algo é só chamar! 😉"
  /\ Part000b.formatOrderMessage brl o ORDER_CREATED
     = Part000a.formatOrderMessage brl o ORDER_CREATED
  /\ quantityPrefix 1 = ""
  /\ Layout.flavors [] = ""
  /\ Layout.complements [] = ""
  /\ (forall item, truthy_string (OrderItem.notes item) = false ->
        Layout.lineNotes item = "")
  /\ (other_payment o ->
        Part000Render.paymentGlyph o +++ " " +++ Part000Render.paymentText brl o
        = "💳 *Cartão*")
  /\ (other_delivery o -> Part000Render.deliveryText o = "*Consumo no local*")
  /\ WorkerTs.formatOrderMessage brl o ORDER_CREATED
     = header o
       +++ join (map Layout.workerLine (OrderData.items o))
       +++ Layout.footer
             (brl (Fin (orderTotal (fun l => to_Z (WorkerTs.calculateItemPrice l)) o)))
             "Obrigado pela preferência! 😉".
Proof.
  unfold Part000a.formatOrderMessage, Part000b.formatOrderMessage,
    WorkerTs.formatOrderMessage, Part000a.calculateItemPrice,
    WorkerTs.calculateItemPrice.
  rewrite <- Part000_total_is_sum, <- Worker_total_is_sum.
  split; [apply Part000_created_layout|].
  split; [reflexivity|]. split; [reflexivity|]. split; [reflexivity|].
  split; [reflexivity|]. split.
  { intros item H. unfold Layout.lineNotes. now rewrite H. }
  split; [apply Part000_other_payment|].
  split; [apply Part000_other_delivery|].
  apply Worker_created_layout.
Qed.

Lemma C7_created_layout_witness :
  Layout.lineNotes plain_line = ""
  /\ Part000Render.paymentGlyph card_order +++ " "
     +++ Part000Render.paymentText sample_brl card_order
     = "💳 *Cartão*"
  /\ Part000Render.deliveryText card_order = "*Consumo no local*".
Proof.
  destruct (C7_created_layout sample_brl card_order)
    as (_ & _ & _ & _ & _ & Hnotes & Hpay & Hdel & _).
  split; [|split].
  - apply Hnotes. reflexivity.
  - apply Hpay. split; discriminate.
  - apply Hdel. exact I.
Defined.

(** C7 fails in src/worker.ts: for an order whose only line has two
    flavors and one complement, paid by card and without delivery code, the
    message has no flavors block, no complements block, no payment line and
    no delivery line. *)
Lemma C7_worker_ts_omits_blocks :
  Layout.list_or_empty
    (flavorsOf (hd plain_line (OrderData.items card_order))) = flavors_500_700
  /\ other_payment card_order
  /\ other_delivery card_order
  /\ WorkerTs.formatOrderMessage sample_brl card_order ORDER_CREATED
     = "Pedido *n° 7*" +++ nl +++ nl +++ "*Itens:*" +++ nl
       +++ "📦 ```Pizza```" +++ nl +++ nl
       +++ "Total *R$ 14,00*" +++ nl +++ nl +++ "Obrigado pela preferência! 😉"
  /\ ~ occurs_in "_Sabores_"
         (WorkerTs.formatOrderMessage sample_brl card_order ORDER_CREATED)
  /\ ~ occurs_in "_Complementos_"
         (WorkerTs.formatOrderMessage sample_brl card_order ORDER_CREATED)
  /\ ~ occurs_in "Cartão"
         (WorkerTs.formatOrderMessage sample_brl card_order ORDER_CREATED)
  /\ ~ occurs_in "Consumo no local"
         (WorkerTs.formatOrderMessage sample_brl card_order ORDER_CREATED).
Proof.
  split; [reflexivity|]. split; [split; discriminate|]. split; [exact I|].
  split; [vm_compute; reflexivity|].
  repeat split; apply not_includes_not_occurs; vm_compute; reflexivity.
Qed.

Example part000_card_order_message :
  Part000a.formatOrderMessage sample_brl card_order ORDER_CREATED
  = "Pedido *n° 7*" +++ nl +++ nl +++ "*Itens:*" +++ nl
    +++ "📦 ```Pizza```" +++ nl
    +++ "     _Sabores_" +++ nl
    +++ "           ```1/2 Calabresa```" +++ nl
    +++ "           ```1/2 Mussarela```" +++ nl
    +++ "     _Complementos_" +++ nl
    +++ "           ```Borda recheada```" +++ nl +++ nl
    +++ "💳 *Cartão*" +++ nl
    +++ "🛵 *Consumo no local*" +++ nl +++ nl
    +++ "Total *R$ 14,00*" +++ nl +++ nl
    +++ "Obrigado pela preferência, se precisar de algo é só chamar! 😉".
Proof. vm_compute. reflexivity. Qed.

(** C9: for every order snapshot, formatOrderMessage for a status update
    returns the fixed in-production text when the status is "in_preparation",
    the fixed in-transit text when it is "completed", and the empty string
    for every other status; it is a total function, in all four revisions. *)
Theorem C9_status_update (brl : Currency) (o : OrderData.t) :
  (OrderData.status o = "in_preparation" ->
     WorkerTs.formatOrderMessage brl o ORDER_STATUS_UPDATED
     = "Agora vai! Seu pedido já está *em produção* 🥳"
     /\ Part001.formatOrderMessage brl o ORDER_STATUS_UPDATED
        = "Agora vai! Seu pedido já está *em produção* 🥳"
     /\ Part000a.formatOrderMessage brl o ORDER_STATUS_UPDATED
        = "Agora vai! Seu pedido já está *em produção* 🥳"
     /\ Part000b.formatOrderMessage brl o ORDER_STATUS_UPDATED
        = "Agora vai! Seu pedido já está *em produção* 🥳")
  /\ (OrderData.status o = "completed" ->
        WorkerTs.formatOrderMessage brl o ORDER_STATUS_UPDATED
        = "Tô chegando! Seu pedido já está na rota de *entrega* 🛵"
        /\ Part001.formatOrderMessage brl o ORDER_STATUS_UPDATED
           = "Tô chegando! Seu pedido já está na rota de *entrega* 🛵"
        /\ Part000a.formatOrderMessage brl o ORDER_STATUS_UPDATED
           = "Tô chegando! Seu pedido já está na rota de *entrega* 🛵"
        /\ Part000b.formatOrderMessage brl o ORDER_STATUS_UPDATED
           = "Tô chegando! Seu pedido já está na rota de *entrega* 🛵")
  /\ (OrderData.status o <> "in_preparation" ->
      OrderData.status o <> "completed" ->
        WorkerTs.formatOrderMessage brl o ORDER_STATUS_UPDATED = ""
        /\ Part001.formatOrderMessage brl o ORDER_STATUS_UPDATED = ""
        /\ Part000a.formatOrderMessage brl o ORDER_STATUS_UPDATED = ""
        /\ Part000b.formatOrderMessage brl o ORDER_STATUS_UPDATED = "").
Proof.
  unfold WorkerTs.formatOrderMessage, Part001.formatOrderMessage,
    Part000a.formatOrderMessage, Part000b.formatOrderMessage,
    WorkerRender.formatOrderMessage, Part001Render.formatOrderMessage,
    Part000Render.formatOrderMessage, statusUpdateMessage.
  split; [|split].
  - intros ->. simpl. auto.
  - intros ->. simpl. auto.
  - intros H1 H2. apply String.eqb_neq in H1, H2. rewrite H1, H2. auto.
Qed.

Lemma C9_status_update_witness :
  WorkerTs.formatOrderMessage sample_brl (order_in_status "in_preparation")
                              ORDER_STATUS_UPDATED
  = "Agora vai! Seu pedido já está *em produção* 🥳"
  /\ Part001.formatOrderMessage sample_brl (order_in_status "completed")
                                ORDER_STATUS_UPDATED
     = "Tô chegando! Seu pedido já está na rota de *entrega* 🛵"
  /\ Part000a.formatOrderMessage sample_brl (order_in_status "cancelled")
                                 ORDER_STATUS_UPDATED
     = "".
Proof.
  split; [|split].
  - apply (proj1 (C9_status_update sample_brl (order_in_status "in_preparation"))
                 eq_refl).
  - apply (proj1 (proj2 (C9_status_update sample_brl (order_in_status "completed")))
                 eq_refl).
  - apply (proj2 (proj2 (C9_status_update sample_brl (order_in_status "cancelled"))));
      discriminate.
Defined.

(* ================================================================= *)
(** * Failure classification *)

Lemma toLowerCase_append (a b : string) :
  toLowerCase (a +++ b) = toLowerCase a +++ toLowerCase b.
Proof. induction a as [|c a IH]; simpl; [reflexivity | now rewrite IH]. Qed.

Lemma toLowerCase_split (m a b : string) :
  toLowerCase m = a +++ b ->
  exists a' b', m = a' +++ b' /\ toLowerCase a' = a /\ toLowerCase b' = b.
Proof.
  revert m; induction a as [|c a IH]; intros m H.
  - exists "", m. auto.
  - destruct m as [|d m]; [discriminate|].
    simpl in H. injection H as Hc Hm.
    destruct (IH m Hm) as (a' & b' & -> & Ha & Hb).
    exists (String d a'), b'. simpl. rewrite Ha, Hc. auto.
Qed.

Lemma lowered_includes (m word : string) :
  includes (toLowerCase m) word = true
  <-> exists piece, occurs_in piece m /\ toLowerCase piece = word.
Proof.
  rewrite includes_occurs. split.
  - intros (b & a & H).
    destruct (toLowerCase_split m b (word +++ a) H) as (b' & r & -> & Hb & Hr).
    destruct (toLowerCase_split r word a Hr) as (p & a' & -> & Hp & Ha).
    exists p. split; [now exists b', a' | exact Hp].
  - intros (piece & (b & a & ->) & Hp).
    exists (toLowerCase b), (toLowerCase a).
    now rewrite !toLowerCase_append, Hp.
Qed.

Lemma is_string_eq (s : option string) (lit : string) :
  is_string s lit = true <-> s = Some lit.
Proof.
  destruct s as [x|]; simpl.
  - rewrite String.eqb_eq. split; congruence.
  - split; discriminate.
Qed.

Lemma message_wording (e : JsError.t) :
  match JsError.message e with
  | Some m =>
      includes (toLowerCase m) "timeout"
      || includes (toLowerCase m) "temporarily unavailable"
      || includes (toLowerCase m) "network"
  | None => false
  end = true
  <-> fault_phrasing e.
Proof.
  unfold fault_phrasing, mentions.
  destruct (JsError.message e) as [m|].
  - rewrite !orb_true_iff, !lowered_includes. split.
    + intros [[(p & H & E) | (p & H & E)] | (p & H & E)];
        [left | right; left | right; right]; exists m, p; auto.
    + intros [(m' & p & [= <-] & H & E) | [(m' & p & [= <-] & H & E)
                                          | (m' & p & [= <-] & H & E)]];
        [left; left | left; right | right]; exists p; auto.
  - split; [discriminate|].
    intros [(m' & p & H & _) | [(m' & p & H & _) | (m' & p & H & _)]];
      discriminate.
Qed.

Lemma Part000b_temporary_iff (e : JsError.t) :
  Part000b.isTemporaryProviderError (Some e) = true
  <-> (JsError.name e = "FetchError" \/ connection_fault_code e)
      \/ (exists st, JsError.status_or_response e = Some st /\ 500 <= st)
      \/ fault_phrasing e.
Proof.
  unfold Part000b.isTemporaryProviderError, connection_fault_code.
  rewrite <- message_wording, <- !is_string_eq, <- String.eqb_eq.
  destruct (String.eqb (JsError.name e) "FetchError"); simpl; [tauto|].
  destruct (is_string (JsError.code e) "ECONNRESET"); simpl; [tauto|].
  destruct (is_string (JsError.code e) "ETIMEDOUT"); simpl; [tauto|].
  destruct (JsError.status_or_response e) as [st|].
  - destruct (Z.leb_spec 500 st) as [Hle|Hlt].
    + split; auto. intros _. right; left. now exists st.
    + destruct (JsError.message e) as [m|].
      * destruct (_ || _ || _) eqn:E; split; auto; try discriminate.
        intros [[H|[H|H]] | [(st' & [= <-] & H) | H]];
          try discriminate; try lia.
      * split; [discriminate|].
        intros [[H|[H|H]] | [(st' & [= <-] & H) | H]];
          try discriminate; try lia.
  - destruct (JsError.message e) as [m|].
    + destruct (_ || _ || _) eqn:E; split; auto; try discriminate.
      intros [[H|[H|H]] | [(st' & H & _) | H]]; discriminate.
    + split; [discriminate|].
      intros [[H|[H|H]] | [(st' & H & _) | H]]; discriminate.
Qed.

Lemma array_includes_iff (xs : list string) (x : option string) :
  array_includes xs x = true <-> exists s, x = Some s /\ In s xs.
Proof.
  unfold array_includes. destruct x as [s|].
  - rewrite existsb_exists. split.
    + intros (y & Hy & E). apply String.eqb_eq in E. subst. now exists y.
    + intros (y & [= <-] & Hy). exists s. split; [exact Hy | apply String.eqb_refl].
  - split; [discriminate | intros (s & H & _); discriminate].
Qed.

Lemma WorkerTs_temporary_iff (e : JsError.t) :
  WorkerTs.isTemporaryProviderError (Some e) = true
  <-> (exists c, JsError.code e = Some c
                 /\ In c ["ECONNRESET"; "ETIMEDOUT"; "EPIPE"])
      \/ (exists st, JsError.response_status e = Some st /\ 500 <= st).
Proof.
  unfold WorkerTs.isTemporaryProviderError.
  rewrite <- array_includes_iff.
  destruct (array_includes _ (JsError.code e)); [tauto|].
  destruct (JsError.response_status e) as [st|].
  - destruct (Z.leb_spec 500 st) as [Hle|Hlt].
    + split; auto. intros _. right. now exists st.
    + split; [discriminate|].
      intros [H | (st' & [= <-] & H)]; [discriminate | lia].
  - split; [discriminate|].
    intros [H | (st' & H & _)]; discriminate.
Qed.

(** C2, as the code has it.  The classifier is the boolean
    isTemporaryProviderError.  In the second document of part_000 it holds
    exactly when the error is named FetchError or has code ECONNRESET or
    ETIMEDOUT, or its status (its own, else the response's) is at least 500,
    or its message, case ignored, contains "timeout", "temporarily
    unavailable" or "network".  In src/worker.ts it holds exactly when the
    code is ECONNRESET, ETIMEDOUT or EPIPE or the response status is at least
    500; the message is not looked at.  In both, status 503 is temporary, and
    status 400 or 404 without fault markers is not; a missing error is not
    temporary.  There is no NotFound outcome of the classifier. *)
Theorem C2_temporary_errors (e : JsError.t) :
  (Part000b.isTemporaryProviderError (Some e) = true
   <-> (JsError.name e = "FetchError" \/ connection_fault_code e)
       \/ (exists st, JsError.status_or_response e = Some st /\ 500 <= st)
       \/ fault_phrasing e)
  /\ (WorkerTs.isTemporaryProviderError (Some e) = true
      <-> (exists c, JsError.code e = Some c
                     /\ In c ["ECONNRESET"; "ETIMEDOUT"; "EPIPE"])
          \/ (exists st, JsError.response_status e = Some st /\ 500 <= st))
  /\ Part000b.isTemporaryProviderError None = false
  /\ WorkerTs.isTemporaryProviderError None = false
  /\ (JsError.status_or_response e = Some 503 ->
        Part000b.isTemporaryProviderError (Some e) = true)
  /\ (JsError.response_status e = Some 503 ->
        WorkerTs.isTemporaryProviderError (Some e) = true)
  /\ (JsError.status_or_response e = Some 400
      \/ JsError.status_or_response e = Some 404 ->
      JsError.name e <> "FetchError" -> JsError.code e = None ->
      ~ fault_phrasing e ->
        Part000b.isTemporaryProviderError (Some e) = false)
  /\ (JsError.response_status e = Some 400
      \/ JsError.response_status e = Some 404 ->
      JsError.code e = None ->
        WorkerTs.isTemporaryProviderError (Some e) = false).
Proof.
  split; [apply Part000b_temporary_iff|].
  split; [apply WorkerTs_temporary_iff|].
  split; [reflexivity|]. split; [reflexivity|].
  split; [|split; [|split]].
  - intros H. apply Part000b_temporary_iff. right; left. exists 503. split; [exact H|lia].
  - intros H. apply WorkerTs_temporary_iff. right. exists 503. split; [exact H|lia].
  - intros Hst Hname Hcode Hmsg.
    destruct (Part000b.isTemporaryProviderError (Some e)) eqn:E; [|reflexivity].
    apply Part000b_temporary_iff in E.
    destruct E as [[E | [E | E]] | [(st & E & Hge) | E]];
      try contradiction; try congruence.
    destruct Hst as [Hst | Hst]; rewrite Hst in E; injection E as <-; lia.
  - intros Hst Hcode.
    destruct (WorkerTs.isTemporaryProviderError (Some e)) eqn:E; [|reflexivity].
    apply WorkerTs_temporary_iff in E.
    destruct E as [(c & E & _) | (st & E & Hge)]; [congruence|].
    destruct Hst as [Hst | Hst]; rewrite Hst in E; injection E as <-; lia.
Qed.

Lemma not_includes_not_mentions (word : string) (e : JsError.t) (m : string) :
  JsError.message e = Some m -> includes (toLowerCase m) word = false ->
  ~ mentions word e.
Proof.
  intros Hm Hinc (m' & piece & Hm' & Hocc & Hlow).
  rewrite Hm in Hm'. injection Hm' as <-.
  assert (includes (toLowerCase m) word = true)
    by (apply lowered_includes; now exists piece).
  congruence.
Qed.

Lemma C2_temporary_errors_witness :
  Part000b.isTemporaryProviderError
    (Some (JsError.with_status (Some 503) (JsError.Error "Failed to send message: Request failed with status code 503")))
  = true
  /\ WorkerTs.isTemporaryProviderError (Some (axios_http_error 503)) = true
  /\ Part000b.isTemporaryProviderError
       (Some (JsError.with_status (Some 400) (JsError.Error "Failed to send message: Request failed with status code 400")))
     = false
  /\ WorkerTs.isTemporaryProviderError
       (Some (JsError.mk "AxiosError" None None (Some (Response.mk 404 "")) (Some "Request failed with status code 404")))
     = false
  /\ WorkerTs.isTemporaryProviderError (Some axios_reset) = true.
Proof.
  split; [|split; [|split; [|split]]].
  - apply (proj1 (proj2 (proj2 (proj2 (proj2 (C2_temporary_errors _)))))).
    reflexivity.
  - apply (proj1 (proj2 (proj2 (proj2 (proj2 (proj2
             (C2_temporary_errors (axios_http_error 503)))))))).
    reflexivity.
  - apply (proj1 (proj2 (proj2 (proj2 (proj2 (proj2 (proj2
             (C2_temporary_errors _)))))))).
    + left. reflexivity.
    + discriminate.
    + reflexivity.
    + intros [H | [H | H]];
        (eapply not_includes_not_mentions; [ | | exact H]; reflexivity).
  - apply (proj2 (proj2 (proj2 (proj2 (proj2 (proj2 (proj2
             (C2_temporary_errors _)))))))).
    + right. reflexivity.
    + reflexivity.
  - apply (proj2 (proj1 (proj2 (C2_temporary_errors axios_reset)))).
    left. exists "ECONNRESET". split; [reflexivity | left; reflexivity].
Defined.

(** C2 fails in src/worker.ts: an error whose message reads "Network
    timeout", without code and without response, is Transient by the
    claim's third criterion, and isTemporaryProviderError returns false. *)
Lemma C2_worker_ts_ignores_wording :
  spec_transient (JsError.Error "Network timeout")
  /\ WorkerTs.isTemporaryProviderError (Some (JsError.Error "Network timeout"))
     = false.
Proof.
  split; [|reflexivity].
  right; right. left.
  exists "Network timeout", "timeout". split; [reflexivity|]. split; [|reflexivity].
  exists "Network ", "". reflexivity.
Qed.

(* ================================================================= *)
(** * The job processor *)

Lemma notOpen_when_not_open (data : option ConnectionState.t) :
  reports_not_open data -> notOpen data = inr true.
Proof.
  unfold reports_not_open, notOpen.
  destruct data as [[[[st]|]]|]; [ | simpl; tauto | reflexivity ].
  cbn [ConnectionState.instance ConnectionState.state].
  intros H. destruct (is_string st "open") eqn:E.
  - apply is_string_eq in E. contradiction.
  - now rewrite orb_true_r.
Qed.

Lemma notOpen_when_open (data : option ConnectionState.t) :
  reports_open data -> notOpen data = inr false.
Proof.
  intros (d & i & -> & Hi & Hs). unfold notOpen. rewrite Hi, Hs. reflexivity.
Qed.

Ltac run_processor :=
  unfold run, bind, try_catch, axios_get, axios_post, emit, ask, settle,
    throw, ret.

Lemma Part000a_not_ready (job : OrderMessageJobData) (w : World)
    (data : option ConnectionState.t) :
  connectionState w = inr data -> reports_not_open data ->
  exists tr,
    run (Part000a.processOrderMessage job) w = (tr, inr tt)
    /\ delayed tr
       = [(inject_Z (Date_now w) + (60000 + Math_random w * 60000))%Q]
    /\ posted tr = O /\ failed tr = [].
Proof.
  intros Hcs Hno. unfold Part000a.processOrderMessage. run_processor.
  cbn -[Part000a.formatOrderMessage show String.append].
  rewrite Hcs, (notOpen_when_not_open data Hno).
  eexists. split; [reflexivity|]. repeat split.
Qed.

Lemma delay_window (r : Q) :
  (0 <= r)%Q -> (r < 1)%Q ->
  (60000 <= 60000 + r * 60000)%Q /\ (60000 + r * 60000 < 120000)%Q.
Proof. intros H0 H1. split; lra. Qed.

Lemma Part000a_send_failure (job : OrderMessageJobData) (w : World)
    (data : option ConnectionState.t) (e : JsError.t) :
  connectionState w = inr data -> reports_open data -> sendText w = Some e ->
  exists tr,
    posted tr = 1%nat /\ delayed tr = []
    /\ if Part000a.isTemporaryProviderError (Some (Part000a_send_error e))
       then run (Part000a.processOrderMessage job) w
            = (tr, inl (Part000a_send_error e))
            /\ failed tr = []
       else run (Part000a.processOrderMessage job) w = (tr, inr tt)
            /\ failed tr = [Part000a_send_error e].
Proof.
  intros Hcs Hopen Hsend.
  unfold Part000a.processOrderMessage, Part000a.sendMessage, Part000a_send_error.
  run_processor.
  cbn -[Part000a.formatOrderMessage Part000a.isTemporaryProviderError
        show String.append].
  rewrite Hcs, (notOpen_when_open data Hopen), Hsend.
  destruct (JsError.response e) as [r|];
    match goal with
    | |- context [Part000a.isTemporaryProviderError ?x] =>
        destruct (Part000a.isTemporaryProviderError x)
    end;
    eexists; (split; [|split; [|split; reflexivity]]); reflexivity.
Qed.

Lemma WorkerTs_send_failure (job : OrderMessageJobData) (w : World)
    (e : JsError.t) :
  sendText w = Some e ->
  exists tr,
    posted tr = 1%nat /\ delayed tr = [] /\ failed tr = []
    /\ run (WorkerTs.processOrderMessage job) w
       = (tr, inl (if WorkerTs.isTemporaryProviderError (Some e) then e
                   else JsError.Error
                          ("Falha permanente ao enviar mensagem: "
                           +++ show_string (JsError.message e)))).
Proof.
  intros Hsend.
  unfold WorkerTs.processOrderMessage, WorkerTs.sendMessage. run_processor.
  cbn -[WorkerTs.formatOrderMessage WorkerTs.isTemporaryProviderError
        show String.append].
  rewrite Hsend.
  destruct (WorkerTs.isTemporaryProviderError (Some e));
    eexists; repeat split; reflexivity.
Qed.

Lemma Part000b_not_ready (job : OrderMessageJobData) (w : World)
    (data : option ConnectionState.t) :
  connectionState w = inr data -> reports_not_open data ->
  exists tr,
    run (Part000b.processOrderMessage job) w = (tr, inl not_ready_error)
    /\ delayed tr = [] /\ posted tr = O /\ failed tr = [].
Proof.
  intros Hcs Hno. unfold Part000b.processOrderMessage. run_processor.
  cbn -[Part000b.formatOrderMessage show String.append].
  rewrite Hcs. cbn -[Part000b.formatOrderMessage show String.append notOpen].
  rewrite (notOpen_when_not_open data Hno).
  eexists. repeat split; reflexivity.
Qed.

Lemma Part000b_not_found_on_check (job : OrderMessageJobData) (w : World)
    (e : JsError.t) :
  connectionState w = inl e -> JsError.response_status e = Some 404 ->
  exists tr,
    run (Part000b.processOrderMessage job) w = (tr, inr tt)
    /\ delayed tr = [] /\ posted tr = O /\ failed tr = [].
Proof.
  intros Hcs H404. unfold Part000b.processOrderMessage. run_processor.
  cbn -[Part000b.formatOrderMessage show String.append].
  rewrite Hcs, H404. cbn -[Part000b.formatOrderMessage show String.append].
  eexists. repeat split; reflexivity.
Qed.

Lemma Part000b_send_failure (job : OrderMessageJobData) (w : World)
    (data : option ConnectionState.t) (e : JsError.t) :
  connectionState w = inr data -> reports_open data -> sendText w = Some e ->
  exists tr,
    run (Part000b.processOrderMessage job) w = (tr, inl (Part000b_send_error e))
    /\ posted tr = 1%nat /\ delayed tr = [] /\ failed tr = [].
Proof.
  intros Hcs Hopen Hsend.
  unfold Part000b.processOrderMessage, Part000b.sendMessage, Part000b_send_error.
  run_processor.
  cbn -[Part000b.formatOrderMessage Part000b.isTemporaryProviderError
        show String.append].
  rewrite Hcs.
  cbn -[Part000b.formatOrderMessage Part000b.isTemporaryProviderError
        show String.append notOpen].
  rewrite (notOpen_when_open data Hopen), Hsend.
  cbn -[Part000b.formatOrderMessage Part000b.isTemporaryProviderError
        show String.append].
  match goal with
  | |- context [Part000b.isTemporaryProviderError ?x] =>
      destruct (Part000b.isTemporaryProviderError x)
  end; eexists; repeat split; reflexivity.
Qed.

Lemma Part001_state_not_open (data : option ConnectionState.t) :
  reports_not_open data ->
  is_string
    match data with
    | Some d =>
        match ConnectionState.instance d with
        | Some i => ConnectionState.state i
        | None => None
        end
    | None => None
    end "open" = false.
Proof.
  destruct data as [[[[st]|]]|]; simpl; try reflexivity.
  intros H. destruct (is_string st "open") eqn:E; [|reflexivity].
  apply is_string_eq in E. contradiction.
Qed.

Lemma Part001_not_ready (job : OrderMessageJobData) (w : World)
    (data : option ConnectionState.t) :
  connectionState w = inr data -> reports_not_open data ->
  exists tr,
    run (Part001.processOrderMessage job) w = (tr, inl not_ready_error)
    /\ delayed tr = [] /\ posted tr = O /\ failed tr = [].
Proof.
  intros Hcs Hno. unfold Part001.processOrderMessage. run_processor.
  cbn -[Part001.formatOrderMessage show String.append is_string].
  rewrite Hcs, (Part001_state_not_open data Hno).
  eexists. repeat split; reflexivity.
Qed.

Lemma Part001_not_found_on_check (job : OrderMessageJobData) (w : World)
    (e : JsError.t) :
  connectionState w = inl e -> JsError.response_status e = Some 404 ->
  exists tr,
    run (Part001.processOrderMessage job) w = (tr, inl not_found_error)
    /\ delayed tr = [] /\ posted tr = O /\ failed tr = [].
Proof.
  intros Hcs H404. unfold Part001.processOrderMessage. run_processor.
  cbn -[Part001.formatOrderMessage show String.append].
  rewrite Hcs, H404. cbn -[Part001.formatOrderMessage show String.append].
  eexists. repeat split; reflexivity.
Qed.

Lemma Part001_send_failure (job : OrderMessageJobData) (w : World)
    (data : option ConnectionState.t) (e : JsError.t) :
  connectionState w = inr data -> reports_open data -> sendText w = Some e ->
  exists tr,
    run (Part001.processOrderMessage job) w = (tr, inl (Part001_send_error e))
    /\ posted tr = 1%nat /\ delayed tr = [] /\ failed tr = [].
Proof.
  intros Hcs (d & i & -> & Hi & Hs) Hsend.
  unfold Part001.processOrderMessage, Part001.sendMessage, Part001_send_error.
  run_processor.
  cbn -[Part001.formatOrderMessage Part001.isTemporaryProviderError
        show String.append].
  rewrite Hcs, Hi, Hs.
  cbn -[Part001.formatOrderMessage Part001.isTemporaryProviderError
        show String.append].
  rewrite Hsend.
  cbn -[Part001.formatOrderMessage Part001.isTemporaryProviderError
        show String.append].
  destruct (is_status (JsError.response_status e) 404);
    [|match goal with
      | |- context [Part001.isTemporaryProviderError ?x] =>
          destruct (Part001.isTemporaryProviderError x)
      end];
    eexists; repeat split; reflexivity.
Qed.

(** C1, as the code has it.  When the readiness check answers with a state
    other than "open", the first document of part_000 schedules exactly one
    delayed re-run, [Date.now()] plus a delay in [60000, 120000), sends
    nothing and returns normally.  The second document of part_000 and
    part_001 send nothing either, schedule nothing, and throw an error
    "Evolution instance not ready" with status 503, which their classifiers
    hold to be temporary. *)
Theorem C1_not_ready_policy (job : OrderMessageJobData) (w : World)
    (data : option ConnectionState.t) :
  connectionState w = inr data -> reports_not_open data ->
  (0 <= Math_random w)%Q -> (Math_random w < 1)%Q ->
  (exists tr delay,
     run (Part000a.processOrderMessage job) w = (tr, inr tt)
     /\ delayed tr = [(inject_Z (Date_now w) + delay)%Q]
     /\ (60000 <= delay)%Q /\ (delay < 120000)%Q
     /\ posted tr = O /\ failed tr = [])
  /\ (exists tr,
        run (Part000b.processOrderMessage job) w = (tr, inl not_ready_error)
        /\ delayed tr = [] /\ posted tr = O /\ failed tr = [])
  /\ (exists tr,
        run (Part001.processOrderMessage job) w = (tr, inl not_ready_error)
        /\ delayed tr = [] /\ posted tr = O /\ failed tr = [])
  /\ JsError.status not_ready_error = Some 503
  /\ Part000b.isTemporaryProviderError (Some not_ready_error) = true
  /\ Part001.isTemporaryProviderError not_ready_error = true.
Proof.
  intros Hcs Hno H0 H1.
  split; [|split; [|split; [|repeat split]]].
  - destruct (Part000a_not_ready job w data Hcs Hno) as (tr & Hrun & Hd & Hp & Hf).
    destruct (delay_window (Math_random w) H0 H1) as [Hlo Hhi].
    exists tr, (60000 + Math_random w * 60000)%Q. auto 6.
  - apply (Part000b_not_ready job w data Hcs Hno).
  - apply (Part001_not_ready job w data Hcs Hno).
Qed.

Lemma C1_not_ready_policy_witness :
  exists tr delay,
    run (Part000a.processOrderMessage status_job)
        (gateway (in_state "connecting") None) = (tr, inr tt)
    /\ delayed tr = [(inject_Z 1700000000000 + delay)%Q]
    /\ (60000 <= delay)%Q /\ (delay < 120000)%Q
    /\ posted tr = O /\ failed tr = [].
Proof.
  apply (proj1 (C1_not_ready_policy status_job
                  (gateway (in_state "connecting") None)
                  (Some (ConnectionState.mk
                           (Some (ConnectionState.mkInstance (Some "connecting")))))
                  eq_refl ltac:(simpl; discriminate)
                  ltac:(vm_compute; discriminate) ltac:(vm_compute; reflexivity))).
Defined.

(** C1 fails in the second document of part_000: with the instance in
    state "connecting" the processor logs, schedules no delayed re-run and
    throws an error with status 503 at once, which isTemporaryProviderError
    classifies as temporary. *)
Lemma C1_part000b_throws_when_not_ready :
  run (Part000b.processOrderMessage status_job)
      (gateway (in_state "connecting") None)
  = ([Log "Starting processing for order 42 of type ORDER_STATUS_UPDATED and sequence 2";
      HttpGet "https://evolution.example/instance/connectionState/shop1" "secret";
      Log "Evolution instance shop1 not ready, delaying job (order 42)."],
     inl (JsError.mk "Error" None (Some 503) None
                     (Some "Evolution instance not ready")))
  /\ delayed (fst (run (Part000b.processOrderMessage status_job)
                       (gateway (in_state "connecting") None))) = []
  /\ Part000b.isTemporaryProviderError
       (Some (JsError.mk "Error" None (Some 503) None
                         (Some "Evolution instance not ready"))) = true
  /\ ~ (exists tr delay,
          run (Part000b.processOrderMessage status_job)
              (gateway (in_state "connecting") None) = (tr, inr tt)
          /\ delayed tr = [(inject_Z 1700000000000 + delay)%Q]).
Proof.
  split; [vm_compute; reflexivity|]. split; [vm_compute; reflexivity|].
  split; [vm_compute; reflexivity|].
  intros (tr & delay & H & _).
  vm_compute in H. discriminate H.
Qed.

Example part000a_delays_job :
  run (Part000a.processOrderMessage status_job)
      (gateway (in_state "connecting") None)
  = ([Log "Starting processing for order 42 of type ORDER_STATUS_UPDATED and sequence 2";
      HttpGet "https://evolution.example/instance/connectionState/shop1" "secret";
      Log "Evolution instance shop1 not ready, delaying job (order 42).";
      UpdateProgress "waiting_instance";
      MoveToDelayed (inject_Z 1700000000000 + (60000 + (1 # 4) * 60000))%Q],
     inr tt).
Proof. reflexivity. Qed.

(** C3 fails in the second document of part_000 (and in part_001): a send
    rejected with HTTP 400 reaches the catch block as an error that
    isTemporaryProviderError holds not to be temporary, and it is thrown
    again exactly as the temporary error of an HTTP 503 is; nothing is
    handed to moveToFailed and no distinct permanent failure is raised. *)
Theorem C3_part000b_rethrows_terminal :
  let terminal := Part000b_send_error (axios_http_error 400) in
  let transient := Part000b_send_error (axios_http_error 503) in
  Part000b.isTemporaryProviderError (Some terminal) = false
  /\ Part000b.isTemporaryProviderError (Some transient) = true
  /\ snd (run (Part000b.processOrderMessage status_job)
              (gateway (in_state "open") (Some (axios_http_error 400))))
     = inl terminal
  /\ snd (run (Part000b.processOrderMessage status_job)
              (gateway (in_state "open") (Some (axios_http_error 503))))
     = inl transient
  /\ failed (fst (run (Part000b.processOrderMessage status_job)
                      (gateway (in_state "open") (Some (axios_http_error 400)))))
     = []
  /\ Part001.isTemporaryProviderError (Part001_send_error (axios_http_error 400))
     = false
  /\ snd (run (Part001.processOrderMessage status_job)
              (gateway (in_state "open") (Some (axios_http_error 400))))
     = inl (Part001_send_error (axios_http_error 400)).
Proof.
  cbv zeta. repeat split; vm_compute; reflexivity.
Qed.

(** The same failures in the first document of part_000 and in
    src/worker.ts, where the two classes part ways. *)
Example part000a_terminal_is_failed :
  run (Part000a.processOrderMessage status_job)
      (gateway (in_state "open") (Some (axios_http_error 400)))
  = ([Log "Starting processing for order 42 of type ORDER_STATUS_UPDATED and sequence 2";
      HttpGet "https://evolution.example/instance/connectionState/shop1" "secret";
      Log "Sending message for order 42 to 5511999990000";
      HttpPost "https://evolution.example/message/sendText/shop1" "secret"
               "5511999990000"
               "Tô chegando! Seu pedido já está na rota de *entrega* 🛵";
      Log "Message failed for order 42: Evolution API error: 400 - [object Object]";
      MoveToFailed (JsError.Error "Evolution API error: 400 - [object Object]")
                   "message_send_failure"],
     inr tt).
Proof. vm_compute. reflexivity. Qed.

Example part000a_reset_is_rethrown :
  snd (run (Part000a.processOrderMessage status_job)
           (gateway (in_state "open") (Some axios_reset)))
  = inl axios_reset.
Proof. vm_compute. reflexivity. Qed.

Example worker_ts_terminal_is_wrapped :
  snd (run (WorkerTs.processOrderMessage status_job)
           (gateway (in_state "open") (Some (axios_http_error 400))))
  = inl (JsError.Error
           "Falha permanente ao enviar mensagem: Request failed with status code 400")
  /\ snd (run (WorkerTs.processOrderMessage status_job)
              (gateway (in_state "open") (Some (axios_http_error 503))))
     = inl (axios_http_error 503).
Proof. split; vm_compute; reflexivity. Qed.

(** C4, as the code has it.  When the readiness check is rejected with
    HTTP 404, the second document of part_000 writes the log line
    "Evolution instance ... not found, delaying job (order ...)." and ends
    the attempt normally: after the start log and the readiness check that
    log is the last thing it does, so nothing is sent, nothing is thrown and
    nothing is scheduled.  part_001 throws a new error "Evolution instance
    not found" with status 404 instead, right after the check, and when the
    send is rejected with HTTP 404 it throws the send error, which carries
    status 404, after the one POST. *)
Theorem C4_not_found_handling (job : OrderMessageJobData) (w : World)
    (e : JsError.t) :
  JsError.response_status e = Some 404 ->
  (connectionState w = inl e ->
     run (Part000b.processOrderMessage job) w
     = ([Log ("Starting processing for order "
              +++ show (OrderData.code (order job)) +++ " of type "
              +++ show_type (type job) +++ " and sequence "
              +++ show (sequence job));
         HttpGet (connectionStateUrl w (evolutionInstance job))
                 (EVOLUTION_API_KEY w);
         Log ("Evolution instance " +++ evolutionInstance job
              +++ " not found, delaying job (order "
              +++ show (OrderData.code (order job)) +++ ").")],
        inr tt)
     /\ run (Part001.processOrderMessage job) w
        = ([Log ("Processing order " +++ show (OrderData.code (order job))
                 +++ " (" +++ show_type (type job) +++ ")");
            HttpGet (connectionStateUrl w (evolutionInstance job))
                    (EVOLUTION_API_KEY w)],
           inl not_found_error))
  /\ (forall data,
        connectionState w = inr data -> reports_open data ->
        sendText w = Some e ->
        run (Part001.processOrderMessage job) w
        = ([Log ("Processing order " +++ show (OrderData.code (order job))
                 +++ " (" +++ show_type (type job) +++ ")");
            HttpGet (connectionStateUrl w (evolutionInstance job))
                    (EVOLUTION_API_KEY w);
            HttpPost (sendTextUrl w (evolutionInstance job))
                     (EVOLUTION_API_KEY w)
                     (OrderData.customerPhone (order job))
                     (Part001.formatOrderMessage (toLocaleCurrency w)
                                                 (order job) (type job))],
           inl (Part001_send_error e))
        /\ JsError.status (Part001_send_error e) = Some 404).
Proof.
  intros H404. split.
  - intros Hcs. split.
    + unfold Part000b.processOrderMessage. run_processor.
      cbn -[Part000b.formatOrderMessage show String.append].
      rewrite Hcs, H404. reflexivity.
    + unfold Part001.processOrderMessage. run_processor.
      cbn -[Part001.formatOrderMessage show String.append].
      rewrite Hcs, H404. reflexivity.
  - intros data Hcs (d & i & -> & Hi & Hs) Hsend. split.
    + unfold Part001.processOrderMessage, Part001.sendMessage,
        Part001_send_error.
      run_processor.
      cbn -[Part001.formatOrderMessage Part001.isTemporaryProviderError
            show String.append].
      rewrite Hcs, Hi, Hs.
      cbn -[Part001.formatOrderMessage Part001.isTemporaryProviderError
            show String.append].
      rewrite Hsend, H404.
      cbn -[Part001.formatOrderMessage Part001.isTemporaryProviderError
            show String.append].
      reflexivity.
    + unfold Part001_send_error. simpl. exact H404.
Qed.

Lemma C4_not_found_handling_witness :
  run (Part000b.processOrderMessage status_job)
      (gateway (inl (axios_http_error 404)) None)
  = ([Log "Starting processing for order 42 of type ORDER_STATUS_UPDATED and sequence 2";
      HttpGet "https://evolution.example/instance/connectionState/shop1" "secret";
      Log "Evolution instance shop1 not found, delaying job (order 42)."],
     inr tt)
  /\ (run (Part001.processOrderMessage status_job)
          (gateway (in_state "open") (Some (axios_http_error 404)))
      = ([Log "Processing order 42 (ORDER_STATUS_UPDATED)";
          HttpGet "https://evolution.example/instance/connectionState/shop1"
                  "secret";
          HttpPost "https://evolution.example/message/sendText/shop1" "secret"
                   "5511999990000"
                   "Tô chegando! Seu pedido já está na rota de *entrega* 🛵"],
         inl (Part001_send_error (axios_http_error 404)))
      /\ JsError.status (Part001_send_error (axios_http_error 404)) = Some 404).
Proof.
  split.
  - apply (proj1 (proj1 (C4_not_found_handling status_job
                           (gateway (inl (axios_http_error 404)) None)
                           (axios_http_error 404) eq_refl) eq_refl)).
  - apply (proj2 (C4_not_found_handling status_job
                    (gateway (in_state "open") (Some (axios_http_error 404)))
                    (axios_http_error 404) eq_refl)
                 (Some (ConnectionState.mk
                          (Some (ConnectionState.mkInstance (Some "open")))))
                 eq_refl).
    + eexists _, _. repeat split; reflexivity.
    + reflexivity.
Defined.

(** C4 fails in part_001: a readiness check rejected with HTTP 404 makes
    the processor throw. *)
Lemma C4_part001_throws_not_found :
  run (Part001.processOrderMessage status_job)
      (gateway (inl (axios_http_error 404)) None)
  = ([Log "Processing order 42 (ORDER_STATUS_UPDATED)";
      HttpGet "https://evolution.example/instance/connectionState/shop1" "secret"],
     inl (JsError.mk "Error" None (Some 404) None
                     (Some "Evolution instance not found")))
  /\ snd (run (Part001.processOrderMessage status_job)
              (gateway (inl (axios_http_error 404)) None)) <> inr tt.
Proof.
  split; [vm_compute; reflexivity|]. vm_compute. discriminate.
Qed.

(** In the second document of part_000 the catch block of the send looks
    for the 404 under [err.response], which the error thrown by its own
    [sendMessage] never has: a send rejected with HTTP 404 is thrown on. *)
Example part000b_send_404_is_thrown :
  run (Part000b.processOrderMessage status_job)
      (gateway (in_state "open") (Some (axios_http_error 404)))
  = ([Log "Starting processing for order 42 of type ORDER_STATUS_UPDATED and sequence 2";
      HttpGet "https://evolution.example/instance/connectionState/shop1" "secret";
      HttpPost "https://evolution.example/message/sendText/shop1" "secret"
               "5511999990000"
               "Tô chegando! Seu pedido já está na rota de *entrega* 🛵"],
     inl (JsError.mk "Error" None (Some 404) None
            (Some "Failed to send message: Request failed with status code 404"))).
Proof. vm_compute. reflexivity. Qed.

(** The end-to-end scenario on a ready gateway: one send, normal return. *)
Example part000a_created_job_is_sent :
  run (Part000a.processOrderMessage created_job) (gateway (in_state "open") None)
  = ([Log "Starting processing for order 42 of type ORDER_CREATED and sequence 1";
      HttpGet "https://evolution.example/instance/connectionState/shop1" "secret";
      Log "Sending message for order 42 to 5511999990000";
      HttpPost "https://evolution.example/message/sendText/shop1" "secret"
               "5511999990000"
               ("Pedido *n° 42*" +++ nl +++ nl +++ "*Itens:*" +++ nl
                +++ "📦 ```Pizza```" +++ nl
                +++ "     _Sabores_" +++ nl
                +++ "           ```1/2 Calabresa```" +++ nl
                +++ "           ```1/2 Mussarela```" +++ nl +++ nl
                +++ "💵 *Dinheiro (troco para R$ 5,00)*" +++ nl
                +++ "🛵 *Consumo no local*" +++ nl +++ nl
                +++ "Total *R$ 12,00*" +++ nl +++ nl
                +++ "Obrigado pela preferência, se precisar de algo é só chamar! 😉");
      Log "Message sent successfully for order 42"],
     inr tt).
Proof. vm_compute. reflexivity. Qed.

(** A body without [instance] makes the readiness test of part_000 throw. *)
Example part000a_body_without_instance :
  snd (run (Part000a.processOrderMessage created_job)
           (gateway (inr (Some (ConnectionState.mk None))) None))
  = inl JsError.TypeError_state.
Proof. vm_compute. reflexivity. Qed.

(* ================================================================= *)
(** * Further properties of the code *)

(* ----------------------------------------------------------------- *)
(** *** Reconnection delay *)

(** X1: the reconnection delay of src/worker.ts grows by 100 ms per attempt
    and is capped: it never exceeds 2000 ms, it is monotone in the attempt
    number, it is exactly [100 * times] up to the twentieth attempt and
    exactly 2000 from then on. *)
Theorem X1_retryStrategy_capped (times times' : Z) :
  retryStrategy times <= 2000
  /\ (0 <= times -> 0 <= retryStrategy times)
  /\ (times <= times' -> retryStrategy times <= retryStrategy times')
  /\ (times <= 20 -> retryStrategy times = times * 100)
  /\ (20 <= times -> retryStrategy times = 2000).
Proof.
  unfold retryStrategy. repeat split; intros; lia.
Qed.

Lemma X1_retryStrategy_capped_witness :
  0 <= retryStrategy 1
  /\ retryStrategy 3 <= retryStrategy 50
  /\ retryStrategy 7 = 700
  /\ retryStrategy 21 = 2000.
Proof.
  split; [|split; [|split]].
  - apply (proj1 (proj2 (X1_retryStrategy_capped 1 1))). lia.
  - apply (proj1 (proj2 (proj2 (X1_retryStrategy_capped 3 50)))). lia.
  - apply (proj1 (proj2 (proj2 (proj2 (X1_retryStrategy_capped 7 7))))). lia.
  - apply (proj2 (proj2 (proj2 (proj2 (X1_retryStrategy_capped 21 21))))). lia.
Defined.

(* ----------------------------------------------------------------- *)
(** *** Pricing strategies *)

Lemma sumZ_bounds (xs : list Z) (lo hi : Z) :
  (forall p, In p xs -> lo <= p <= hi) ->
  Z.of_nat (List.length xs) * lo <= sumZ xs <= Z.of_nat (List.length xs) * hi.
Proof.
  induction xs as [|x xs IH]; intros H.
  - simpl. lia.
  - assert (Hx : lo <= x <= hi) by (apply H; now left).
    assert (Hxs : forall p, In p xs -> lo <= p <= hi)
      by (intros p Hp; apply H; now right).
    specialize (IH Hxs). cbn [sumZ List.length]. lia.
Qed.

Lemma rounded_average_bounds (xs : list Z) (r lo hi : Z) :
  xs <> [] -> is_rounded_average xs r ->
  (forall p, In p xs -> lo <= p <= hi) -> lo <= r <= hi.
Proof.
  intros Hne Hr Hb. unfold is_rounded_average in Hr. cbv zeta in Hr.
  pose proof (sumZ_bounds xs lo hi Hb) as Hs.
  assert (Hn : 0 < Z.of_nat (List.length xs))
    by (destruct xs; [congruence | simpl List.length; lia]).
  split; nia.
Qed.

Lemma Math_max_greatest (xs : list Z) :
  xs <> [] ->
  exists m, Math_max xs = Fin m /\ In m xs /\ forall p, In p xs -> p <= m.
Proof.
  destruct xs as [|x rest]; [congruence|]. intros _.
  exists (fold_left Z.max rest x). split; [reflexivity|]. split.
  - destruct (max_fold_in rest x) as [-> | H]; [now left | now right].
  - intros p [<- | Hp]; [apply max_fold_ge | now apply max_fold_upper].
Qed.

Lemma map_price_nonempty (fs : list PizzaFlavor.t) :
  fs <> [] -> map PizzaFlavor.price fs <> [].
Proof. destruct fs; [congruence | discriminate]. Qed.

Lemma max_price_greatest (item : OrderItem.t) (fs : list PizzaFlavor.t) :
  flavorsOf item = Some fs -> fs <> [] -> pricingTypeOf item = "max" ->
  exists m,
    WorkerPricing.calculateItemPrice item = Fin m
    /\ Part000Pricing.calculateItemPrice item = Fin m
    /\ In m (map PizzaFlavor.price fs)
    /\ forall p, In p (map PizzaFlavor.price fs) -> p <= m.
Proof.
  intros Hf Hne Hmax.
  rewrite (Worker_price_by_strategy item fs Hf Hne),
    (Part000_price_by_strategy item fs Hf Hne), Hmax.
  cbv zeta. simpl String.eqb. cbv iota.
  destruct (Math_max_greatest (map PizzaFlavor.price fs)
              (map_price_nonempty fs Hne)) as (m & E & Hin & Hup).
  exists m. auto.
Qed.

Lemma average_price_bounds
    (item : OrderItem.t) (fs : list PizzaFlavor.t) (lo hi : Z) :
  flavorsOf item = Some fs -> fs <> [] -> pricingTypeOf item = "average" ->
  (forall p, In p (map PizzaFlavor.price fs) -> lo <= p <= hi) ->
  exists r,
    WorkerPricing.calculateItemPrice item = Fin r
    /\ Part000Pricing.calculateItemPrice item = Fin r
    /\ lo <= r <= hi.
Proof.
  intros Hf Hne Ha Hb.
  destruct (Part000_average item fs Hf Hne Ha) as (r & E & Hr).
  exists r. split; [|split; [exact E|]].
  - rewrite (Worker_price_by_strategy item fs Hf Hne), Ha.
    rewrite (Part000_price_by_strategy item fs Hf Hne), Ha in E. exact E.
  - apply (rounded_average_bounds (map PizzaFlavor.price fs) r lo hi);
      auto using map_price_nonempty.
Qed.

(** X2: with a non-empty flavor list and strategy "max", calculateItemPrice
    returns the greatest flavor price: a price of one of the flavors that no
    other flavor price exceeds (all revisions). *)
Theorem X2_max_is_greatest_flavor_price
    (item : OrderItem.t) (fs : list PizzaFlavor.t) :
  flavorsOf item = Some fs -> fs <> [] -> pricingTypeOf item = "max" ->
  exists m,
    WorkerPricing.calculateItemPrice item = Fin m
    /\ Part000Pricing.calculateItemPrice item = Fin m
    /\ In m (map PizzaFlavor.price fs)
    /\ forall p, In p (map PizzaFlavor.price fs) -> p <= m.
Proof.
  exact (max_price_greatest item fs).
Qed.

Lemma X2_max_is_greatest_flavor_price_witness :
  exists m,
    WorkerPricing.calculateItemPrice (pizza (Some "max") None) = Fin m
    /\ Part000Pricing.calculateItemPrice (pizza (Some "max") None) = Fin m
    /\ In m [500; 700]
    /\ forall p, In p [500; 700] -> p <= m.
Proof.
  apply (X2_max_is_greatest_flavor_price (pizza (Some "max") None)
           flavors_500_700 eq_refl ltac:(discriminate) eq_refl).
Defined.

(** X3: with a non-empty flavor list and strategy "average",
    calculateItemPrice returns an integer that lies between any lower and
    upper bound of the flavor prices: rounding never takes the average out
    of the range of the prices (all revisions). *)
Theorem X3_average_within_price_range
    (item : OrderItem.t) (fs : list PizzaFlavor.t) (lo hi : Z) :
  flavorsOf item = Some fs -> fs <> [] -> pricingTypeOf item = "average" ->
  (forall p, In p (map PizzaFlavor.price fs) -> lo <= p <= hi) ->
  exists r,
    WorkerPricing.calculateItemPrice item = Fin r
    /\ Part000Pricing.calculateItemPrice item = Fin r
    /\ lo <= r <= hi.
Proof.
  exact (average_price_bounds item fs lo hi).
Qed.

Lemma X3_average_within_price_range_witness :
  exists r,
    WorkerPricing.calculateItemPrice (pizza (Some "average") None) = Fin r
    /\ Part000Pricing.calculateItemPrice (pizza (Some "average") None) = Fin r
    /\ 500 <= r <= 700.
Proof.
  apply (X3_average_within_price_range (pizza (Some "average") None)
           flavors_500_700 500 700 eq_refl ltac:(discriminate) eq_refl).
  simpl. intros p [<- | [<- | []]]; lia.
Defined.

Lemma round_div_one (p : Z) : Math_round_div p 1 = Fin p.
Proof.
  unfold Math_round_div. simpl Z.eqb. cbv iota. f_equal.
  symmetry. apply (Z.div_unique (2 * p + 1) (2 * 1) p 1); lia.
Qed.

(** X4: a line with exactly one flavor is priced at that flavor's price:
    in src/worker.ts and part_001 under every strategy, in part_000 under
    "sum", "average" and "max". *)
Theorem X4_single_flavor_price (item : OrderItem.t) (f : PizzaFlavor.t) :
  flavorsOf item = Some [f] ->
  WorkerPricing.calculateItemPrice item = Fin (PizzaFlavor.price f)
  /\ (recognized (pricingTypeOf item) ->
        Part000Pricing.calculateItemPrice item = Fin (PizzaFlavor.price f)).
Proof.
  intros Hf.
  rewrite (Worker_price_by_strategy item [f] Hf ltac:(discriminate)),
    (Part000_price_by_strategy item [f] Hf ltac:(discriminate)).
  cbv zeta. cbn [map sumZ List.length Math_max fold_left Z.of_nat Pos.of_succ_nat].
  rewrite Z.add_0_r, round_div_one. split.
  - destruct (String.eqb _ "sum"); [reflexivity|].
    destruct (String.eqb _ "max"); reflexivity.
  - intros [-> | [-> | ->]]; reflexivity.
Qed.

Lemma X4_single_flavor_price_witness :
  WorkerPricing.calculateItemPrice (single_flavor (Some "metade")) = Fin 4500
  /\ Part000Pricing.calculateItemPrice (single_flavor (Some "max")) = Fin 4500.
Proof.
  split.
  - apply (proj1 (X4_single_flavor_price (single_flavor (Some "metade"))
                    (PizzaFlavor.mk "Calabresa" 4500) eq_refl)).
  - apply (proj2 (X4_single_flavor_price (single_flavor (Some "max"))
                    (PizzaFlavor.mk "Calabresa" 4500) eq_refl)).
    right; right; reflexivity.
Defined.

Lemma sumZ_nonneg (xs : list Z) :
  (forall p, In p xs -> 0 <= p) -> 0 <= sumZ xs.
Proof.
  induction xs as [|x xs IH]; intros Hpos; simpl; [lia|].
  assert (0 <= x) by (apply Hpos; now left).
  assert (0 <= sumZ xs) by (apply IH; intros p Hp; apply Hpos; now right).
  lia.
Qed.

Lemma sumZ_member_le (xs : list Z) (m : Z) :
  (forall p, In p xs -> 0 <= p) -> In m xs -> m <= sumZ xs.
Proof.
  induction xs as [|x xs IH]; intros Hpos Hin; [contradiction|].
  assert (Hx : 0 <= x) by (apply Hpos; now left).
  assert (Hxs : forall p, In p xs -> 0 <= p)
    by (intros p Hp; apply Hpos; now right).
  pose proof (sumZ_nonneg xs Hxs) as Hs.
  cbn [sumZ]. destruct Hin as [<- | Hin]; [lia|].
  specialize (IH Hxs Hin). lia.
Qed.

(** X5: for lines that carry the same non-empty list of non-negative flavor
    prices, the strategies are ordered: the "average" price is at most the
    "max" price, which is at most the "sum" price (all revisions). *)
Theorem X5_strategies_are_ordered
    (byAverage byMax bySum : OrderItem.t) (fs : list PizzaFlavor.t) :
  flavorsOf byAverage = Some fs -> flavorsOf byMax = Some fs ->
  flavorsOf bySum = Some fs -> fs <> [] ->
  pricingTypeOf byAverage = "average" -> pricingTypeOf byMax = "max" ->
  pricingTypeOf bySum = "sum" ->
  (forall p, In p (map PizzaFlavor.price fs) -> 0 <= p) ->
  exists a m s,
    WorkerPricing.calculateItemPrice byAverage = Fin a
    /\ Part000Pricing.calculateItemPrice byAverage = Fin a
    /\ WorkerPricing.calculateItemPrice byMax = Fin m
    /\ Part000Pricing.calculateItemPrice byMax = Fin m
    /\ WorkerPricing.calculateItemPrice bySum = Fin s
    /\ Part000Pricing.calculateItemPrice bySum = Fin s
    /\ a <= m <= s.
Proof.
  intros Hfa Hfm Hfs Hne Ha Hm Hs Hpos.
  destruct (max_price_greatest byMax fs Hfm Hne Hm)
    as (m & Em & Em' & Hin & Hup).
  destruct (average_price_bounds byAverage fs 0 m Hfa Hne Ha)
    as (a & Ea & Ea' & Hra).
  { intros p Hp. split; [now apply Hpos | now apply Hup]. }
  exists a, m, (sumZ (map PizzaFlavor.price fs)).
  repeat split; auto; try lia.
  - rewrite (Worker_price_by_strategy bySum fs Hfs Hne), Hs. reflexivity.
  - rewrite (Part000_price_by_strategy bySum fs Hfs Hne), Hs. reflexivity.
  - now apply sumZ_member_le.
Qed.

Lemma X5_strategies_are_ordered_witness :
  exists a m s,
    WorkerPricing.calculateItemPrice (pizza (Some "average") None) = Fin a
    /\ Part000Pricing.calculateItemPrice (pizza (Some "average") None) = Fin a
    /\ WorkerPricing.calculateItemPrice (pizza (Some "max") None) = Fin m
    /\ Part000Pricing.calculateItemPrice (pizza (Some "max") None) = Fin m
    /\ WorkerPricing.calculateItemPrice (pizza (Some "sum") None) = Fin s
    /\ Part000Pricing.calculateItemPrice (pizza (Some "sum") None) = Fin s
    /\ a <= m <= s.
Proof.
  apply (X5_strategies_are_ordered
           (pizza (Some "average") None) (pizza (Some "max") None)
           (pizza (Some "sum") None) flavors_500_700
           eq_refl eq_refl eq_refl ltac:(discriminate) eq_refl eq_refl eq_refl).
  simpl. intros p [<- | [<- | []]]; lia.
Defined.

(* ----------------------------------------------------------------- *)
(** *** Order total *)

Lemma sumZ_app (xs ys : list Z) : sumZ (xs ++ ys)%list = sumZ xs + sumZ ys.
Proof. induction xs as [|x xs IH]; simpl; [reflexivity | rewrite IH; lia]. Qed.

Lemma orderTotal_app (unit : OrderItem.t -> Z) (o : OrderData.t)
    (a b : list OrderItem.t) :
  orderTotal unit (OrderData.with_items (a ++ b)%list o)
  = orderTotal unit (OrderData.with_items a o)
    + orderTotal unit (OrderData.with_items b o).
Proof. unfold orderTotal. simpl. now rewrite map_app, sumZ_app. Qed.

Lemma orderTotal_Permutation (unit : OrderItem.t -> Z) (o : OrderData.t)
    (a b : list OrderItem.t) :
  Permutation a b ->
  orderTotal unit (OrderData.with_items a o)
  = orderTotal unit (OrderData.with_items b o).
Proof.
  intros H. unfold orderTotal. simpl.
  apply sumZ_Permutation. now apply Permutation_map.
Qed.

(** X6: calculateOrderTotal is additive over the lines and does not depend
    on their order: the total of two batches of lines put together is the sum
    of the totals of the batches, an order without lines totals 0, and
    permuting the lines of an order leaves the total unchanged (part_000 and
    src/worker.ts). *)
Theorem X6_total_additive_and_order_free
    (o : OrderData.t) (a b : list OrderItem.t) :
  WorkerPricing.calculateOrderTotal (OrderData.with_items (a ++ b)%list o)
  = add (WorkerPricing.calculateOrderTotal (OrderData.with_items a o))
        (WorkerPricing.calculateOrderTotal (OrderData.with_items b o))
  /\ Part000Pricing.calculateOrderTotal (OrderData.with_items (a ++ b)%list o)
     = add (Part000Pricing.calculateOrderTotal (OrderData.with_items a o))
           (Part000Pricing.calculateOrderTotal (OrderData.with_items b o))
  /\ WorkerPricing.calculateOrderTotal (OrderData.with_items [] o) = Fin 0
  /\ Part000Pricing.calculateOrderTotal (OrderData.with_items [] o) = Fin 0
  /\ (Permutation a b ->
        WorkerPricing.calculateOrderTotal (OrderData.with_items a o)
        = WorkerPricing.calculateOrderTotal (OrderData.with_items b o)
        /\ Part000Pricing.calculateOrderTotal (OrderData.with_items a o)
           = Part000Pricing.calculateOrderTotal (OrderData.with_items b o)).
Proof.
  rewrite !Worker_total_is_sum, !Part000_total_is_sum.
  split; [|split; [|split; [|split]]].
  - simpl add. now rewrite orderTotal_app.
  - simpl add. now rewrite orderTotal_app.
  - reflexivity.
  - reflexivity.
  - intros H. split; f_equal; now apply orderTotal_Permutation.
Qed.

Lemma X6_total_additive_and_order_free_witness :
  WorkerPricing.calculateOrderTotal
    (OrderData.with_items [combo [borda]; pizza None None] (order_of []))
  = WorkerPricing.calculateOrderTotal
      (OrderData.with_items [pizza None None; combo [borda]] (order_of []))
  /\ Part000Pricing.calculateOrderTotal
       (OrderData.with_items [combo [borda]; pizza None None] (order_of []))
     = Part000Pricing.calculateOrderTotal
         (OrderData.with_items [pizza None None; combo [borda]] (order_of [])).
Proof.
  apply (proj2 (proj2 (proj2 (proj2
           (X6_total_additive_and_order_free (order_of [])
              [combo [borda]; pizza None None]
              [pizza None None; combo [borda]]))))).
  apply perm_swap.
Defined.

(** X7: the frontend arrays shadow the backend arrays even when empty.  A
    line whose [pizzaFlavors] is the empty array is priced at its base price
    (0 when absent) whatever [orderItemPizzaFlavors] holds, and a line whose
    [complements] is the empty array has complement total 0 whatever
    [orderItemComplements] holds (all revisions). *)
Theorem X7_empty_frontend_arrays_shadow (item : OrderItem.t) :
  (OrderItem.pizzaFlavors item = Some [] ->
     WorkerPricing.calculateItemPrice item = Fin (or_zero (OrderItem.price item))
     /\ Part000Pricing.calculateItemPrice item
        = Fin (or_zero (OrderItem.price item)))
  /\ (OrderItem.complements item = Some [] ->
        WorkerPricing.complementsTotal item = 0
        /\ Part000Pricing.complementsTotal item = 0).
Proof.
  split.
  - intros H. apply no_flavors_cases. right.
    unfold flavorsOf. now rewrite H.
  - intros H.
    unfold WorkerPricing.complementsTotal, Part000Pricing.complementsTotal,
      complementsOf. rewrite H. split; reflexivity.
Qed.

Lemma X7_empty_frontend_arrays_shadow_witness :
  (WorkerPricing.calculateItemPrice shadowed_line = Fin 900
   /\ Part000Pricing.calculateItemPrice shadowed_line = Fin 900)
  /\ (WorkerPricing.complementsTotal shadowed_line = 0
      /\ Part000Pricing.complementsTotal shadowed_line = 0).
Proof.
  split.
  - apply (proj1 (X7_empty_frontend_arrays_shadow shadowed_line) eq_refl).
  - apply (proj2 (X7_empty_frontend_arrays_shadow shadowed_line) eq_refl).
Defined.

Lemma pricingTypeOf_own (item : OrderItem.t) (cfg : option PizzaConfig.t) :
  truthy_string (OrderItem.pizzaPricingType item) = true ->
  pricingTypeOf (with_pizzaConfig cfg item) = pricingTypeOf item.
Proof.
  intros H. unfold pricingTypeOf, or_string. simpl OrderItem.pizzaPricingType.
  now rewrite H.
Qed.

Lemma pricingTypeOf_empty (item : OrderItem.t) :
  OrderItem.pizzaPricingType item = Some "" ->
  pricingTypeOf item = pricingTypeOf (with_pizzaPricingType None item).
Proof.
  intros H. unfold pricingTypeOf, or_string, configPricingType.
  simpl. now rewrite H.
Qed.

Lemma price_congruence (i j : OrderItem.t) :
  flavorsOf i = flavorsOf j -> pricingTypeOf i = pricingTypeOf j ->
  OrderItem.price i = OrderItem.price j ->
  WorkerPricing.calculateItemPrice i = WorkerPricing.calculateItemPrice j
  /\ Part000Pricing.calculateItemPrice i = Part000Pricing.calculateItemPrice j.
Proof.
  intros Hf Ht Hp.
  unfold WorkerPricing.calculateItemPrice, Part000Pricing.calculateItemPrice.
  rewrite Hf, Ht, Hp. split; reflexivity.
Qed.

Lemma pricingTypeOf_set (s : string) (item : OrderItem.t) :
  s <> "" -> pricingTypeOf (with_pizzaPricingType (Some s) item) = s.
Proof.
  intros Hs. unfold pricingTypeOf, or_string. simpl.
  destruct s; [congruence | reflexivity].
Qed.

Lemma pricingTypeOf_from_own (s : string) (item : OrderItem.t) :
  OrderItem.pizzaPricingType item = Some s -> s <> "" ->
  pricingTypeOf item = s.
Proof.
  intros H Hs. unfold pricingTypeOf, or_string. rewrite H.
  destruct s; [congruence | reflexivity].
Qed.

Lemma pricingTypeOf_from_config
    (s : string) (cfg : PizzaConfig.t) (item : OrderItem.t) :
  OrderItem.pizzaPricingType item = None
  \/ OrderItem.pizzaPricingType item = Some "" ->
  OrderItem.pizzaConfig item = Some cfg ->
  PizzaConfig.pricingType cfg = Some s -> s <> "" ->
  pricingTypeOf item = s.
Proof.
  intros Hown Hcfg Hs Hne.
  unfold pricingTypeOf, or_string, configPricingType. rewrite Hcfg, Hs.
  destruct Hown as [-> | ->]; simpl; (destruct s; [congruence | reflexivity]).
Qed.

Lemma pricingTypeOf_default (item : OrderItem.t) :
  OrderItem.pizzaPricingType item = None
  \/ OrderItem.pizzaPricingType item = Some "" ->
  OrderItem.pizzaConfig item = None
  \/ (exists cfg, OrderItem.pizzaConfig item = Some cfg
                  /\ (PizzaConfig.pricingType cfg = None
                      \/ PizzaConfig.pricingType cfg = Some "")) ->
  pricingTypeOf item = "average".
Proof.
  intros Hown Hcfg. unfold pricingTypeOf, or_string, configPricingType.
  destruct Hcfg as [-> | (cfg & -> & [-> | ->])];
    destruct Hown as [-> | ->]; reflexivity.
Qed.

(** X8: the strategy of a line is resolved in three steps.  A non-empty
    [pizzaPricingType] decides, and [pizzaConfig] is then irrelevant.  When
    [pizzaPricingType] is absent or empty, a non-empty
    [pizzaConfig.pricingType] decides: the line is priced as if that value
    were its [pizzaPricingType].  When that is absent or empty too, the line
    is priced as "average".  An empty [pizzaPricingType] counts as none (all
    revisions). *)
Theorem X8_strategy_precedence (item : OrderItem.t) :
  (forall s cfg,
     OrderItem.pizzaPricingType item = Some s -> s <> "" ->
     WorkerPricing.calculateItemPrice (with_pizzaConfig cfg item)
     = WorkerPricing.calculateItemPrice item
     /\ Part000Pricing.calculateItemPrice (with_pizzaConfig cfg item)
        = Part000Pricing.calculateItemPrice item)
  /\ (forall s cfg,
        OrderItem.pizzaPricingType item = None
        \/ OrderItem.pizzaPricingType item = Some "" ->
        OrderItem.pizzaConfig item = Some cfg ->
        PizzaConfig.pricingType cfg = Some s -> s <> "" ->
        WorkerPricing.calculateItemPrice item
        = WorkerPricing.calculateItemPrice
            (with_pizzaPricingType (Some s) item)
        /\ Part000Pricing.calculateItemPrice item
           = Part000Pricing.calculateItemPrice
               (with_pizzaPricingType (Some s) item))
  /\ (OrderItem.pizzaPricingType item = None
      \/ OrderItem.pizzaPricingType item = Some "" ->
      OrderItem.pizzaConfig item = None
      \/ (exists cfg, OrderItem.pizzaConfig item = Some cfg
                      /\ (PizzaConfig.pricingType cfg = None
                          \/ PizzaConfig.pricingType cfg = Some "")) ->
        WorkerPricing.calculateItemPrice item
        = WorkerPricing.calculateItemPrice
            (with_pizzaPricingType (Some "average") item)
        /\ Part000Pricing.calculateItemPrice item
           = Part000Pricing.calculateItemPrice
               (with_pizzaPricingType (Some "average") item))
  /\ (OrderItem.pizzaPricingType item = Some "" ->
        WorkerPricing.calculateItemPrice item
        = WorkerPricing.calculateItemPrice (with_pizzaPricingType None item)
        /\ Part000Pricing.calculateItemPrice item
           = Part000Pricing.calculateItemPrice (with_pizzaPricingType None item)).
Proof.
  split; [|split; [|split]].
  - intros s cfg Hown Hs. apply price_congruence; try reflexivity.
    rewrite (pricingTypeOf_from_own s item Hown Hs).
    apply (pricingTypeOf_from_own s (with_pizzaConfig cfg item) Hown Hs).
  - intros s cfg Hown Hcfg Hcs Hs. apply price_congruence; try reflexivity.
    rewrite (pricingTypeOf_from_config s cfg item Hown Hcfg Hcs Hs).
    symmetry. now apply pricingTypeOf_set.
  - intros Hown Hcfg. apply price_congruence; try reflexivity.
    rewrite (pricingTypeOf_default item Hown Hcfg).
    symmetry. apply pricingTypeOf_set. discriminate.
  - intros H. apply price_congruence; try reflexivity.
    apply (pricingTypeOf_empty item H).
Qed.

Lemma X8_strategy_precedence_witness :
  (WorkerPricing.calculateItemPrice
     (with_pizzaConfig (Some (PizzaConfig.mk (Some "max")))
                       (pizza (Some "sum") None))
   = Fin 1200
   /\ Part000Pricing.calculateItemPrice
        (with_pizzaConfig (Some (PizzaConfig.mk (Some "max")))
                          (pizza (Some "sum") None))
      = Fin 1200)
  /\ (WorkerPricing.calculateItemPrice
        (with_pizzaConfig (Some (PizzaConfig.mk (Some "sum")))
                          (pizza (Some "") None))
      = Fin 1200
      /\ Part000Pricing.calculateItemPrice
           (with_pizzaConfig (Some (PizzaConfig.mk (Some "sum")))
                             (pizza None None))
         = Fin 1200)
  /\ (WorkerPricing.calculateItemPrice
        (with_pizzaConfig (Some (PizzaConfig.mk (Some "")))
                          (pizza (Some "") None))
      = Fin 600
      /\ Part000Pricing.calculateItemPrice (pizza None None) = Fin 600).
Proof.
  split; [|split].
  - apply (proj1 (X8_strategy_precedence (pizza (Some "sum") None))
                 "sum" (Some (PizzaConfig.mk (Some "max"))) eq_refl).
    discriminate.
  - split.
    + apply (proj1 (proj1 (proj2 (X8_strategy_precedence
               (with_pizzaConfig (Some (PizzaConfig.mk (Some "sum")))
                                 (pizza (Some "") None))))
               "sum" (PizzaConfig.mk (Some "sum"))
               (or_intror eq_refl) eq_refl eq_refl ltac:(discriminate))).
    + apply (proj2 (proj1 (proj2 (X8_strategy_precedence
               (with_pizzaConfig (Some (PizzaConfig.mk (Some "sum")))
                                 (pizza None None))))
               "sum" (PizzaConfig.mk (Some "sum"))
               (or_introl eq_refl) eq_refl eq_refl ltac:(discriminate))).
  - split.
    + apply (proj1 (proj1 (proj2 (proj2 (X8_strategy_precedence
               (with_pizzaConfig (Some (PizzaConfig.mk (Some "")))
                                 (pizza (Some "") None)))))
               (or_intror eq_refl)
               (or_intror (ex_intro _ (PizzaConfig.mk (Some ""))
                             (conj eq_refl (or_intror eq_refl)))))).
    + apply (proj2 (proj1 (proj2 (proj2 (X8_strategy_precedence
               (pizza None None))))
               (or_introl eq_refl) (or_introl eq_refl))).
Defined.

Example config_strategy_is_used :
  WorkerPricing.calculateItemPrice
    (with_pizzaConfig (Some (PizzaConfig.mk (Some "sum"))) (pizza (Some "") None))
  = Fin 1200.
Proof. reflexivity. Qed.

(* ----------------------------------------------------------------- *)
(** *** The order-created message of part_001 *)

Lemma Part001_flavorsBlock_layout (msg : string) (item : OrderItem.t) :
  Part001Render.flavorsBlock msg item
  = msg +++ Layout001.flavors (Layout.list_or_empty (flavorsOf item)).
Proof.
  unfold Part001Render.flavorsBlock.
  destruct (flavorsOf item) as [[|f fs]|]; simpl Layout.list_or_empty;
    try (simpl; now rewrite append_empty_r).
  cbv zeta. rewrite fold_left_append.
  unfold Layout001.flavors, Layout.fraction. now rewrite !append_assoc.
Qed.

Lemma Part001_complementsBlock_layout (msg : string) (item : OrderItem.t) :
  Part001Render.complementsBlock msg item
  = msg +++ Layout001.complements
              (Layout.list_or_empty (OrderItem.orderItemComplements item)).
Proof.
  unfold Part001Render.complementsBlock.
  destruct (OrderItem.orderItemComplements item) as [[|c cs]|];
    simpl Layout.list_or_empty; try (simpl; now rewrite append_empty_r).
  cbv zeta. rewrite fold_left_append.
  unfold Layout001.complements. now rewrite !append_assoc.
Qed.

Lemma Part001_itemStep_layout (msg : string) (item : OrderItem.t) :
  Part001Render.itemStep msg item = msg +++ Layout001.line item.
Proof.
  unfold Part001Render.itemStep, Layout001.line, Layout001.lineNotes. cbv zeta.
  rewrite Part001_complementsBlock_layout, Part001_flavorsBlock_layout.
  destruct (truthy_string (OrderItem.notes item));
    rewrite ?append_assoc, ?append_empty_r; reflexivity.
Qed.

(** X9: the order-created message of part_001 is the header with the order
    code, then per line the quantity-prefixed name, the flavors block with a
    1/N label per flavor, the complements block and the line notes (each
    block absent when there is nothing to show), then the order notes, the
    formatted total and the closing line; it has no payment line and no
    delivery line, so orders that differ in payment method, change or
    delivery code only are rendered alike. *)
Theorem X9_part001_created_layout (brl : Currency) (o : OrderData.t) :
  Part001.formatOrderMessage brl o ORDER_CREATED
  = header o
    +++ join (map Layout001.line (OrderData.items o))
    +++ Layout001.orderNotes o
    +++ Layout.footer
          (brl (Fin (orderTotal (fun l => to_Z (Part001.calculateItemPrice l)) o)))
          "Obrigado pela preferência! 😉"
  /\ Layout001.flavors [] = ""
  /\ Layout001.complements [] = ""
  /\ forall paymentMethod change deliveryMethodCode,
       Part001.formatOrderMessage brl
         (OrderData.mk (OrderData.code o) (OrderData.customerName o)
                       (OrderData.customerPhone o) (OrderData.notes o)
                       paymentMethod change (OrderData.status o)
                       deliveryMethodCode (OrderData.items o))
         ORDER_CREATED
       = Part001.formatOrderMessage brl o ORDER_CREATED.
Proof.
  unfold Part001.formatOrderMessage, Part001.calculateItemPrice.
  rewrite <- Worker_total_is_sum.
  split; [|split; [reflexivity|split; [reflexivity|]]].
  - unfold Part001Render.formatOrderMessage, Layout001.orderNotes, Layout.footer.
    cbv zeta.
    rewrite (fold_left_step Part001Render.itemStep Layout001.line _ _
               Part001_itemStep_layout).
    destruct (truthy_string (OrderData.notes o));
      rewrite ?append_assoc; reflexivity.
  - intros pm ch dm. reflexivity.
Qed.

Example part001_card_order_message :
  Part001.formatOrderMessage sample_brl card_order ORDER_CREATED
  = "Pedido *n° 7*" +++ nl +++ nl +++ "*Itens:*" +++ nl
    +++ "📦 ```Pizza```" +++ nl
    +++ "     _Sabores_" +++ nl
    +++ "           ```1/2 Calabresa```" +++ nl
    +++ "           ```1/2 Mussarela```" +++ nl
    +++ "     _Complementos_" +++ nl
    +++ "           ```Borda recheada```" +++ nl +++ nl
    +++ "Total *R$ 14,00*" +++ nl +++ nl
    +++ "Obrigado pela preferência! 😉".
Proof. vm_compute. reflexivity. Qed.

(* ----------------------------------------------------------------- *)
(** *** The classifiers of part_000's first document and of part_001 *)

Lemma Part000a_temporary_iff (e : JsError.t) :
  Part000a.isTemporaryProviderError (Some e) = true
  <-> (JsError.name e = "FetchError" \/ connection_fault_code e)
      \/ (exists st, JsError.status e = Some st /\ 500 <= st)
      \/ fault_phrasing e.
Proof.
  unfold Part000a.isTemporaryProviderError, connection_fault_code.
  rewrite <- message_wording, <- !is_string_eq, <- String.eqb_eq.
  destruct (String.eqb (JsError.name e) "FetchError"); simpl; [tauto|].
  destruct (is_string (JsError.code e) "ECONNRESET"); simpl; [tauto|].
  destruct (is_string (JsError.code e) "ETIMEDOUT"); simpl; [tauto|].
  destruct (JsError.status e) as [st|].
  - destruct (Z.leb_spec 500 st) as [Hle|Hlt].
    + split; auto. intros _. right; left. now exists st.
    + destruct (JsError.message e) as [m|].
      * destruct (_ || _ || _) eqn:E; split; auto; try discriminate.
        intros [[H|[H|H]] | [(st' & [= <-] & H) | H]];
          try discriminate; try lia.
      * split; [discriminate|].
        intros [[H|[H|H]] | [(st' & [= <-] & H) | H]];
          try discriminate; try lia.
  - destruct (JsError.message e) as [m|].
    + destruct (_ || _ || _) eqn:E; split; auto; try discriminate.
      intros [[H|[H|H]] | [(st' & H & _) | H]]; discriminate.
    + split; [discriminate|].
      intros [[H|[H|H]] | [(st' & H & _) | H]]; discriminate.
Qed.

(** X10: isTemporaryProviderError of part_000's first document returns true
    exactly when the error is named FetchError or has code ECONNRESET or
    ETIMEDOUT, or its own status is at least 500, or its message, case
    ignored, contains "timeout", "temporarily unavailable" or "network".  The
    status of [error.response] is not consulted: an error that carries status
    503 in its response only, without any other marker, is not temporary. *)
Theorem X10_part000a_temporary_errors (e : JsError.t) :
  (Part000a.isTemporaryProviderError (Some e) = true
   <-> (JsError.name e = "FetchError" \/ connection_fault_code e)
       \/ (exists st, JsError.status e = Some st /\ 500 <= st)
       \/ fault_phrasing e)
  /\ Part000a.isTemporaryProviderError None = false
  /\ (JsError.name e <> "FetchError" -> ~ connection_fault_code e ->
      JsError.status e = None -> ~ fault_phrasing e ->
        Part000a.isTemporaryProviderError (Some e) = false).
Proof.
  split; [apply Part000a_temporary_iff|]. split; [reflexivity|].
  intros Hname Hcode Hst Hmsg.
  destruct (Part000a.isTemporaryProviderError (Some e)) eqn:E; [|reflexivity].
  apply Part000a_temporary_iff in E.
  destruct E as [[E | E] | [(st & E & _) | E]];
    try contradiction; congruence.
Qed.

Lemma X10_part000a_temporary_errors_witness :
  Part000a.isTemporaryProviderError (Some axios_reset) = true
  /\ Part000a.isTemporaryProviderError (Some (axios_http_error 503)) = false.
Proof.
  split.
  - apply (proj2 (proj1 (X10_part000a_temporary_errors axios_reset))).
    left. right. left. reflexivity.
  - apply (proj2 (proj2 (X10_part000a_temporary_errors (axios_http_error 503)))).
    + discriminate.
    + intros [H | H]; discriminate H.
    + reflexivity.
    + intros [H | [H | H]];
        (eapply not_includes_not_mentions; [ | | exact H]; reflexivity).
Defined.

Lemma fault_wording_pattern (e : JsError.t) :
  Part001.fault_wording (match JsError.message e with
                         | Some m => m
                         | None => ""
                         end) = true
  <-> fault_pattern e.
Proof.
  unfold fault_pattern, mentions, Part001.fault_wording.
  destruct (JsError.message e) as [m|].
  - cbv zeta. rewrite !orb_true_iff, !lowered_includes. split.
    + intros [[(p & H & E) | (p & H & E)] | (p & H & E)];
        [left | right; left | right; right]; exists m, p; auto.
    + intros [(m' & p & [= <-] & H & E) | [(m' & p & [= <-] & H & E)
                                          | (m' & p & [= <-] & H & E)]];
        [left; left | left; right | right]; exists p; auto.
  - split; [discriminate|].
    intros [(m' & p & H & _) | [(m' & p & H & _) | (m' & p & H & _)]];
      discriminate.
Qed.

Lemma Part001_temporary_iff (e : JsError.t) :
  Part001.isTemporaryProviderError e = true
  <-> (exists st, JsError.status_or_response e = Some st /\ 500 <= st)
      \/ connection_fault_code e
      \/ fault_pattern e.
Proof.
  unfold Part001.isTemporaryProviderError. cbv zeta.
  rewrite <- fault_wording_pattern.
  assert (Hcode : array_includes ["ECONNRESET"; "ETIMEDOUT"] (JsError.code e) = true
                  <-> connection_fault_code e).
  { rewrite array_includes_iff. unfold connection_fault_code. split.
    - intros (c & Hc & [<- | [<- | []]]); auto.
    - intros [H | H]; eexists; (split; [exact H|]); simpl; auto. }
  rewrite <- Hcode.
  destruct (JsError.status_or_response e) as [st|]; simpl.
  - destruct (Z.eqb_spec st 0) as [-> | Hnz]; simpl.
    + rewrite orb_true_iff. split; [tauto|].
      intros [(st' & [= <-] & H) | H]; [lia | tauto].
    + destruct (Z.leb_spec 500 st) as [Hle|Hlt].
      * split; auto. intros _. left. now exists st.
      * rewrite orb_true_iff. split; [tauto|].
        intros [(st' & [= <-] & H) | H]; [lia | tauto].
  - rewrite orb_true_iff. split; [tauto|].
    intros [(st' & H & _) | H]; [discriminate | tauto].
Qed.

(** X11: isTemporaryProviderError of part_001 returns true exactly when
    the status of the error (its own, else the response's) is at least 500,
    or its code is ECONNRESET or ETIMEDOUT, or its message, case ignored,
    contains "timeout", "network" or "temporarily"; an error without status,
    code and message is not temporary. *)
Theorem X11_part001_temporary_errors (e : JsError.t) :
  (Part001.isTemporaryProviderError e = true
   <-> (exists st, JsError.status_or_response e = Some st /\ 500 <= st)
       \/ connection_fault_code e
       \/ fault_pattern e)
  /\ (JsError.status_or_response e = None -> JsError.code e = None ->
      JsError.message e = None ->
        Part001.isTemporaryProviderError e = false).
Proof.
  split; [apply Part001_temporary_iff|].
  intros Hst Hcode Hmsg.
  unfold Part001.isTemporaryProviderError. rewrite Hst, Hcode, Hmsg. reflexivity.
Qed.

Lemma X11_part001_temporary_errors_witness :
  Part001.isTemporaryProviderError
    (JsError.Error "Service Temporarily overloaded") = true
  /\ Part001.isTemporaryProviderError
       (JsError.mk "Error" None None None None) = false.
Proof.
  split.
  - apply (proj2 (proj1 (X11_part001_temporary_errors
                           (JsError.Error "Service Temporarily overloaded")))).
    right. right. right. right.
    exists "Service Temporarily overloaded", "Temporarily".
    split; [reflexivity|]. split; [|reflexivity].
    exists "Service ", " overloaded". reflexivity.
  - apply (proj2 (X11_part001_temporary_errors
                    (JsError.mk "Error" None None None None)));
      reflexivity.
Defined.

(** X12: the classifier of part_000's second document accepts whatever the
    first document's accepts: an error that the first holds temporary is
    temporary for the second too.  The converse fails for an error that has
    its status 503 in the response only. *)
Theorem X12_part000_classifiers_nested (e : JsError.t) :
  (Part000a.isTemporaryProviderError (Some e) = true ->
     Part000b.isTemporaryProviderError (Some e) = true)
  /\ Part000b.isTemporaryProviderError (Some (axios_http_error 503)) = true
  /\ Part000a.isTemporaryProviderError (Some (axios_http_error 503)) = false.
Proof.
  split; [|split; reflexivity].
  rewrite Part000a_temporary_iff, Part000b_temporary_iff.
  intros [H | [(st & Hst & Hge) | H]]; auto.
  right; left. exists st. split; [|exact Hge].
  unfold JsError.status_or_response. now rewrite Hst.
Qed.

Lemma X12_part000_classifiers_nested_witness :
  Part000b.isTemporaryProviderError (Some axios_reset) = true.
Proof.
  apply (proj1 (X12_part000_classifiers_nested axios_reset)). reflexivity.
Defined.

(* ----------------------------------------------------------------- *)
(** *** What the classifiers see of a failed send *)

(** X13: in part_001 the error that sendMessage throws keeps only the
    response status of the rejection, so it is temporary exactly when the
    gateway answered with a status of at least 500: a rejection without
    response (a reset connection, a timeout) is never temporary there,
    whatever its code or message. *)
Theorem X13_part001_send_error_class (e : JsError.t) :
  (Part001.isTemporaryProviderError (Part001_send_error e) = true
   <-> exists st, JsError.response_status e = Some st /\ 500 <= st)
  /\ (JsError.response e = None ->
        Part001.isTemporaryProviderError (Part001_send_error e) = false).
Proof.
  assert (Hiff : Part001.isTemporaryProviderError (Part001_send_error e) = true
                 <-> exists st, JsError.response_status e = Some st /\ 500 <= st).
  { unfold Part001.isTemporaryProviderError, Part001_send_error,
      JsError.status_or_response, JsError.with_status.
    cbn [JsError.status JsError.response JsError.code JsError.message
         JsError.Error JsError.response_status JsError.name].
    destruct (JsError.response_status e) as [st|].
    - simpl truthy_number. simpl or_zero.
      destruct (Z.eqb_spec st 0) as [-> | Hnz]; simpl.
      + split; [discriminate | intros (st' & [= <-] & H); lia].
      + destruct (Z.leb_spec 500 st) as [Hle|Hlt].
        * split; auto. intros _. now exists st.
        * split; [vm_compute; discriminate | intros (st' & [= <-] & H); lia].
    - split; [vm_compute; discriminate | intros (st' & H & _); discriminate]. }
  split; [exact Hiff|].
  intros Hr. apply Bool.not_true_is_false. intros E.
  apply Hiff in E. destruct E as (st & Hst & _).
  unfold JsError.response_status in Hst. rewrite Hr in Hst. discriminate.
Qed.

Lemma X13_part001_send_error_class_witness :
  Part001.isTemporaryProviderError (Part001_send_error (axios_http_error 502))
  = true
  /\ Part001.isTemporaryProviderError (Part001_send_error axios_reset) = false.
Proof.
  split.
  - apply (proj2 (proj1 (X13_part001_send_error_class (axios_http_error 502)))).
    exists 502. split; [reflexivity | lia].
  - apply (proj2 (X13_part001_send_error_class axios_reset)). reflexivity.
Defined.

(** X14: in part_000's first document a send that the gateway answers with
    an HTTP error is re-thrown by sendMessage as a plain Error that carries
    the status in its text only.  Unless that text has fault wording, the
    job processor therefore hands it to moveToFailed and returns normally,
    after exactly one POST, also when the status is 500 or above. *)
Theorem X14_part000a_http_send_failure_is_failed
    (job : OrderMessageJobData) (w : World)
    (data : option ConnectionState.t) (e : JsError.t) (r : Response.t) :
  connectionState w = inr data -> reports_open data ->
  sendText w = Some e -> JsError.response e = Some r ->
  ~ fault_phrasing (Part000a_send_error e) ->
  exists tr,
    run (Part000a.processOrderMessage job) w = (tr, inr tt)
    /\ failed tr = [Part000a_send_error e]
    /\ posted tr = 1%nat /\ delayed tr = []
    /\ JsError.status (Part000a_send_error e) = None.
Proof.
  intros Hcs Hopen Hsend Hr Hmsg.
  destruct (Part000a_send_failure job w data e Hcs Hopen Hsend)
    as (tr & Hp & Hd & Hrun).
  assert (Hcls : Part000a.isTemporaryProviderError (Some (Part000a_send_error e))
                 = false).
  { destruct (Part000a.isTemporaryProviderError (Some (Part000a_send_error e)))
      eqn:E; [|reflexivity].
    apply Part000a_temporary_iff in E. revert E Hmsg.
    unfold Part000a_send_error, connection_fault_code. rewrite Hr. simpl.
    intros [[E | [E | E]] | [(st & E & _) | E]] Hmsg;
      try discriminate; contradiction. }
  rewrite Hcls in Hrun. destruct Hrun as [Hrun Hf].
  exists tr. repeat split; auto.
  unfold Part000a_send_error. now rewrite Hr.
Qed.

Lemma X14_part000a_http_send_failure_is_failed_witness :
  exists tr,
    run (Part000a.processOrderMessage status_job)
        (gateway (in_state "open") (Some (axios_http_error 503)))
    = (tr, inr tt)
    /\ failed tr = [Part000a_send_error (axios_http_error 503)]
    /\ posted tr = 1%nat /\ delayed tr = []
    /\ JsError.status (Part000a_send_error (axios_http_error 503)) = None.
Proof.
  apply (X14_part000a_http_send_failure_is_failed status_job
           (gateway (in_state "open") (Some (axios_http_error 503)))
           (Some (ConnectionState.mk
                    (Some (ConnectionState.mkInstance (Some "open")))))
           (axios_http_error 503) (Response.mk 503 "[object Object]")
           eq_refl).
  - eexists _, _. repeat split; reflexivity.
  - reflexivity.
  - reflexivity.
  - intros [H | [H | H]];
      (eapply not_includes_not_mentions; [ | | exact H]; reflexivity).
Defined.

(* ----------------------------------------------------------------- *)
(** *** What a run sends, and when *)

Lemma notOpen_false_is_open (data : option ConnectionState.t) :
  notOpen data = inr false -> reports_open data.
Proof.
  unfold notOpen, reports_open.
  destruct data as [[[[st]|]]|]; try discriminate.
  cbn [ConnectionState.instance ConnectionState.state]. intros [= H].
  apply orb_false_iff in H. destruct H as [_ H].
  apply negb_false_iff, is_string_eq in H. subst st.
  eexists _, _. repeat split; reflexivity.
Qed.

Lemma notOpen_cases (data : option ConnectionState.t) :
  (notOpen data = inr false /\ reports_open data)
  \/ (notOpen data = inr true /\ reports_not_open data)
  \/ (notOpen data = inl JsError.TypeError_state
      /\ exists d, data = Some d /\ ConnectionState.instance d = None).
Proof.
  destruct data as [[[[st]|]]|].
  - destruct (notOpen (Some (ConnectionState.mk
                (Some (ConnectionState.mkInstance st))))) as [e|[|]] eqn:E.
    + discriminate E.
    + right; left. split; [reflexivity|]. simpl. intros ->. discriminate E.
    + left. split; [reflexivity|]. now apply notOpen_false_is_open.
  - right; right. split; [reflexivity|]. eexists. split; reflexivity.
  - right; left. split; [reflexivity | exact I].
Qed.

Lemma Part000a_run_when_open (job : OrderMessageJobData) (w : World)
    (data : option ConnectionState.t) :
  connectionState w = inr data -> reports_open data ->
  sent (fst (run (Part000a.processOrderMessage job) w))
  = [(sendTextUrl w (evolutionInstance job), EVOLUTION_API_KEY w,
      OrderData.customerPhone (order job),
      Part000a.formatOrderMessage (toLocaleCurrency w) (order job) (type job))]
  /\ checks (fst (run (Part000a.processOrderMessage job) w)) = 1%nat
  /\ delayed (fst (run (Part000a.processOrderMessage job) w)) = []
  /\ (sendText w = None ->
        snd (run (Part000a.processOrderMessage job) w) = inr tt
        /\ failed (fst (run (Part000a.processOrderMessage job) w)) = []).
Proof.
  intros Hcs Hopen.
  unfold Part000a.processOrderMessage, Part000a.sendMessage. run_processor.
  cbn -[Part000a.formatOrderMessage Part000a.isTemporaryProviderError
        show String.append].
  rewrite Hcs, (notOpen_when_open data Hopen).
  destruct (sendText w) as [e|].
  - destruct (JsError.response e) as [r|];
      match goal with
      | |- context [Part000a.isTemporaryProviderError ?x] =>
          destruct (Part000a.isTemporaryProviderError x)
      end; repeat split; try reflexivity; intros; discriminate.
  - repeat split; reflexivity.
Qed.

Lemma Part000b_run_when_open (job : OrderMessageJobData) (w : World)
    (data : option ConnectionState.t) :
  connectionState w = inr data -> reports_open data ->
  sent (fst (run (Part000b.processOrderMessage job) w))
  = [(sendTextUrl w (evolutionInstance job), EVOLUTION_API_KEY w,
      OrderData.customerPhone (order job),
      Part000b.formatOrderMessage (toLocaleCurrency w) (order job) (type job))]
  /\ checks (fst (run (Part000b.processOrderMessage job) w)) = 1%nat
  /\ delayed (fst (run (Part000b.processOrderMessage job) w)) = []
  /\ (sendText w = None ->
        snd (run (Part000b.processOrderMessage job) w) = inr tt
        /\ failed (fst (run (Part000b.processOrderMessage job) w)) = []).
Proof.
  intros Hcs Hopen.
  unfold Part000b.processOrderMessage, Part000b.sendMessage. run_processor.
  cbn -[Part000b.formatOrderMessage Part000b.isTemporaryProviderError
        show String.append].
  rewrite Hcs.
  cbn -[Part000b.formatOrderMessage Part000b.isTemporaryProviderError
        show String.append notOpen].
  rewrite (notOpen_when_open data Hopen).
  destruct (sendText w) as [e|];
    cbn -[Part000b.formatOrderMessage Part000b.isTemporaryProviderError
          show String.append].
  - match goal with
    | |- context [Part000b.isTemporaryProviderError ?x] =>
        destruct (Part000b.isTemporaryProviderError x)
    end; repeat split; try reflexivity; intros; discriminate.
  - repeat split; reflexivity.
Qed.

Lemma Part001_run_when_open (job : OrderMessageJobData) (w : World)
    (data : option ConnectionState.t) :
  connectionState w = inr data -> reports_open data ->
  sent (fst (run (Part001.processOrderMessage job) w))
  = [(sendTextUrl w (evolutionInstance job), EVOLUTION_API_KEY w,
      OrderData.customerPhone (order job),
      Part001.formatOrderMessage (toLocaleCurrency w) (order job) (type job))]
  /\ checks (fst (run (Part001.processOrderMessage job) w)) = 1%nat
  /\ delayed (fst (run (Part001.processOrderMessage job) w)) = []
  /\ (sendText w = None ->
        snd (run (Part001.processOrderMessage job) w) = inr tt
        /\ failed (fst (run (Part001.processOrderMessage job) w)) = []).
Proof.
  intros Hcs (d & i & -> & Hi & Hs).
  unfold Part001.processOrderMessage, Part001.sendMessage. run_processor.
  cbn -[Part001.formatOrderMessage Part001.isTemporaryProviderError
        show String.append].
  rewrite Hcs, Hi, Hs.
  cbn -[Part001.formatOrderMessage Part001.isTemporaryProviderError
        show String.append].
  destruct (sendText w) as [e|];
    cbn -[Part001.formatOrderMessage Part001.isTemporaryProviderError
          show String.append].
  - destruct (is_status (JsError.response_status e) 404);
      [|match goal with
        | |- context [Part001.isTemporaryProviderError ?x] =>
            destruct (Part001.isTemporaryProviderError x)
        end];
      repeat split; try reflexivity; intros; discriminate.
  - repeat split; reflexivity.
Qed.

Lemma WorkerTs_run (job : OrderMessageJobData) (w : World) :
  sent (fst (run (WorkerTs.processOrderMessage job) w))
  = [(sendTextUrl w (evolutionInstance job), EVOLUTION_API_KEY w,
      OrderData.customerPhone (order job),
      WorkerTs.formatOrderMessage (toLocaleCurrency w) (order job) (type job))]
  /\ checks (fst (run (WorkerTs.processOrderMessage job) w)) = O
  /\ delayed (fst (run (WorkerTs.processOrderMessage job) w)) = []
  /\ failed (fst (run (WorkerTs.processOrderMessage job) w)) = []
  /\ (sendText w = None ->
        snd (run (WorkerTs.processOrderMessage job) w) = inr tt)
  /\ (forall e, sendText w = Some e ->
        exists err, snd (run (WorkerTs.processOrderMessage job) w) = inl err).
Proof.
  unfold WorkerTs.processOrderMessage, WorkerTs.sendMessage. run_processor.
  cbn -[WorkerTs.formatOrderMessage WorkerTs.isTemporaryProviderError
        show String.append].
  destruct (sendText w) as [e|].
  - destruct (WorkerTs.isTemporaryProviderError (Some e));
      repeat split; try reflexivity; try (intros; discriminate);
      intros e' _; eexists; reflexivity.
  - repeat split; try reflexivity. intros e H. discriminate.
Qed.

Lemma Part000a_run_when_rejected (job : OrderMessageJobData) (w : World)
    (e : JsError.t) :
  connectionState w = inl e ->
  run (Part000a.processOrderMessage job) w
  = (fst (run (Part000a.processOrderMessage job) w),
     inl (Part000a_check_error e))
  /\ sent (fst (run (Part000a.processOrderMessage job) w)) = []
  /\ checks (fst (run (Part000a.processOrderMessage job) w)) = 1%nat
  /\ delayed (fst (run (Part000a.processOrderMessage job) w)) = []
  /\ failed (fst (run (Part000a.processOrderMessage job) w)) = [].
Proof.
  intros Hcs. unfold Part000a.processOrderMessage, Part000a_check_error.
  run_processor.
  cbn -[Part000a.formatOrderMessage show String.append].
  rewrite Hcs. destruct (JsError.response e) as [r|]; repeat split; reflexivity.
Qed.

Lemma Part000a_run_when_closed (job : OrderMessageJobData) (w : World)
    (data : option ConnectionState.t) :
  connectionState w = inr data -> notOpen data <> inr false ->
  sent (fst (run (Part000a.processOrderMessage job) w)) = []
  /\ checks (fst (run (Part000a.processOrderMessage job) w)) = 1%nat
  /\ failed (fst (run (Part000a.processOrderMessage job) w)) = []
  /\ (notOpen data = inl JsError.TypeError_state ->
        snd (run (Part000a.processOrderMessage job) w)
        = inl JsError.TypeError_state
        /\ delayed (fst (run (Part000a.processOrderMessage job) w)) = []).
Proof.
  intros Hcs Hno. unfold Part000a.processOrderMessage. run_processor.
  cbn -[Part000a.formatOrderMessage show String.append notOpen].
  rewrite Hcs.
  destruct (notOpen_cases data) as [[E _] | [[E _] | [E _]]];
    [congruence | |]; rewrite E; repeat split; try reflexivity;
    intros; discriminate.
Qed.

Lemma Part000b_run_when_rejected (job : OrderMessageJobData) (w : World)
    (e : JsError.t) :
  connectionState w = inl e ->
  sent (fst (run (Part000b.processOrderMessage job) w)) = []
  /\ checks (fst (run (Part000b.processOrderMessage job) w)) = 1%nat
  /\ delayed (fst (run (Part000b.processOrderMessage job) w)) = []
  /\ failed (fst (run (Part000b.processOrderMessage job) w)) = []
  /\ (JsError.response_status e <> Some 404 ->
        snd (run (Part000b.processOrderMessage job) w) = inl e).
Proof.
  intros Hcs. unfold Part000b.processOrderMessage. run_processor.
  cbn -[Part000b.formatOrderMessage show String.append is_status].
  rewrite Hcs.
  destruct (is_status (JsError.response_status e) 404) eqn:E;
    cbn -[Part000b.formatOrderMessage show String.append];
    repeat split; try reflexivity.
  intros H. exfalso. apply H.
  destruct (JsError.response_status e) as [st|]; [|discriminate].
  simpl in E. apply Z.eqb_eq in E. now subst.
Qed.

Lemma Part000b_run_when_closed (job : OrderMessageJobData) (w : World)
    (data : option ConnectionState.t) :
  connectionState w = inr data -> notOpen data <> inr false ->
  sent (fst (run (Part000b.processOrderMessage job) w)) = []
  /\ checks (fst (run (Part000b.processOrderMessage job) w)) = 1%nat
  /\ delayed (fst (run (Part000b.processOrderMessage job) w)) = []
  /\ failed (fst (run (Part000b.processOrderMessage job) w)) = []
  /\ (notOpen data = inl JsError.TypeError_state ->
        snd (run (Part000b.processOrderMessage job) w)
        = inl JsError.TypeError_state).
Proof.
  intros Hcs Hno. unfold Part000b.processOrderMessage. run_processor.
  cbn -[Part000b.formatOrderMessage show String.append notOpen].
  rewrite Hcs.
  cbn -[Part000b.formatOrderMessage show String.append notOpen].
  destruct (notOpen_cases data) as [[E _] | [[E _] | [E _]]];
    [congruence | |]; rewrite E; repeat split; try reflexivity;
    intros; discriminate.
Qed.

Lemma Part001_run_when_rejected (job : OrderMessageJobData) (w : World)
    (e : JsError.t) :
  connectionState w = inl e ->
  sent (fst (run (Part001.processOrderMessage job) w)) = []
  /\ checks (fst (run (Part001.processOrderMessage job) w)) = 1%nat
  /\ delayed (fst (run (Part001.processOrderMessage job) w)) = []
  /\ failed (fst (run (Part001.processOrderMessage job) w)) = []
  /\ (JsError.response_status e <> Some 404 ->
        snd (run (Part001.processOrderMessage job) w) = inl e).
Proof.
  intros Hcs. unfold Part001.processOrderMessage. run_processor.
  cbn -[Part001.formatOrderMessage show String.append is_status].
  rewrite Hcs.
  destruct (is_status (JsError.response_status e) 404) eqn:E;
    cbn -[Part001.formatOrderMessage show String.append];
    repeat split; try reflexivity.
  intros H. exfalso. apply H.
  destruct (JsError.response_status e) as [st|]; [|discriminate].
  simpl in E. apply Z.eqb_eq in E. now subst.
Qed.

Lemma Part001_run_when_closed (job : OrderMessageJobData) (w : World)
    (data : option ConnectionState.t) :
  connectionState w = inr data -> ~ reports_open data ->
  run (Part001.processOrderMessage job) w
  = (fst (run (Part001.processOrderMessage job) w), inl not_ready_error)
  /\ sent (fst (run (Part001.processOrderMessage job) w)) = []
  /\ checks (fst (run (Part001.processOrderMessage job) w)) = 1%nat
  /\ delayed (fst (run (Part001.processOrderMessage job) w)) = []
  /\ failed (fst (run (Part001.processOrderMessage job) w)) = [].
Proof.
  intros Hcs Hno. unfold Part001.processOrderMessage. run_processor.
  cbn -[Part001.formatOrderMessage show String.append is_string].
  rewrite Hcs.
  match goal with
  | |- context [is_string ?s "open"] => destruct (is_string s "open") eqn:E
  end.
  - exfalso. apply Hno. apply is_string_eq in E.
    destruct data as [[[[st]|]]|]; try discriminate.
    simpl in E. subst st. eexists _, _. repeat split; reflexivity.
  - repeat split; reflexivity.
Qed.

Lemma not_open_not_false (data : option ConnectionState.t) :
  ~ reports_open data -> notOpen data <> inr false.
Proof. intros H E. apply H. now apply notOpen_false_is_open. Qed.

Lemma open_or_not (data : option ConnectionState.t) :
  reports_open data \/ ~ reports_open data.
Proof.
  destruct (notOpen_cases data) as [[_ H] | [[E _] | [E _]]]; [now left | |];
    right; intros H; apply notOpen_when_open in H; congruence.
Qed.

(** X15: when the readiness check reports the state "open" and the POST
    resolves, part_000 (both documents) and part_001 return normally after
    exactly one readiness check and exactly one POST, which goes to the
    sendText URL of the job's instance and carries the order's customerPhone
    and the text of formatOrderMessage; nothing is scheduled or failed.
    src/worker.ts does the same without a readiness check. *)
Theorem X15_ready_gateway_sends_rendered_message
    (job : OrderMessageJobData) (w : World) (data : option ConnectionState.t) :
  sendText w = None ->
  (connectionState w = inr data -> reports_open data ->
     (snd (run (Part000a.processOrderMessage job) w) = inr tt
      /\ sent (fst (run (Part000a.processOrderMessage job) w))
         = [(sendTextUrl w (evolutionInstance job), EVOLUTION_API_KEY w,
             OrderData.customerPhone (order job),
             Part000a.formatOrderMessage (toLocaleCurrency w) (order job)
                                         (type job))]
      /\ checks (fst (run (Part000a.processOrderMessage job) w)) = 1%nat
      /\ delayed (fst (run (Part000a.processOrderMessage job) w)) = []
      /\ failed (fst (run (Part000a.processOrderMessage job) w)) = [])
     /\ (snd (run (Part000b.processOrderMessage job) w) = inr tt
         /\ sent (fst (run (Part000b.processOrderMessage job) w))
            = [(sendTextUrl w (evolutionInstance job), EVOLUTION_API_KEY w,
                OrderData.customerPhone (order job),
                Part000b.formatOrderMessage (toLocaleCurrency w) (order job)
                                            (type job))]
         /\ checks (fst (run (Part000b.processOrderMessage job) w)) = 1%nat)
     /\ (snd (run (Part001.processOrderMessage job) w) = inr tt
         /\ sent (fst (run (Part001.processOrderMessage job) w))
            = [(sendTextUrl w (evolutionInstance job), EVOLUTION_API_KEY w,
                OrderData.customerPhone (order job),
                Part001.formatOrderMessage (toLocaleCurrency w) (order job)
                                           (type job))]
         /\ checks (fst (run (Part001.processOrderMessage job) w)) = 1%nat))
  /\ (snd (run (WorkerTs.processOrderMessage job) w) = inr tt
      /\ sent (fst (run (WorkerTs.processOrderMessage job) w))
         = [(sendTextUrl w (evolutionInstance job), EVOLUTION_API_KEY w,
             OrderData.customerPhone (order job),
             WorkerTs.formatOrderMessage (toLocaleCurrency w) (order job)
                                         (type job))]
      /\ checks (fst (run (WorkerTs.processOrderMessage job) w)) = O).
Proof.
  intros Hsend. split.
  - intros Hcs Hopen.
    destruct (Part000a_run_when_open job w data Hcs Hopen)
      as (Ha1 & Ha2 & Ha3 & Ha4).
    destruct (Part000b_run_when_open job w data Hcs Hopen)
      as (Hb1 & Hb2 & Hb3 & Hb4).
    destruct (Part001_run_when_open job w data Hcs Hopen)
      as (Hc1 & Hc2 & Hc3 & Hc4).
    destruct (Ha4 Hsend) as [Ha5 Ha6].
    destruct (Hb4 Hsend) as [Hb5 _]. destruct (Hc4 Hsend) as [Hc5 _].
    repeat split; assumption.
  - destruct (WorkerTs_run job w) as (Hd1 & Hd2 & _ & _ & Hd5 & _).
    repeat split; auto.
Qed.

Lemma X15_ready_gateway_sends_rendered_message_witness :
  snd (run (Part000b.processOrderMessage created_job)
           (gateway (in_state "open") None)) = inr tt
  /\ sent (fst (run (Part000b.processOrderMessage created_job)
                    (gateway (in_state "open") None)))
     = [(sendTextUrl (gateway (in_state "open") None) "shop1", "secret",
         "5511999990000",
         Part000b.formatOrderMessage sample_brl (order created_job)
                                     ORDER_CREATED)]
  /\ checks (fst (run (Part000b.processOrderMessage created_job)
                      (gateway (in_state "open") None))) = 1%nat.
Proof.
  apply (proj1 (proj2 (proj1
           (X15_ready_gateway_sends_rendered_message created_job
              (gateway (in_state "open") None)
              (Some (ConnectionState.mk
                       (Some (ConnectionState.mkInstance (Some "open")))))
              eq_refl)
           eq_refl
           ltac:(eexists _, _; repeat split; reflexivity)))).
Defined.

(** X16: in part_000 (both documents) and part_001 every run makes exactly
    one readiness check and posts at most one message, and a message is
    posted only if the readiness check was answered with an instance in state
    "open": a rejected check, a missing body or instance, or any other state
    never leads to a send. *)
Theorem X16_no_send_without_open_state (job : OrderMessageJobData) (w : World) :
  ((List.length (sent (fst (run (Part000a.processOrderMessage job) w))) <= 1)%nat
   /\ checks (fst (run (Part000a.processOrderMessage job) w)) = 1%nat
   /\ (sent (fst (run (Part000a.processOrderMessage job) w)) <> [] ->
         exists data, connectionState w = inr data /\ reports_open data))
  /\ ((List.length (sent (fst (run (Part000b.processOrderMessage job) w))) <= 1)%nat
      /\ checks (fst (run (Part000b.processOrderMessage job) w)) = 1%nat
      /\ (sent (fst (run (Part000b.processOrderMessage job) w)) <> [] ->
            exists data, connectionState w = inr data /\ reports_open data))
  /\ ((List.length (sent (fst (run (Part001.processOrderMessage job) w))) <= 1)%nat
      /\ checks (fst (run (Part001.processOrderMessage job) w)) = 1%nat
      /\ (sent (fst (run (Part001.processOrderMessage job) w)) <> [] ->
            exists data, connectionState w = inr data /\ reports_open data)).
Proof.
  destruct (connectionState w) as [e | data] eqn:Hcs.
  - destruct (Part000a_run_when_rejected job w e Hcs) as (_ & Ha & Ha' & _).
    destruct (Part000b_run_when_rejected job w e Hcs) as (Hb & Hb' & _).
    destruct (Part001_run_when_rejected job w e Hcs) as (Hc & Hc' & _).
    rewrite Ha, Hb, Hc. simpl List.length.
    repeat split; try lia; try assumption; intros H; congruence.
  - destruct (open_or_not data) as [Hopen | Hno].
    + destruct (Part000a_run_when_open job w data Hcs Hopen) as (Ha & Ha' & _).
      destruct (Part000b_run_when_open job w data Hcs Hopen) as (Hb & Hb' & _).
      destruct (Part001_run_when_open job w data Hcs Hopen) as (Hc & Hc' & _).
      rewrite Ha, Hb, Hc. simpl List.length.
      repeat split; try lia; try assumption; intros _; now exists data.
    + pose proof (not_open_not_false data Hno) as Hnf.
      destruct (Part000a_run_when_closed job w data Hcs Hnf) as (Ha & Ha' & _).
      destruct (Part000b_run_when_closed job w data Hcs Hnf) as (Hb & Hb' & _).
      destruct (Part001_run_when_closed job w data Hcs Hno) as (_ & Hc & Hc' & _).
      rewrite Ha, Hb, Hc. simpl List.length.
      repeat split; try lia; try assumption; intros H; congruence.
Qed.

Lemma X16_no_send_without_open_state_witness :
  exists data,
    connectionState (gateway (in_state "open") (Some axios_reset)) = inr data
    /\ reports_open data.
Proof.
  apply (proj2 (proj2 (proj1 (proj2
           (X16_no_send_without_open_state status_job
              (gateway (in_state "open") (Some axios_reset))))))).
  vm_compute. discriminate.
Defined.

(** X17: src/worker.ts has no readiness gate: every run posts the rendered
    message exactly once without any readiness check, whatever state the
    gateway is in, schedules nothing and fails nothing; the run returns
    normally when the POST resolves and throws when it is rejected. *)
Theorem X17_worker_ts_always_posts_once (job : OrderMessageJobData) (w : World) :
  sent (fst (run (WorkerTs.processOrderMessage job) w))
  = [(sendTextUrl w (evolutionInstance job), EVOLUTION_API_KEY w,
      OrderData.customerPhone (order job),
      WorkerTs.formatOrderMessage (toLocaleCurrency w) (order job) (type job))]
  /\ checks (fst (run (WorkerTs.processOrderMessage job) w)) = O
  /\ delayed (fst (run (WorkerTs.processOrderMessage job) w)) = []
  /\ failed (fst (run (WorkerTs.processOrderMessage job) w)) = []
  /\ (sendText w = None ->
        snd (run (WorkerTs.processOrderMessage job) w) = inr tt)
  /\ (forall e, sendText w = Some e ->
        exists err, snd (run (WorkerTs.processOrderMessage job) w) = inl err).
Proof. exact (WorkerTs_run job w). Qed.

Lemma X17_worker_ts_always_posts_once_witness :
  snd (run (WorkerTs.processOrderMessage status_job)
           (gateway (in_state "close") None)) = inr tt
  /\ exists err,
       snd (run (WorkerTs.processOrderMessage status_job)
                (gateway (in_state "close") (Some axios_reset))) = inl err.
Proof.
  split.
  - apply (proj1 (proj2 (proj2 (proj2 (proj2
             (X17_worker_ts_always_posts_once status_job
                (gateway (in_state "close") None))))))).
    reflexivity.
  - apply (proj2 (proj2 (proj2 (proj2 (proj2
             (X17_worker_ts_always_posts_once status_job
                (gateway (in_state "close") (Some axios_reset)))))))
             axios_reset).
    reflexivity.
Defined.

(** X18: a rejected readiness check ends the run with an error and without
    a send.  part_000's first document throws the rejection itself when it
    has no response and otherwise a new "Evolution API error" that carries
    the response status; part_000's second document and part_001 throw the
    rejection itself unless its response status is 404. *)
Theorem X18_rejected_check_is_thrown
    (job : OrderMessageJobData) (w : World) (e : JsError.t) :
  connectionState w = inl e ->
  (snd (run (Part000a.processOrderMessage job) w) = inl (Part000a_check_error e)
   /\ sent (fst (run (Part000a.processOrderMessage job) w)) = []
   /\ delayed (fst (run (Part000a.processOrderMessage job) w)) = []
   /\ (JsError.response e = None -> Part000a_check_error e = e)
   /\ (forall r, JsError.response e = Some r ->
         JsError.status (Part000a_check_error e) = Some (Response.status r)))
  /\ (sent (fst (run (Part000b.processOrderMessage job) w)) = []
      /\ delayed (fst (run (Part000b.processOrderMessage job) w)) = []
      /\ (JsError.response_status e <> Some 404 ->
            snd (run (Part000b.processOrderMessage job) w) = inl e))
  /\ (sent (fst (run (Part001.processOrderMessage job) w)) = []
      /\ delayed (fst (run (Part001.processOrderMessage job) w)) = []
      /\ (JsError.response_status e <> Some 404 ->
            snd (run (Part001.processOrderMessage job) w) = inl e)).
Proof.
  intros Hcs.
  destruct (Part000a_run_when_rejected job w e Hcs) as (Ha & Ha1 & _ & Ha2 & _).
  destruct (Part000b_run_when_rejected job w e Hcs) as (Hb1 & _ & Hb2 & _ & Hb3).
  destruct (Part001_run_when_rejected job w e Hcs) as (Hc1 & _ & Hc2 & _ & Hc3).
  split; [|split]; repeat split; auto.
  - rewrite Ha. reflexivity.
  - intros Hr. unfold Part000a_check_error. now rewrite Hr.
  - intros r Hr. unfold Part000a_check_error. now rewrite Hr.
Qed.

Lemma X18_rejected_check_is_thrown_witness :
  snd (run (Part000a.processOrderMessage status_job)
           (gateway (inl (axios_http_error 500)) None))
  = inl (Part000a_check_error (axios_http_error 500))
  /\ JsError.status (Part000a_check_error (axios_http_error 500)) = Some 500
  /\ snd (run (Part000b.processOrderMessage status_job)
              (gateway (inl axios_reset) None)) = inl axios_reset
  /\ snd (run (Part001.processOrderMessage status_job)
              (gateway (inl (axios_http_error 500)) None))
     = inl (axios_http_error 500).
Proof.
  split; [|split; [|split]].
  - apply (proj1 (proj1 (X18_rejected_check_is_thrown status_job
                           (gateway (inl (axios_http_error 500)) None)
                           (axios_http_error 500) eq_refl))).
  - apply (proj2 (proj2 (proj2 (proj2 (proj1
             (X18_rejected_check_is_thrown status_job
                (gateway (inl (axios_http_error 500)) None)
                (axios_http_error 500) eq_refl)))))
             (Response.mk 500 "[object Object]") eq_refl).
  - apply (proj2 (proj2 (proj1 (proj2
             (X18_rejected_check_is_thrown status_job
                (gateway (inl axios_reset) None) axios_reset eq_refl))))).
    discriminate.
  - apply (proj2 (proj2 (proj2 (proj2
             (X18_rejected_check_is_thrown status_job
                (gateway (inl (axios_http_error 500)) None)
                (axios_http_error 500) eq_refl))))).
    discriminate.
Defined.

(** X19: a readiness answer whose body has no [instance] is an edge the
    revisions treat differently.  Both documents of part_000 read
    [data.instance.state] unguarded, so the run ends with the TypeError of
    that read, before anything is sent or scheduled; part_001 reads it
    through optional chaining and throws its "not ready" error with status
    503. *)
Theorem X19_body_without_instance
    (job : OrderMessageJobData) (w : World) (d : ConnectionState.t) :
  connectionState w = inr (Some d) -> ConnectionState.instance d = None ->
  (snd (run (Part000a.processOrderMessage job) w) = inl JsError.TypeError_state
   /\ sent (fst (run (Part000a.processOrderMessage job) w)) = []
   /\ delayed (fst (run (Part000a.processOrderMessage job) w)) = [])
  /\ (snd (run (Part000b.processOrderMessage job) w) = inl JsError.TypeError_state
      /\ sent (fst (run (Part000b.processOrderMessage job) w)) = []
      /\ delayed (fst (run (Part000b.processOrderMessage job) w)) = [])
  /\ (snd (run (Part001.processOrderMessage job) w) = inl not_ready_error
      /\ sent (fst (run (Part001.processOrderMessage job) w)) = []
      /\ delayed (fst (run (Part001.processOrderMessage job) w)) = []).
Proof.
  intros Hcs Hi.
  assert (E : notOpen (Some d) = inl JsError.TypeError_state)
    by (unfold notOpen; now rewrite Hi).
  assert (Hnf : notOpen (Some d) <> inr false) by (rewrite E; discriminate).
  assert (Hno : ~ reports_open (Some d)).
  { intros (d' & i & [= <-] & Hi' & _). congruence. }
  destruct (Part000a_run_when_closed job w (Some d) Hcs Hnf) as (Ha1 & _ & _ & Ha2).
  destruct (Ha2 E) as [Ha3 Ha4].
  destruct (Part000b_run_when_closed job w (Some d) Hcs Hnf)
    as (Hb1 & _ & Hb2 & _ & Hb3).
  destruct (Part001_run_when_closed job w (Some d) Hcs Hno)
    as (Hc0 & Hc1 & _ & Hc2 & _).
  repeat split; auto.
  rewrite Hc0. reflexivity.
Qed.

Lemma X19_body_without_instance_witness :
  snd (run (Part000b.processOrderMessage status_job)
           (gateway (inr (Some (ConnectionState.mk None))) None))
  = inl JsError.TypeError_state
  /\ snd (run (Part001.processOrderMessage status_job)
              (gateway (inr (Some (ConnectionState.mk None))) None))
     = inl not_ready_error.
Proof.
  destruct (X19_body_without_instance status_job
              (gateway (inr (Some (ConnectionState.mk None))) None)
              (ConnectionState.mk None) eq_refl eq_refl)
    as (_ & (Hb & _) & (Hc & _)).
  split; assumption.
Defined.

Lemma statusUpdateMessage_other (status : string) :
  status <> "in_preparation" -> status <> "completed" ->
  statusUpdateMessage status = "".
Proof.
  intros H1 H2. unfold statusUpdateMessage.
  apply String.eqb_neq in H1, H2. now rewrite H1, H2.
Qed.

(** X20: nothing stops an empty text from being sent.  For a status update
    whose status is neither "in_preparation" nor "completed" the rendered
    text is empty, and every revision still posts it to the customer's
    number: part_000 and part_001 once the gateway reports "open",
    src/worker.ts always. *)
Theorem X20_empty_text_is_still_sent
    (job : OrderMessageJobData) (w : World) (data : option ConnectionState.t) :
  type job = ORDER_STATUS_UPDATED ->
  OrderData.status (order job) <> "in_preparation" ->
  OrderData.status (order job) <> "completed" ->
  (connectionState w = inr data -> reports_open data ->
     sent (fst (run (Part000a.processOrderMessage job) w))
     = [(sendTextUrl w (evolutionInstance job), EVOLUTION_API_KEY w,
         OrderData.customerPhone (order job), "")]
     /\ sent (fst (run (Part000b.processOrderMessage job) w))
        = [(sendTextUrl w (evolutionInstance job), EVOLUTION_API_KEY w,
            OrderData.customerPhone (order job), "")]
     /\ sent (fst (run (Part001.processOrderMessage job) w))
        = [(sendTextUrl w (evolutionInstance job), EVOLUTION_API_KEY w,
            OrderData.customerPhone (order job), "")])
  /\ sent (fst (run (WorkerTs.processOrderMessage job) w))
     = [(sendTextUrl w (evolutionInstance job), EVOLUTION_API_KEY w,
         OrderData.customerPhone (order job), "")].
Proof.
  intros Ht H1 H2.
  pose proof (statusUpdateMessage_other _ H1 H2) as Hmsg.
  split.
  - intros Hcs Hopen.
    destruct (Part000a_run_when_open job w data Hcs Hopen) as (Ha & _).
    destruct (Part000b_run_when_open job w data Hcs Hopen) as (Hb & _).
    destruct (Part001_run_when_open job w data Hcs Hopen) as (Hc & _).
    rewrite Ha, Hb, Hc, Ht.
    unfold Part000a.formatOrderMessage, Part000b.formatOrderMessage,
      Part001.formatOrderMessage, Part000Render.formatOrderMessage,
      Part001Render.formatOrderMessage.
    rewrite Hmsg. repeat split; reflexivity.
  - destruct (WorkerTs_run job w) as (Hd & _).
    rewrite Hd, Ht.
    unfold WorkerTs.formatOrderMessage, WorkerRender.formatOrderMessage.
    now rewrite Hmsg.
Qed.

Lemma X20_empty_text_is_still_sent_witness :
  sent (fst (run (WorkerTs.processOrderMessage cancelled_job)
                 (gateway (in_state "open") None)))
  = [(sendTextUrl (gateway (in_state "open") None) "shop1", "secret",
      "5511999990000", "")].
Proof.
  apply (proj2 (X20_empty_text_is_still_sent cancelled_job
                  (gateway (in_state "open") None) None eq_refl
                  ltac:(discriminate) ltac:(discriminate))).
Defined.

(** X21: in part_000's second document and in part_001 a rejected send
    always ends the run with the error of sendMessage thrown, whatever the
    status or class of the rejection.  In particular the branch of part_000's
    second document that would end the attempt quietly on a 404 is never
    taken after a send: no rejected send returns normally. *)
Theorem X21_rejected_send_is_always_thrown
    (job : OrderMessageJobData) (w : World)
    (data : option ConnectionState.t) (e : JsError.t) :
  connectionState w = inr data -> reports_open data -> sendText w = Some e ->
  snd (run (Part000b.processOrderMessage job) w) = inl (Part000b_send_error e)
  /\ snd (run (Part001.processOrderMessage job) w) = inl (Part001_send_error e)
  /\ JsError.response (Part000b_send_error e) = None
  /\ JsError.status (Part000b_send_error e) = JsError.response_status e
  /\ JsError.status (Part001_send_error e) = JsError.response_status e.
Proof.
  intros Hcs Hopen Hsend.
  destruct (Part000b_send_failure job w data e Hcs Hopen Hsend) as (tr & Hb & _).
  destruct (Part001_send_failure job w data e Hcs Hopen Hsend) as (tr' & Hc & _).
  rewrite Hb, Hc. repeat split; reflexivity.
Qed.

Lemma X21_rejected_send_is_always_thrown_witness :
  snd (run (Part000b.processOrderMessage status_job)
           (gateway (in_state "open") (Some (axios_http_error 404))))
  = inl (Part000b_send_error (axios_http_error 404))
  /\ JsError.status (Part000b_send_error (axios_http_error 404)) = Some 404.
Proof.
  destruct (X21_rejected_send_is_always_thrown status_job
              (gateway (in_state "open") (Some (axios_http_error 404)))
              (Some (ConnectionState.mk
                       (Some (ConnectionState.mkInstance (Some "open")))))
              (axios_http_error 404) eq_refl
              ltac:(eexists _, _; repeat split; reflexivity) eq_refl)
    as (Hb & _ & _ & Hs & _).
  split; [exact Hb | exact Hs].
Defined.

(** X22: in part_000's first document a rejected send has exactly one of
    two ends.  If isTemporaryProviderError accepts the error thrown by
    sendMessage, that error is thrown on and nothing is handed to
    moveToFailed; otherwise it is handed to moveToFailed once and the run
    returns normally.  Either way one message was posted and no re-run is
    scheduled. *)
Theorem X22_part000a_rejected_send_ends
    (job : OrderMessageJobData) (w : World)
    (data : option ConnectionState.t) (e : JsError.t) :
  connectionState w = inr data -> reports_open data -> sendText w = Some e ->
  exists tr,
    posted tr = 1%nat /\ delayed tr = []
    /\ (Part000a.isTemporaryProviderError (Some (Part000a_send_error e)) = true ->
          run (Part000a.processOrderMessage job) w
          = (tr, inl (Part000a_send_error e))
          /\ failed tr = [])
    /\ (Part000a.isTemporaryProviderError (Some (Part000a_send_error e)) = false ->
          run (Part000a.processOrderMessage job) w = (tr, inr tt)
          /\ failed tr = [Part000a_send_error e]).
Proof.
  intros Hcs Hopen Hsend.
  destruct (Part000a_send_failure job w data e Hcs Hopen Hsend)
    as (tr & Hp & Hd & Hrun).
  exists tr. split; [exact Hp|]. split; [exact Hd|].
  destruct (Part000a.isTemporaryProviderError (Some (Part000a_send_error e)));
    split; intros H; try discriminate; exact Hrun.
Qed.

Lemma X22_part000a_rejected_send_ends_witness :
  exists tr,
    posted tr = 1%nat /\ delayed tr = []
    /\ run (Part000a.processOrderMessage status_job)
           (gateway (in_state "open") (Some axios_reset))
       = (tr, inl axios_reset)
    /\ failed tr = [].
Proof.
  destruct (X22_part000a_rejected_send_ends status_job
              (gateway (in_state "open") (Some axios_reset))
              (Some (ConnectionState.mk
                       (Some (ConnectionState.mkInstance (Some "open")))))
              axios_reset eq_refl
              ltac:(eexists _, _; repeat split; reflexivity) eq_refl)
    as (tr & Hp & Hd & Ht & _).
  exists tr. split; [exact Hp|]. split; [exact Hd|]. apply Ht. reflexivity.
Defined.

(** X23: in src/worker.ts a rejected send is thrown on unchanged when
    isTemporaryProviderError accepts it, and otherwise replaced by a new
    error "Falha permanente ao enviar mensagem: " followed by the original
    message.  The replacement has neither code nor response, so the
    classifier itself never takes a permanent failure for a temporary one. *)
Theorem X23_worker_ts_rejected_send
    (job : OrderMessageJobData) (w : World) (e : JsError.t) :
  sendText w = Some e ->
  (WorkerTs.isTemporaryProviderError (Some e) = true ->
     snd (run (WorkerTs.processOrderMessage job) w) = inl e)
  /\ (WorkerTs.isTemporaryProviderError (Some e) = false ->
        snd (run (WorkerTs.processOrderMessage job) w)
        = inl (JsError.Error ("Falha permanente ao enviar mensagem: "
                              +++ show_string (JsError.message e))))
  /\ WorkerTs.isTemporaryProviderError
       (Some (JsError.Error ("Falha permanente ao enviar mensagem: "
                             +++ show_string (JsError.message e)))) = false.
Proof.
  intros Hsend.
  destruct (WorkerTs_send_failure job w e Hsend) as (tr & _ & _ & _ & Hrun).
  rewrite Hrun. cbn [snd].
  split; [|split; [|reflexivity]]; intros H; now rewrite H.
Qed.

Lemma X23_worker_ts_rejected_send_witness :
  snd (run (WorkerTs.processOrderMessage status_job)
           (gateway (in_state "open") (Some axios_reset)))
  = inl axios_reset
  /\ snd (run (WorkerTs.processOrderMessage status_job)
              (gateway (in_state "open") (Some (axios_http_error 400))))
     = inl (JsError.Error
              ("Falha permanente ao enviar mensagem: "
               +++ show_string (JsError.message (axios_http_error 400)))).
Proof.
  split.
  - apply (proj1 (X23_worker_ts_rejected_send status_job
                    (gateway (in_state "open") (Some axios_reset))
                    axios_reset eq_refl)).
    reflexivity.
  - apply (proj1 (proj2 (X23_worker_ts_rejected_send status_job
                           (gateway (in_state "open")
                                    (Some (axios_http_error 400)))
                           (axios_http_error 400) eq_refl))).
    reflexivity.
Defined.
